(** * FocusGuard: the session-tracking hook, its early version, the
      session-type modal, the application around them, the time
      formatting and the face detector, embedded as state transformers.

    The hook of [useSessionTracking] keeps React state ([useState]) and
    refs ([useRef]).  A function the hook creates is modelled as a
    function on the record of all of them.  What the source reads from a
    state variable is a constant of the render that created the function
    ([Tracker.Render]); what it reads from a ref or receives in an
    updater is the value at the call; its setters are applied when it
    returns.  A caller that takes the function after every render gets
    [Tracker.updateFocusState]; a caller that keeps one, as the camera's
    detection loop does, gets [Tracker.updateFocusStateOf] of the render
    it took it from.  The readings of [Date.now()] within one call are
    one instant.  Numbers that JavaScript keeps as doubles are exact
    here: instants are integer milliseconds ([Z]), seconds and
    confidences are rationals ([Q]). *)

From Stdlib Require Import ZArith QArith Qfield Qabs Bool List String Ascii Lia.
From Stdlib Require Import Qround DecimalString DecimalPos.
Import ListNotations.

Local Open Scope Z_scope.

(** ** The browser side: clock, interval timers, notification bridge *)

Module Browser.

(** The three message pairs passed to [window.electronAPI.notify]. *)
Inductive Notice := SessionComplete | ComeBack | StayHydrated.

(** The closures [startSession] hands to [setInterval]: the early hook's
    one-second counter, the later hook's countdown and its 30-minute
    water reminder. *)
Inductive Callback := ElapsedTick | CountdownTick | WaterReminder.

Inductive Effect :=
| Notified (n : Notice)
| Armed (id : nat) (cb : Callback) (ms : Z)
| Cleared (id : nat).

Record Timer := mkTimer { timerId : nat; timerCallback : Callback; timerMs : Z }.

Record Env := mkEnv {
  clock : Z;                  (* what Date.now() returns, in ms *)
  notifyExposed : bool;       (* window.electronAPI?.notify *)
  live : list Timer;          (* intervals armed and not yet cleared *)
  nextTimer : nat;            (* id the next setInterval returns *)
  trace : list (Z * Effect)   (* effects so far, oldest first *)
}.

Definition dateNow (e : Env) : Z := clock e.

Definition emit (x : Effect) (e : Env) : Env :=
  mkEnv (clock e) (notifyExposed e) (live e) (nextTimer e)
        (trace e ++ [(clock e, x)]).

(** [if (window.electronAPI?.notify) window.electronAPI.notify(...)] *)
Definition notify (n : Notice) (e : Env) : Env :=
  if notifyExposed e then emit (Notified n) e else e.

Definition setInterval (cb : Callback) (ms : Z) (e : Env) : nat * Env :=
  let id := nextTimer e in
  (id, emit (Armed id cb ms)
         (mkEnv (clock e) (notifyExposed e)
                (live e ++ [mkTimer id cb ms]) (S id) (trace e))).

Definition clearInterval (id : nat) (e : Env) : Env :=
  emit (Cleared id)
    (mkEnv (clock e) (notifyExposed e)
           (filter (fun t => negb (Nat.eqb (timerId t) id)) (live e))
           (nextTimer e) (trace e)).

(** The event loop moves the clock between two handlers. *)
Definition setClock (t : Z) (e : Env) : Env :=
  mkEnv t (notifyExposed e) (live e) (nextTimer e) (trace e).

Definition findTimer (id : nat) (e : Env) : option Timer :=
  find (fun t => Nat.eqb (timerId t) id) (live e).

(** A page just loaded: no interval armed, ids start at 1. *)
Definition fresh (t : Z) (bridge : bool) : Env := mkEnv t bridge [] 1%nat [].

Definition isNotice (n : Notice) (x : Z * Effect) : bool :=
  match snd x, n with
  | Notified SessionComplete, SessionComplete => true
  | Notified ComeBack, ComeBack => true
  | Notified StayHydrated, StayHydrated => true
  | _, _ => false
  end.

Definition isCleared (x : Z * Effect) : bool :=
  match snd x with Cleared _ => true | _ => false end.

(** How many times [n] was sent to the notification bridge. *)
Definition notices (n : Notice) (e : Env) : nat :=
  List.length (filter (isNotice n) (trace e)).

End Browser.

(** ** JavaScript coercions used by the hook *)

Module JS.

(** [!x] on a value that is [null] or a number: [null] and [0] are falsy. *)
Definition truthy (x : option Z) : bool :=
  match x with
  | Some t => negb (t =? 0)
  | None => false
  end.

Definition truthyId (x : option nat) : bool :=
  match x with
  | Some n => negb (Nat.eqb n 0)
  | None => false
  end.

(** [null] used in arithmetic is [0]. *)
Definition toNumber (x : option Z) : Z :=
  match x with
  | Some t => t
  | None => 0
  end.

(** [ms / 1000] *)
Definition seconds (ms : Z) : Q := (inject_Z ms / 1000)%Q.

End JS.

Inductive FocusState := focused | distracted | away.

Inductive SessionTypeId := pomodoro | deepWork | shortSprint | custom.

Record SessionConfig := mkConfig {
  configType : SessionTypeId;
  configDuration : Z;
  configName : string
}.

(** What [CameraFeed] reports: [{ faceDetected, faces, confidence }]. *)
Record DetectionResults := mkDetection {
  faceDetected : bool;
  confidence : Q
}.

(** The object [stopSession] returns. *)
Record Summary := mkSummary {
  sumDuration : Z;
  sumFocusedTime : Q;
  sumDistractedTime : Q;
  sumAwayTime : Q;
  sumFocusScore : Q
}.

(** ** The session hook with countdown and notifications (the later version) *)

Module Tracker.
Import Browser JS.

Record Hook := mkHook {
  (* useState *)
  sessionActive : bool;
  sessionStartTime : option Z;
  sessionDuration : Z;
  focusedTime : Q;
  distractedTime : Q;
  awayTime : Q;
  sessionType : option SessionTypeId;
  targetDuration : Z;
  remainingTime : Z;
  awayStartTime : option Z;
  awayNotificationShown : bool;
  (* useRef *)
  currentStateRef : FocusState;
  lastUpdateTimeRef : option Z;
  intervalRef : option nat;
  waterIntervalRef : option nat
}.

Record World := mkWorld { env : Env; hook : Hook }.

(** First render: the initial values given to [useState] and [useRef]. *)
Definition mount (e : Env) : World :=
  mkWorld e (mkHook false None 0 0 0 0 None 0 0 None false away None None None).

Definition setRemainingTime (v : Z) (w : World) : World :=
  let h := hook w in
  mkWorld (env w)
    (mkHook (sessionActive h) (sessionStartTime h) (sessionDuration h)
            (focusedTime h) (distractedTime h) (awayTime h)
            (sessionType h) (targetDuration h) v
            (awayStartTime h) (awayNotificationShown h)
            (currentStateRef h) (lastUpdateTimeRef h)
            (intervalRef h) (waterIntervalRef h)).

Definition setSessionDuration (v : Z) (w : World) : World :=
  let h := hook w in
  mkWorld (env w)
    (mkHook (sessionActive h) (sessionStartTime h) v
            (focusedTime h) (distractedTime h) (awayTime h)
            (sessionType h) (targetDuration h) (remainingTime h)
            (awayStartTime h) (awayNotificationShown h)
            (currentStateRef h) (lastUpdateTimeRef h)
            (intervalRef h) (waterIntervalRef h)).

(** [sessionDuration > 0 ? (focusedTime / sessionDuration) * 100 : 0] *)
Definition focusScore (h : Hook) : Q :=
  if 0 <? sessionDuration h
  then ((focusedTime h / inject_Z (sessionDuration h)) * 100)%Q
  else 0%Q.

(** [if (ref.current) { clearInterval(ref.current); ref.current = null; }] *)
Definition release (r : option nat) (e : Env) : option nat * Env :=
  match r with
  | Some id => if truthyId r then (None, clearInterval id e) else (r, e)
  | None => (r, e)
  end.

Definition stopSession (w : World) : World * Summary :=
  let h := hook w in
  let '(interval', e1) := release (intervalRef h) (env w) in
  let '(water', e2) := release (waterIntervalRef h) e1 in
  (mkWorld e2
     (mkHook false (sessionStartTime h) (sessionDuration h)
             (focusedTime h) (distractedTime h) (awayTime h)
             (sessionType h) (targetDuration h) (remainingTime h)
             None false
             (currentStateRef h) (lastUpdateTimeRef h)
             interval' water'),
   mkSummary (sessionDuration h) (focusedTime h) (distractedTime h)
             (awayTime h) (focusScore h)).

Definition startSession (sessionConfig : SessionConfig) (w : World) : World :=
  let now := dateNow (env w) in
  let '(tick, e1) := setInterval CountdownTick 1000 (env w) in
  let '(water, e2) := setInterval WaterReminder (30 * 60 * 1000) e1 in
  mkWorld e2
    (mkHook true (Some now) 0 0 0 0
            (Some (configType sessionConfig))
            (configDuration sessionConfig) (configDuration sessionConfig)
            None false
            away (Some now)
            (Some tick) (Some water)).

(** Called when the countdown reaches 0; the object [stopSession]
    returns is dropped.  The interval keeps the closure of the render
    that started the session: of what it captured, only the setters and
    the refs act on the state. *)
Definition handleSessionComplete (w : World) : World :=
  fst (stopSession (mkWorld (notify SessionComplete (env w)) (hook w))).

(** The closure armed every 1000 ms: the updater given to
    [setRemainingTime], then the one given to [setSessionDuration]. *)
Definition countdownTick (w : World) : World :=
  let prev := remainingTime (hook w) in
  let w1 := if prev <=? 1
            then setRemainingTime 0 (handleSessionComplete w)
            else setRemainingTime (prev - 1) w in
  setSessionDuration (sessionDuration (hook w1) + 1) w1.

(** The closure armed every 30 minutes. *)
Definition waterReminder (w : World) : World :=
  mkWorld (notify StayHydrated (env w)) (hook w).

(** [faceDetected ? (confidence >= 0.6 ? 'focused' : 'distracted') : 'away'] *)
Definition classify (d : DetectionResults) : FocusState :=
  if faceDetected d
  then (if Qle_bool 0.6%Q (confidence d) then focused else distracted)
  else away.

(** What a function created by one render holds of the state.  The body
    of [updateFocusState] reads [sessionActive], [awayStartTime] and
    [awayNotificationShown] as constants of the render that created the
    function; it reaches everything else through the refs and through the
    updaters it gives to the setters, which act on the state as it is
    when the call is made. *)
Record Render := mkRender {
  seenActive : bool;
  seenAwayStartTime : option Z;
  seenAwayNotificationShown : bool
}.

(** The constants of the render that shows the hook state [h]. *)
Definition render (h : Hook) : Render :=
  mkRender (sessionActive h) (awayStartTime h) (awayNotificationShown h).

(** [updateFocusState] as created by the render [r], called on the world
    [w]: [r] may be older than [w] when the caller kept the function. *)
Definition updateFocusStateOf (r : Render) (detectionResults : DetectionResults)
    (w : World) : World :=
  let h := hook w in
  if negb (seenActive r) || negb (truthy (lastUpdateTimeRef h)) then w else
  let newState := classify detectionResults in
  let now := dateNow (env w) in
  let deltaSeconds := seconds (now - toNumber (lastUpdateTimeRef h)) in
  (* the bucket of the PREVIOUS state *)
  let focused' : Q := match currentStateRef h with
                      | focused => (focusedTime h + deltaSeconds)%Q
                      | _ => focusedTime h
                      end in
  let distracted' : Q := match currentStateRef h with
                         | distracted => (distractedTime h + deltaSeconds)%Q
                         | _ => distractedTime h
                         end in
  let away' : Q := match currentStateRef h with
                   | away => (awayTime h + deltaSeconds)%Q
                   | _ => awayTime h
                   end in
  (* away notification tracking; a setter that is not called leaves the
     state variable as it is now *)
  let '(awayStart', shown', e') :=
    match newState with
    | away =>
        if negb (truthy (seenAwayStartTime r))
        then (Some (dateNow (env w)), awayNotificationShown h, env w)
        else
          let awaySeconds :=
            seconds (dateNow (env w) - toNumber (seenAwayStartTime r)) in
          if Qle_bool 10%Q awaySeconds && negb (seenAwayNotificationShown r)
          then (awayStartTime h, true, notify ComeBack (env w))
          else (awayStartTime h, awayNotificationShown h, env w)
    | _ => (None, false, env w)
    end in
  mkWorld e'
    (mkHook (sessionActive h) (sessionStartTime h) (sessionDuration h)
            focused' distracted' away'
            (sessionType h) (targetDuration h) (remainingTime h)
            awayStart' shown'
            newState (Some now)
            (intervalRef h) (waterIntervalRef h)).

(** [updateFocusState] as the hook returns it from the render of [w]
    itself: the call of a caller that takes the function after every
    render. *)
Definition updateFocusState (detectionResults : DetectionResults) (w : World) : World :=
  updateFocusStateOf (render (hook w)) detectionResults w.

(** What can reach the hook: the three commands it exports and the
    browser running the callback of an interval that is still armed. *)
Inductive Command :=
| Start (sessionConfig : SessionConfig)
| Stop
| Update (detectionResults : DetectionResults)
| Fire (id : nat).

Definition fire (id : nat) (w : World) : World :=
  match findTimer id (env w) with
  | Some t =>
      match timerCallback t with
      | CountdownTick => countdownTick w
      | WaterReminder => waterReminder w
      | ElapsedTick => setSessionDuration (sessionDuration (hook w) + 1) w
      end
  | None => w
  end.

Definition handle (c : Command) (w : World) : World :=
  match c with
  | Start cfg => startSession cfg w
  | Stop => fst (stopSession w)
  | Update d => updateFocusState d w
  | Fire id => fire id w
  end.

Definition at_time (t : Z) (w : World) : World :=
  mkWorld (setClock t (env w)) (hook w).

(** A timed script: each command runs with [Date.now()] at its instant. *)
Fixpoint run (script : list (Z * Command)) (w : World) : World :=
  match script with
  | [] => w
  | (t, c) :: rest => run rest (handle c (at_time t w))
  end.

(** [focusedTime + distractedTime + awayTime] *)
Definition accumulated (h : Hook) : Q :=
  (focusedTime h + distractedTime h + awayTime h)%Q.

(** Wall-clock seconds since [sessionStartTime], read at the present
    instant. *)
Definition elapsedSinceStart (w : World) : Q :=
  seconds (dateNow (env w) - toNumber (sessionStartTime (hook w))).

(** Seconds from [sessionStartTime] to the instant of the last update. *)
Definition elapsedAtLastUpdate (h : Hook) : Q :=
  seconds (toNumber (lastUpdateTimeRef h) - toNumber (sessionStartTime h)).

(** Relative tolerance of 1e-6 between a measure and its reference. *)
Definition withinTolerance (measure reference : Q) : Prop :=
  (Qabs (measure - reference) <= (1 # 1000000) * Qabs reference)%Q.

(** The buckets hold the time between the start and the last update. *)
Definition conserved (h : Hook) : Prop :=
  (accumulated h == elapsedAtLastUpdate h)%Q.

(** The instants of a script never go back, starting from [from]. *)
Fixpoint ordered (from : Z) (script : list (Z * Command)) : Prop :=
  match script with
  | [] => True
  | (t, _) :: rest => from <= t /\ ordered t rest
  end.

(** Nothing negative has been counted and the last update is not in the
    future. *)
Definition sane (w : World) : Prop :=
  (0 <= focusedTime (hook w))%Q /\
  0 <= sessionDuration (hook w) /\
  match lastUpdateTimeRef (hook w) with
  | Some l => l <= clock (env w)
  | None => True
  end.

(** The detection loop calls [updateFocusState] at each instant. *)
Definition updates (ds : list (Z * DetectionResults)) : list (Z * Command) :=
  map (fun td => (fst td, Update (snd td))) ds.

(** The same detection at the given multiples of 100 ms after [t0]. *)
Definition stream (t0 : Z) (d : DetectionResults) (steps : list nat)
  : list (Z * DetectionResults) :=
  map (fun k => (t0 + 100 * Z.of_nat k, d)) steps.

Definition detections (t0 : Z) (d : DetectionResults) (steps : list nat)
  : list (Z * Command) :=
  updates (stream t0 d steps).

(** An uninterrupted away period: detections without a face, none at
    the instant 0. *)
Definition awayPeriod (ds : list (Z * DetectionResults)) : bool :=
  forallb (fun td => negb (faceDetected (snd td)) && negb (fst td =? 0)) ds.

(** The detection comes ten seconds or more after the period opened. *)
Definition late (opened : Z) (td : Z * DetectionResults) : bool :=
  opened + 10000 <=? fst td.

(** An active session with no away period open. *)
Definition closedGuard (w : World) : Prop :=
  sessionActive (hook w) = true /\
  truthy (lastUpdateTimeRef (hook w)) = true /\
  awayStartTime (hook w) = None /\
  awayNotificationShown (hook w) = false.

(** What a period opened at [opened] adds to the trace over the
    detections that follow its first one. *)
Definition comeBack (opened : Z) (shown exposed : bool)
    (rest : list (Z * DetectionResults)) : list (Z * Effect) :=
  if shown || negb exposed then []
  else match find (late opened) rest with
       | Some td => [(fst td, Notified ComeBack)]
       | None => []
       end.

(** The browser runs the callback of interval [id] at each instant. *)
Definition ticks (id : nat) (instants : list Z) : list (Z * Command) :=
  map (fun t => (t, Fire id)) instants.

(** The browser runs, at each instant, the callback of the interval named
    with it; an interval that is not armed has none. *)
Definition fires (timers : list (Z * nat)) : list (Z * Command) :=
  map (fun x => (fst x, Fire (snd x))) timers.

(** A session started on a page just loaded at [t0]: its countdown is
    interval 1, its water reminder interval 2. *)
Definition firstSession (t0 : Z) (bridge : bool) (cfg : SessionConfig) : World :=
  startSession cfg (mount (fresh t0 bridge)).

(** [k] seconds counted down at instant [t], nothing else touched. *)
Definition countedDown (k : Z) (t : Z) (w : World) : World :=
  setSessionDuration (sessionDuration (hook w) + k)
    (setRemainingTime (remainingTime (hook w) - k) (at_time t w)).

End Tracker.

(** ** Calls through functions that were kept *)

Module Calls.
Import Browser JS Tracker.

(** A call that reaches the hook: through what the hook returned from
    its latest render, or through an [updateFocusState] that the caller
    kept from the render [r]. *)
Inductive Call :=
| Fresh (c : Command)
| Kept (r : Render) (detectionResults : DetectionResults).

Definition handle (c : Call) (w : World) : World :=
  match c with
  | Fresh c => Tracker.handle c w
  | Kept r d => updateFocusStateOf r d w
  end.

Fixpoint run (script : list (Z * Call)) (w : World) : World :=
  match script with
  | [] => w
  | (t, c) :: rest => run rest (handle c (at_time t w))
  end.

(** The script starts no session: it stays within the one under way. *)
Fixpoint sameSession (script : list (Z * Call)) : Prop :=
  match script with
  | [] => True
  | (_, Fresh (Start _)) :: _ => False
  | _ :: rest => sameSession rest
  end.

(** The instant of the last update of the script, [from] when it has
    none.  An update through a kept function whose render saw no active
    session returns at once and does not count; one through the latest
    function counts, as it does whenever the session is active. *)
Fixpoint lastUpdate (from : Z) (script : list (Z * Call)) : Z :=
  match script with
  | [] => from
  | (t, Fresh (Update _)) :: rest => lastUpdate t rest
  | (t, Kept r _) :: rest => lastUpdate (if seenActive r then t else from) rest
  | _ :: rest => lastUpdate from rest
  end.

(** The detection loop handing each detection to one kept function. *)
Definition keptStream (r : Render) (ds : list (Z * DetectionResults))
  : list (Z * Call) :=
  map (fun td => (fst td, Kept r (snd td))) ds.

End Calls.

(** ** The first version of the hook: no countdown, no notifications *)

Module Early.
Import Browser JS.

Record Hook := mkHook {
  (* useState *)
  sessionActive : bool;
  sessionStartTime : option Z;
  sessionDuration : Z;
  focusedTime : Q;
  distractedTime : Q;
  awayTime : Q;
  (* useRef *)
  currentStateRef : FocusState;
  lastUpdateTimeRef : option Z;
  intervalRef : option nat
}.

Record World := mkWorld { env : Env; hook : Hook }.

Definition mount (e : Env) : World :=
  mkWorld e (mkHook false None 0 0 0 0 away None None).

Definition setSessionDuration (v : Z) (w : World) : World :=
  let h := hook w in
  mkWorld (env w)
    (mkHook (sessionActive h) (sessionStartTime h) v
            (focusedTime h) (distractedTime h) (awayTime h)
            (currentStateRef h) (lastUpdateTimeRef h) (intervalRef h)).

Definition focusScore (h : Hook) : Q :=
  if 0 <? sessionDuration h
  then ((focusedTime h / inject_Z (sessionDuration h)) * 100)%Q
  else 0%Q.

Definition startSession (w : World) : World :=
  let now := dateNow (env w) in
  let '(tick, e1) := setInterval ElapsedTick 1000 (env w) in
  mkWorld e1 (mkHook true (Some now) 0 0 0 0 away (Some now) (Some tick)).

Definition stopSession (w : World) : World * Summary :=
  let h := hook w in
  let '(interval', e1) :=
    match intervalRef h with
    | Some id => if truthyId (intervalRef h)
                 then (None, clearInterval id (env w))
                 else (intervalRef h, env w)
    | None => (None, env w)
    end in
  (mkWorld e1
     (mkHook false (sessionStartTime h) (sessionDuration h)
             (focusedTime h) (distractedTime h) (awayTime h)
             (currentStateRef h) (lastUpdateTimeRef h) interval'),
   mkSummary (sessionDuration h) (focusedTime h) (distractedTime h)
             (awayTime h) (focusScore h)).

Definition classify (d : DetectionResults) : FocusState :=
  if faceDetected d
  then (if Qle_bool 0.6%Q (confidence d) then focused else distracted)
  else away.

(** [updateFocusState] as created by a render that saw [sessionActive]
    as [seen]; the buckets and the refs are reached as they are at the
    call. *)
Definition updateFocusStateOf (seen : bool) (detectionResults : DetectionResults)
    (w : World) : World :=
  let h := hook w in
  if negb seen || negb (truthy (lastUpdateTimeRef h)) then w else
  let newState := classify detectionResults in
  let now := dateNow (env w) in
  let deltaSeconds := seconds (now - toNumber (lastUpdateTimeRef h)) in
  let focused' : Q := match currentStateRef h with
                      | focused => (focusedTime h + deltaSeconds)%Q
                      | _ => focusedTime h
                      end in
  let distracted' : Q := match currentStateRef h with
                         | distracted => (distractedTime h + deltaSeconds)%Q
                         | _ => distractedTime h
                         end in
  let away' : Q := match currentStateRef h with
                   | away => (awayTime h + deltaSeconds)%Q
                   | _ => awayTime h
                   end in
  mkWorld (env w)
    (mkHook (sessionActive h) (sessionStartTime h) (sessionDuration h)
            focused' distracted' away'
            newState (Some now) (intervalRef h)).

(** [updateFocusState] as the hook returns it from the render of [w]
    itself. *)
Definition updateFocusState (detectionResults : DetectionResults) (w : World) : World :=
  updateFocusStateOf (sessionActive (hook w)) detectionResults w.

Definition at_time (t : Z) (w : World) : World :=
  mkWorld (setClock t (env w)) (hook w).

End Early.

(** ** What the two versions share *)

Module Both.

(** What the accumulation of the two hooks has in common. *)
Definition sameCore (e : Early.Hook) (l : Tracker.Hook) : Prop :=
  Early.sessionActive e = Tracker.sessionActive l /\
  Early.sessionDuration e = Tracker.sessionDuration l /\
  Early.focusedTime e = Tracker.focusedTime l /\
  Early.distractedTime e = Tracker.distractedTime l /\
  Early.awayTime e = Tracker.awayTime l /\
  Early.currentStateRef e = Tracker.currentStateRef l /\
  Early.lastUpdateTimeRef e = Tracker.lastUpdateTimeRef l.

End Both.

(** ** The session-type modal: custom duration *)

Module SessionTypeModal.

Local Open Scope string_scope.

Record Modal := mkModal {
  customDuration : string;
  showCustomInput : bool;
  error : string
}.

(** White space [parseInt] skips, within ASCII: TAB, LF, VT, FF, CR, SP. *)
Definition isWhiteSpace (c : ascii) : bool :=
  let n := nat_of_ascii c in
  ((9 <=? n) && (n <=? 13) || (n =? 32))%nat.

Definition digit (c : ascii) : option Z :=
  let n := Z.of_nat (nat_of_ascii c) in
  if (48 <=? n)%Z && (n <=? 57)%Z then Some (n - 48)%Z else None.

Fixpoint trimStart (s : string) : string :=
  match s with
  | String c rest => if isWhiteSpace c then trimStart rest else s
  | EmptyString => s
  end.

(** Value of the longest prefix of decimal digits, [None] when it is
    empty; [acc] is the value read so far. *)
Fixpoint digits (s : string) (acc : option Z) : option Z :=
  match s with
  | String c rest =>
      match digit c with
      | Some d => digits rest (Some (10 * match acc with Some a => a | None => 0 end + d)%Z)
      | None => acc
      end
  | EmptyString => acc
  end.

(** [parseInt(s, 10)]; [None] is [NaN].  The value is the integer the
    digits spell.  JavaScript returns it as a double: the same number up
    to 2^53, the nearest double beyond, which is 2^53 or more all the
    same. *)
Definition parseInt (s : string) : option Z :=
  match trimStart s with
  | String "-" rest => option_map Z.opp (digits rest None)
  | String "+" rest => digits rest None
  | rest => digits rest None
  end.

(** Template literal [`${minutes}`] on an integer. *)
Definition toString (n : Z) : string := NilZero.string_of_int (Z.to_int n).

Definition handleCustomInputChange (value : string) (m : Modal) : Modal :=
  mkModal value (showCustomInput m) "".

(** The new modal state and the argument of the [onSelect] call, if any. *)
Definition handleCustomSubmit (m : Modal) : Modal * option SessionConfig :=
  match parseInt (customDuration m) with
  | None =>
      (mkModal (customDuration m) (showCustomInput m)
               "Please enter a valid duration (minimum 1 minute)", None)
  | Some minutes =>
      if (minutes <? 1)%Z then
        (mkModal (customDuration m) (showCustomInput m)
                 "Please enter a valid duration (minimum 1 minute)", None)
      else if (180 <? minutes)%Z then
        (mkModal (customDuration m) (showCustomInput m)
                 "Maximum duration is 180 minutes (3 hours)", None)
      else
        (m, Some (mkConfig custom (minutes * 60)%Z
                           (toString minutes ++ " Minute Session")))
  end.

(** The input after the user typed [value] in the custom field. *)
Definition typed (value : string) : Modal :=
  handleCustomInputChange value (mkModal "" true "").

Fixpoint allDigits (s : string) : bool :=
  match s with
  | String c rest =>
      match digit c with Some _ => allDigits rest | None => false end
  | EmptyString => true
  end.

(** The specification's reading of the input: an integer number of
    minutes is a non-empty run of decimal digits, with an optional sign. *)
Definition wholeNumber (s : string) : bool :=
  match s with
  | String "-" rest | String "+" rest => negb (String.eqb rest "") && allDigits rest
  | _ => negb (String.eqb s "") && allDigits s
  end.

End SessionTypeModal.

(** ** Scripts and invariants of the session hook *)

Module Session.
Import Browser JS Tracker.

(** Every [startSession] of the script is given [m] seconds or more. *)
Fixpoint durationsAtLeast (m : Z) (script : list (Z * Command)) : Prop :=
  match script with
  | [] => True
  | (_, Start cfg) :: rest => m <= configDuration cfg /\ durationsAtLeast m rest
  | _ :: rest => durationsAtLeast m rest
  end.

(** The script starts no session. *)
Fixpoint withoutStart (script : list (Z * Command)) : Prop :=
  match script with
  | [] => True
  | (_, Start _) :: _ => False
  | _ :: rest => withoutStart rest
  end.

(** The countdown of the hook: never negative, never above the target;
    while the session is active at least one second is left and the
    seconds counted and the seconds left add up to the target. *)
Definition countingDown (h : Hook) : Prop :=
  0 <= remainingTime h <= targetDuration h /\
  (sessionActive h = true ->
   1 <= remainingTime h /\
   remainingTime h + sessionDuration h = targetDuration h).

Definition isNotified (x : Z * Effect) : bool :=
  match snd x with
  | Notified _ => true
  | _ => false
  end.

(** The same page without [window.electronAPI.notify]. *)
Definition withoutBridge (e : Env) : Env :=
  mkEnv (clock e) false (live e) (nextTimer e) (trace e).

(** Two worlds that differ at most by the bridge and by the trace. *)
Definition sameButBridge (w1 w2 : World) : Prop :=
  hook w1 = hook w2 /\
  clock (env w1) = clock (env w2) /\
  live (env w1) = live (env w2) /\
  nextTimer (env w1) = nextTimer (env w2).

(** No bucket is negative and the last update is not in the future. *)
Definition soundBuckets (w : World) : Prop :=
  (0 <= focusedTime (hook w))%Q /\
  (0 <= distractedTime (hook w))%Q /\
  (0 <= awayTime (hook w))%Q /\
  match lastUpdateTimeRef (hook w) with
  | Some l => l <= clock (env w)
  | None => True
  end.

(** No bucket of [w'] is below the one of [w]. *)
Definition bucketsGrow (w w' : World) : Prop :=
  (focusedTime (hook w) <= focusedTime (hook w'))%Q /\
  (distractedTime (hook w) <= distractedTime (hook w'))%Q /\
  (awayTime (hook w) <= awayTime (hook w'))%Q.

(** Every armed interval was armed by this hook: none runs the counter of
    the early version. *)
Definition ownTimers (e : Env) : Prop :=
  Forall (fun t => timerCallback t <> ElapsedTick) (live e).

End Session.

(** ** The session types and the buttons of the modal *)

Module ModalButtons.
Import SessionTypeModal.
Local Open Scope string_scope.

(** An entry of [SESSION_TYPES]; the icon, used for display only, is left
    out. *)
Record SessionTypeEntry := mkEntry {
  entryId : SessionTypeId;
  entryName : string;
  entryDuration : option Z;     (* null for the custom type *)
  entryDescription : string
}.

Definition SESSION_TYPES (key : SessionTypeId) : SessionTypeEntry :=
  match key with
  | pomodoro => mkEntry pomodoro "Pomodoro" (Some (25 * 60)%Z)
                        "25 minutes of focused work"
  | deepWork => mkEntry deepWork "Deep Work" (Some (90 * 60)%Z)
                        "90 minutes of deep concentration"
  | shortSprint => mkEntry shortSprint "Short Sprint" (Some (15 * 60)%Z)
                           "15 minutes quick focus session"
  | custom => mkEntry custom "Custom" None "Set your own duration"
  end.

(** The configuration passed to [onSelect].  A [null] duration is carried
    as the 0 it counts for in the hook's comparisons; only the custom
    entry has one, and no button passes its key here. *)
Definition handlePresetSelect (sessionType : SessionTypeId) : SessionConfig :=
  mkConfig (entryId (SESSION_TYPES sessionType))
           (JS.toNumber (entryDuration (SESSION_TYPES sessionType)))
           (entryName (SESSION_TYPES sessionType)).

Definition handleCustomSelect (m : Modal) : Modal :=
  mkModal (customDuration m) true (error m).

(** What the user can do on the modal. *)
Inductive Input :=
| PomodoroButton
| DeepWorkButton
| ShortSprintButton
| CustomButton
| TypeDuration (value : string)
| StartCustomButton
| BackButton
| CancelButton
| Backdrop.

(** What the modal tells its parent. *)
Inductive Outcome :=
| Selected (sessionConfig : SessionConfig)
| Cancelled
| Nothing.

(** The modal as it mounts. *)
Definition opened : Modal := mkModal "" false "".

(** One input on the rendered modal: the grid of types and the cancel
    button are rendered while [showCustomInput] is false, the field with
    its two buttons while it is true, the backdrop always.  An input on
    something that is not rendered does nothing. *)
Definition input (i : Input) (m : Modal) : Modal * Outcome :=
  match i, showCustomInput m with
  | Backdrop, _ => (m, Cancelled)
  | PomodoroButton, false => (m, Selected (handlePresetSelect pomodoro))
  | DeepWorkButton, false => (m, Selected (handlePresetSelect deepWork))
  | ShortSprintButton, false => (m, Selected (handlePresetSelect shortSprint))
  | CustomButton, false => (handleCustomSelect m, Nothing)
  | CancelButton, false => (m, Cancelled)
  | TypeDuration value, true => (handleCustomInputChange value m, Nothing)
  | StartCustomButton, true =>
      match handleCustomSubmit m with
      | (m', Some cfg) => (m', Selected cfg)
      | (m', None) => (m', Nothing)
      end
  | BackButton, true => (mkModal "" false "", Nothing)
  | _, _ => (m, Nothing)
  end.

End ModalButtons.

(** ** The application: the hook, the modal, the session button and the
       camera *)

Module App.
Import Browser JS ModalButtons.

Record State := mkApp {
  tracking : Tracker.World;
  showSessionModal : bool;
  modal : SessionTypeModal.Modal;   (* state of the modal while it is shown *)
  detectionLoop : option Tracker.Render
    (* the render whose [onDetectionUpdate] the camera's loop holds;
       [None] while the loop does not run *)
}.

Definition loaded (e : Env) : State := mkApp (Tracker.mount e) false opened None.

(** [handleDetectionUpdate] as created by the render [r]: it tests the
    [sessionActive] of that render and calls the [updateFocusState] of
    that render.  Its dependencies change at every render, so that
    [useCallback] returns a new function each time. *)
Definition handleDetectionUpdate (r : Tracker.Render)
    (detectionResults : DetectionResults) (s : State) : State :=
  if Tracker.seenActive r
  then mkApp (Tracker.updateFocusStateOf r detectionResults (tracking s))
             (showSessionModal s) (modal s) (detectionLoop s)
  else s.

(** The Start Camera button of [CameraFeed], rendered while the camera
    is off.  [startCamera] installs the [startDetectionLoop] of the
    render in which the button was pressed, and [detectAndDraw]
    reschedules itself: until the camera is stopped the loop calls the
    [onDetectionUpdate] of that one render. *)
Definition startCamera (s : State) : State :=
  match detectionLoop s with
  | None => mkApp (tracking s) (showSessionModal s) (modal s)
                  (Some (Tracker.render (Tracker.hook (tracking s))))
  | Some _ => s
  end.

(** The Stop Camera button: [cancelAnimationFrame] ends the loop. *)
Definition stopCamera (s : State) : State :=
  mkApp (tracking s) (showSessionModal s) (modal s) None.

(** The session button: opens the modal, which mounts, or stops. *)
Definition handleStartSession (s : State) : State :=
  if negb (Tracker.sessionActive (Tracker.hook (tracking s)))
  then mkApp (tracking s) true (if showSessionModal s then modal s else opened)
             (detectionLoop s)
  else mkApp (fst (Tracker.stopSession (tracking s))) (showSessionModal s) (modal s)
             (detectionLoop s).

Definition handleSessionTypeSelected (sessionConfig : SessionConfig) (s : State) : State :=
  mkApp (Tracker.startSession sessionConfig (tracking s)) false (modal s)
        (detectionLoop s).

Definition onCancel (s : State) : State :=
  mkApp (tracking s) false (modal s) (detectionLoop s).

Inductive Event :=
| SessionButton
| OnModal (i : Input)
| StartCamera
| StopCamera
| Detection (detectionResults : DetectionResults)   (* a report of the running loop *)
| TimerFires (id : nat).

Definition step (ev : Event) (s : State) : State :=
  match ev with
  | SessionButton => handleStartSession s
  | OnModal i =>
      if showSessionModal s then
        match input i (modal s) with
        | (_, Selected cfg) => handleSessionTypeSelected cfg s
        | (_, Cancelled) => onCancel s
        | (m', Nothing) => mkApp (tracking s) true m' (detectionLoop s)
        end
      else s
  | StartCamera => startCamera s
  | StopCamera => stopCamera s
  | Detection d =>
      match detectionLoop s with
      | Some r => handleDetectionUpdate r d s
      | None => s
      end
  | TimerFires id =>
      mkApp (Tracker.fire id (tracking s)) (showSessionModal s) (modal s)
            (detectionLoop s)
  end.

Definition at_time (t : Z) (s : State) : State :=
  mkApp (Tracker.at_time t (tracking s)) (showSessionModal s) (modal s)
        (detectionLoop s).

Fixpoint run (script : list (Z * Event)) (s : State) : State :=
  match script with
  | [] => s
  | (t, ev) :: rest => run rest (step ev (at_time t s))
  end.

Definition isStart (x : Z * Effect) : bool :=
  match snd x with
  | Armed _ CountdownTick _ => true
  | _ => false
  end.

(** How many sessions were started: one countdown is armed by each. *)
Definition sessionsStarted (e : Env) : nat :=
  List.length (filter isStart (trace e)).

(** What the application keeps true of the hook. *)
Definition tidy (s : State) : Prop :=
  let w := tracking s in
  let h := Tracker.hook w in
  (1 <= nextTimer (Tracker.env w))%nat /\
  (showSessionModal s = true -> Tracker.sessionActive h = false) /\
  (if Tracker.sessionActive h
   then exists i : nat,
          (1 <= i)%nat /\
          Tracker.intervalRef h = Some i /\
          Tracker.waterIntervalRef h = Some (S i) /\
          live (Tracker.env w) =
            [ mkTimer i CountdownTick 1000;
              mkTimer (S i) WaterReminder (30 * 60 * 1000) ]
   else live (Tracker.env w) = []) /\
  (notices SessionComplete (Tracker.env w)
   + (if Tracker.sessionActive h then 1 else 0)
   <= sessionsStarted (Tracker.env w))%nat.

End App.

(** ** What a run of the application is made of *)

Module AppFacts.
Import Browser JS ModalButtons App.

(** Events that come from the camera or from a timer, not from the user. *)
Definition passive (ev : Event) : bool :=
  match ev with
  | Detection _ | TimerFires _ => true
  | _ => false
  end.

(** The camera's loop, if it runs, holds the handler of a render that saw
    no active session: each of its calls returns at once. *)
Definition deaf (s : State) : bool :=
  match detectionLoop s with
  | Some r => negb (Tracker.seenActive r)
  | None => true
  end.

(** Every press of Start Camera in the script comes while no session is
    active. *)
Fixpoint camerasStartIdle (script : list (Z * Event)) (s : State) : Prop :=
  match script with
  | [] => True
  | (t, ev) :: rest =>
      (ev = StartCamera ->
       Tracker.sessionActive (Tracker.hook (tracking (at_time t s))) = false) /\
      camerasStartIdle rest (step ev (at_time t s))
  end.

(** Nothing was ever credited and no come-back notice sent. *)
Definition untracked (w : Tracker.World) : Prop :=
  Tracker.focusedTime (Tracker.hook w) = 0%Q /\
  Tracker.distractedTime (Tracker.hook w) = 0%Q /\
  Tracker.awayTime (Tracker.hook w) = 0%Q /\
  notices ComeBack (Tracker.env w) = 0%nat.

(** A duration the modal can hand over: whole minutes, from 1 to 180. *)
Definition wholeMinutes (seconds : Z) : Prop :=
  60 <= seconds <= 10800 /\ seconds mod 60 = 0.

(** The countdown of a session chosen on the modal. *)
Definition chosenCountdown (h : Tracker.Hook) : Prop :=
  Session.countingDown h /\
  (Tracker.sessionActive h = true -> wholeMinutes (Tracker.targetDuration h)).

End AppFacts.

(** ** Decimal digits read left to right *)

Module Digits.

(** The number [parseInt] has read once the digits of [u] follow the
    value [acc]. *)
Fixpoint horner (u : Decimal.uint) (acc : Z) : Z :=
  match u with
  | Decimal.Nil => acc
  | Decimal.D0 u => horner u (10 * acc + 0)
  | Decimal.D1 u => horner u (10 * acc + 1)
  | Decimal.D2 u => horner u (10 * acc + 2)
  | Decimal.D3 u => horner u (10 * acc + 3)
  | Decimal.D4 u => horner u (10 * acc + 4)
  | Decimal.D5 u => horner u (10 * acc + 5)
  | Decimal.D6 u => horner u (10 * acc + 6)
  | Decimal.D7 u => horner u (10 * acc + 7)
  | Decimal.D8 u => horner u (10 * acc + 8)
  | Decimal.D9 u => horner u (10 * acc + 9)
  end.

End Digits.

(** ** Time formatting ([utils/timeUtils.js]) *)

Module TimeUtils.
Import Browser JS.
Local Open Scope string_scope.

(** Rounding toward zero, as the quotient of [%] does. *)
Definition trunc (q : Q) : Z :=
  if Qle_bool 0 q then Qfloor q else Qceiling q.

(** [a % b] on numbers, for an integer [b]: the sign of the dividend. *)
Definition remainder (a : Q) (b : Z) : Q :=
  (a - inject_Z b * inject_Z (trunc (a / inject_Z b)))%Q.

Fixpoint repeatChar (n : nat) (c : ascii) : string :=
  match n with
  | O => ""
  | S k => String c (repeatChar k c)
  end.

(** [s.padStart(targetLength, c)] for a one-character filler. *)
Definition padStart (targetLength : nat) (c : ascii) (s : string) : string :=
  repeatChar (targetLength - String.length s) c ++ s.

(** Template literal on an integer-valued number. *)
Definition toString (n : Z) : string := SessionTypeModal.toString n.

Definition formatDuration (totalSeconds : Q) : string :=
  if Qeq_bool totalSeconds 0 then "0s" else
  let hours := Qfloor (totalSeconds / 3600) in
  let minutes := Qfloor (remainder totalSeconds 3600 / 60) in
  let seconds := Qfloor (remainder totalSeconds 60) in
  let parts :=
    if (0 <? hours)%Z then [toString hours ++ "h"; toString minutes ++ "m"]
    else if (0 <? minutes)%Z then [toString minutes ++ "m"; toString seconds ++ "s"]
    else [toString seconds ++ "s"] in
  String.concat " " parts.

Definition formatSessionTime (totalSeconds : Q) : string :=
  let hours := Qfloor (totalSeconds / 3600) in
  let minutes := Qfloor (remainder totalSeconds 3600 / 60) in
  let seconds := Qfloor (remainder totalSeconds 60) in
  String.concat ":" [ padStart 2 "0" (toString hours);
                      padStart 2 "0" (toString minutes);
                      padStart 2 "0" (toString seconds) ].

Definition getElapsedSeconds (startTime : option Z) (e : Env) : Z :=
  if negb (truthy startTime) then 0%Z
  else Qfloor (inject_Z (dateNow e - toNumber startTime) / 1000).

(** What [formatDuration] shows of a whole number of seconds. *)
Definition shown (n : Z) : string :=
  if (n <? 60)%Z then toString n ++ "s"
  else if (n <? 3600)%Z
       then toString (n / 60) ++ "m " ++ toString (n mod 60) ++ "s"
       else toString (n / 3600) ++ "h " ++ toString (n mod 3600 / 60) ++ "m".

End TimeUtils.

(** ** The face detector ([utils/faceDetector.js]) and the detection loop
       of the camera feed *)

Module FaceDetector.

Record BoundingBox := mkBox { x : Q; y : Q; width : Q; height : Q }.

(** One detection as MediaPipe returns it: the box ([originX], [originY],
    [width], [height]), the scores of its categories, its keypoints. *)
Record MediaPipeDetection := mkRaw {
  rawBox : BoundingBox;
  categories : list Q;
  keypoints : list (Q * Q)
}.

Record Face := mkFace {
  boundingBox : BoundingBox;
  confidence : Q;
  landmarks : list (Q * Q)
}.

Record Results := mkResults {
  faces : list Face;
  faceDetected : bool;
  timestamp : Z
}.

Record Detector := mkDetector {
  detector : bool;            (* this.detector is not null *)
  isInitialized : bool;
  lastDetectionTime : Z;
  detectionInterval : Z
}.

(** [new FaceDetector()] *)
Definition constructor : Detector := mkDetector false false 0 100.

(** [initialize()]; [created] tells whether MediaPipe could create its
    detector.  The result says whether the call threw. *)
Definition initialize (created : bool) (d : Detector) : Detector * bool :=
  if isInitialized d then (d, false)
  else if created
       then (mkDetector true true (lastDetectionTime d) (detectionInterval d), false)
       else (d, true).

Definition dispose (d : Detector) : Detector :=
  if detector d
  then mkDetector false false (lastDetectionTime d) (detectionInterval d)
  else d.

(** [Math.max(33, interval)] *)
Definition setDetectionInterval (interval : Z) (d : Detector) : Detector :=
  mkDetector (detector d) (isInitialized d) (lastDetectionTime d)
             (Z.max 33 interval).

(** [x || 0] on a number. *)
Definition orZero (q : Q) : Q := if Qeq_bool q 0 then 0%Q else q.

(** [detection.categories[0]?.score || 0] *)
Definition score (raw : MediaPipeDetection) : Q :=
  match categories raw with
  | s :: _ => orZero s
  | [] => 0%Q
  end.

Definition toFace (raw : MediaPipeDetection) : Face :=
  mkFace (rawBox raw) (score raw) (keypoints raw).

(** [detect(videoElement)] at the instant [now]; [frame] is what
    [detectForVideo] returns for it, [None] when it throws.  The result
    [None] is the [null] that tells the caller to keep its last results. *)
Definition detect (frame : option (list MediaPipeDetection)) (now : Z)
    (d : Detector) : Detector * option Results :=
  if negb (isInitialized d) || negb (detector d)
  then (d, Some (mkResults [] false now))
  else if now - lastDetectionTime d <? detectionInterval d
  then (d, None)
  else
    let d' := mkDetector (detector d) (isInitialized d) now (detectionInterval d) in
    match frame with
    | Some detections =>
        let faces := map toFace detections in
        (d', Some (mkResults faces (0 <? List.length faces)%nat now))
    | None => (d', Some (mkResults [] false now))
    end.

End FaceDetector.

Module CameraFeed.

(** The refs the detection loop reads. *)
Record Camera := mkCamera {
  videoRef : bool;                       (* the element is mounted *)
  canvasRef : bool;
  detectorRef : option FaceDetector.Detector
}.

(** [results.faces[0]?.confidence || 0] *)
Definition firstConfidence (faces : list FaceDetector.Face) : Q :=
  match faces with
  | f :: _ => FaceDetector.orZero (FaceDetector.confidence f)
  | [] => 0%Q
  end.

(** One turn of [detectAndDraw]: the camera afterwards and the object
    handed to [onDetectionUpdate], if the turn reports one. *)
Definition detectAndDraw (frame : option (list FaceDetector.MediaPipeDetection))
    (now : Z) (c : Camera) : Camera * option DetectionResults :=
  match detectorRef c with
  | Some d =>
      if negb (videoRef c) || negb (canvasRef c) then (c, None)
      else
        let '(d', results) := FaceDetector.detect frame now d in
        (mkCamera (videoRef c) (canvasRef c) (Some d'),
         match results with
         | Some r => Some (mkDetection (FaceDetector.faceDetected r)
                                       (firstConfidence (FaceDetector.faces r)))
         | None => None
         end)
  | None => (c, None)
  end.

(** The loop over the frames of a camera: the instants at which
    something is handed to [onDetectionUpdate], with what is handed. *)
Fixpoint reports (frames : list (Z * option (list FaceDetector.MediaPipeDetection)))
    (c : Camera) : list (Z * DetectionResults) :=
  match frames with
  | [] => []
  | (now, frame) :: rest =>
      let '(c', report) := detectAndDraw frame now c in
      match report with
      | Some d => (now, d) :: reports rest c'
      | None => reports rest c'
      end
  end.

(** Each instant is [gap] or more after the one before, starting after
    [previous]. *)
Fixpoint spaced (gap previous : Z) (instants : list Z) : Prop :=
  match instants with
  | [] => True
  | t :: rest => gap <= t - previous /\ spaced gap t rest
  end.

(** A camera whose elements are mounted and whose detector is [d]. *)
Definition running (d : FaceDetector.Detector) : Camera :=
  mkCamera true true (Some d).

End CameraFeed.

(** ** The whole interface of the two versions, side by side *)

Module Versions.
Import Browser JS.

(** The calls the two versions share, and the browser running the
    interval each of them holds in [intervalRef].  The early
    [startSession] takes no argument: the configuration is dropped on
    its side. *)
Inductive Call :=
| CallStart (sessionConfig : SessionConfig)
| CallUpdate (detectionResults : DetectionResults)
| CallStop
| CallTick       (* the one-second interval held in [intervalRef] fires *)
| CallKept (r : Tracker.Render) (detectionResults : DetectionResults).
                 (* an update through the functions kept from one render:
                    the early one saw [seenActive r], the later one [r] *)

(** The browser runs the callback of interval [id] of the early hook,
    [setSessionDuration(prev => prev + 1)], if it is still armed. *)
Definition earlyFire (id : nat) (w : Early.World) : Early.World :=
  match findTimer id (Early.env w) with
  | Some t =>
      match timerCallback t with
      | ElapsedTick =>
          Early.setSessionDuration
            (Early.sessionDuration (Early.hook w) + 1) w
      | _ => w
      end
  | None => w
  end.

Definition early (c : Call) (w : Early.World) : Early.World :=
  match c with
  | CallStart _ => Early.startSession w
  | CallUpdate d => Early.updateFocusState d w
  | CallStop => fst (Early.stopSession w)
  | CallTick =>
      match Early.intervalRef (Early.hook w) with
      | Some id => earlyFire id w
      | None => w
      end
  | CallKept r d => Early.updateFocusStateOf (Tracker.seenActive r) d w
  end.

Definition later (c : Call) (w : Tracker.World) : Tracker.World :=
  match c with
  | CallStart cfg => Tracker.startSession cfg w
  | CallUpdate d => Tracker.updateFocusState d w
  | CallStop => fst (Tracker.stopSession w)
  | CallTick =>
      match Tracker.intervalRef (Tracker.hook w) with
      | Some id => Tracker.fire id w
      | None => w
      end
  | CallKept r d => Tracker.updateFocusStateOf r d w
  end.

Fixpoint runEarly (script : list (Z * Call)) (w : Early.World) : Early.World :=
  match script with
  | [] => w
  | (t, c) :: rest => runEarly rest (early c (Early.at_time t w))
  end.

Fixpoint runLater (script : list (Z * Call)) (w : Tracker.World) : Tracker.World :=
  match script with
  | [] => w
  | (t, c) :: rest => runLater rest (later c (Tracker.at_time t w))
  end.

(** How many ticks the script holds. *)
Fixpoint ticksIn (script : list (Z * Call)) : nat :=
  match script with
  | [] => O
  | (_, CallTick) :: rest => S (ticksIn rest)
  | _ :: rest => ticksIn rest
  end.

(** Every session of the script is started with more than [n] seconds. *)
Fixpoint longerThan (n : nat) (script : list (Z * Call)) : Prop :=
  match script with
  | [] => True
  | (_, CallStart cfg) :: rest =>
      Z.of_nat n < configDuration cfg /\ longerThan n rest
  | _ :: rest => longerThan n rest
  end.

(** The ticks a session receives: those of the script before its next
    start or stop. *)
Fixpoint ticksAhead (script : list (Z * Call)) : nat :=
  match script with
  | [] => O
  | (_, CallTick) :: rest => S (ticksAhead rest)
  | (_, CallUpdate _) :: rest | (_, CallKept _ _) :: rest => ticksAhead rest
  | (_, CallStart _) :: _ | (_, CallStop) :: _ => O
  end.

(** Every session of the script is started with more seconds than it
    receives ticks: no countdown reaches zero. *)
Fixpoint outlasts (script : list (Z * Call)) : Prop :=
  match script with
  | [] => True
  | (_, CallStart cfg) :: rest =>
      Z.of_nat (ticksAhead rest) < configDuration cfg /\ outlasts rest
  | _ :: rest => outlasts rest
  end.

(** A session started at [t0] and then, [count] times over, the
    detection [d] in the middle of a second and the tick at its end. *)
Definition watched (t0 : Z) (cfg : SessionConfig) (d : DetectionResults)
    (count : nat) : list (Z * Call) :=
  (t0, CallStart cfg)
  :: flat_map (fun k => [ (t0 + 1000 * Z.of_nat k - 500, CallUpdate d);
                          (t0 + 1000 * Z.of_nat k, CallTick) ])
              (seq 1 count).

(** Ids of armed intervals are below the next id, which is at least 1. *)
Definition freshIds (e : Env) : Prop :=
  (1 <= nextTimer e)%nat /\
  Forall (fun t => (timerId t < nextTimer e)%nat) (live e).

(** The two hooks side by side: same shared fields, same clock, and the
    one-second interval of each armed exactly while the session is
    active. *)
Definition paired (we : Early.World) (wl : Tracker.World) : Prop :=
  Both.sameCore (Early.hook we) (Tracker.hook wl) /\
  clock (Early.env we) = clock (Tracker.env wl) /\
  freshIds (Early.env we) /\ freshIds (Tracker.env wl) /\
  (if Tracker.sessionActive (Tracker.hook wl)
   then (exists ie te, Early.intervalRef (Early.hook we) = Some ie /\
                       (1 <= ie)%nat /\
                       findTimer ie (Early.env we) = Some te /\
                       timerCallback te = ElapsedTick) /\
        (exists il tl, Tracker.intervalRef (Tracker.hook wl) = Some il /\
                       (1 <= il)%nat /\
                       findTimer il (Tracker.env wl) = Some tl /\
                       timerCallback tl = CountdownTick)
   else Early.intervalRef (Early.hook we) = None /\
        Tracker.intervalRef (Tracker.hook wl) = None).

End Versions.

(** * Properties *)

Import Browser JS.

(** Opens [updateFocusState] down to the body of the source function. *)
Ltac unfold_update :=
  unfold Tracker.updateFocusState, Tracker.updateFocusStateOf, Tracker.render,
    Tracker.seenActive, Tracker.seenAwayStartTime,
    Tracker.seenAwayNotificationShown.

(** ** Arithmetic of [seconds] *)

Lemma seconds_split (a b c : Z) :
  (seconds (a - c) == seconds (b - c) + seconds (a - b))%Q.
Proof.
  unfold seconds, Z.sub. rewrite !inject_Z_plus, !inject_Z_opp. field.
Qed.

Lemma seconds_zero : (seconds 0 == 0)%Q.
Proof. reflexivity. Qed.

Lemma seconds_nonneg (ms : Z) : 0 <= ms -> (0 <= seconds ms)%Q.
Proof.
  intros H. unfold seconds, Qdiv.
  apply Qmult_le_0_compat; [ | discriminate ].
  change 0%Q with (inject_Z 0). now rewrite <- Zle_Qle.
Qed.

Lemma seconds_pos (ms : Z) : 0 < ms -> (0 < seconds ms)%Q.
Proof.
  intros H. unfold seconds, Qdiv.
  apply Qmult_lt_0_compat; [ | reflexivity ].
  change 0%Q with (inject_Z 0). now rewrite <- Zlt_Qlt.
Qed.

Lemma seconds_ge_10 (ms : Z) : Qle_bool 10 (seconds ms) = true <-> 10000 <= ms.
Proof.
  rewrite Qle_bool_iff. unfold seconds, Qdiv, Qle, Qmult, Qinv, inject_Z. simpl.
  lia.
Qed.

Lemma truthy_some (x : option Z) :
  truthy x = true <-> exists t, x = Some t /\ t <> 0.
Proof.
  destruct x as [t|]; simpl.
  - rewrite negb_true_iff, Z.eqb_neq. split.
    + intros H. now exists t.
    + now intros [t' [[= <-] H]].
  - split; [ discriminate | now intros [t [? _]] ].
Qed.

(** ** Classification and attribution *)

Section Attribution.
Import Tracker.

Lemma updateFocusState_inactive (d : DetectionResults) (w : World) :
  sessionActive (hook w) = false -> updateFocusState d w = w.
Proof. intros H. unfold_update. now rewrite H. Qed.

Lemma updateFocusState_no_tick (d : DetectionResults) (w : World) :
  truthy (lastUpdateTimeRef (hook w)) = false -> updateFocusState d w = w.
Proof.
  intros H. unfold_update. rewrite H. simpl.
  now rewrite orb_true_r.
Qed.

(** C5.  The state an update moves to is decided by the detection alone:
    no face is [away]; a face with confidence at least 0.6 is [focused]
    (0.6 itself included), a face below it is [distracted] (0.599999
    included); and an update of an active session stores that state. *)
Theorem C5_classification (d : DetectionResults) (w : World) :
  (sessionActive (hook w) = true ->
   truthy (lastUpdateTimeRef (hook w)) = true ->
   currentStateRef (hook (updateFocusState d w)) = classify d) /\
  (faceDetected d = false -> classify d = away) /\
  (faceDetected d = true -> (0.6 <= confidence d)%Q -> classify d = focused) /\
  (faceDetected d = true -> (confidence d < 0.6)%Q -> classify d = distracted) /\
  classify (mkDetection true 0.6) = focused /\
  classify (mkDetection true 0.599999) = distracted.
Proof.
  repeat split.
  - intros Ha Ht. unfold_update. rewrite Ha, Ht. simpl.
    destruct (classify d); simpl.
    + reflexivity.
    + reflexivity.
    + destruct (truthy (awayStartTime (hook w))); simpl; [ | reflexivity ].
      destruct (Qle_bool 10 _ && negb _); reflexivity.
  - intros Hf. unfold classify. now rewrite Hf.
  - intros Hf Hc. unfold classify. rewrite Hf.
    apply Qle_bool_iff in Hc. now rewrite Hc.
  - intros Hf Hc. unfold classify. rewrite Hf.
    destruct (Qle_bool 0.6 (confidence d)) eqn:E; [ | reflexivity ].
    apply Qle_bool_iff in E. exfalso. revert Hc. now apply Qle_not_lt.
Qed.

Lemma C5_classification_witness :
  let d := mkDetection true 0.75 in
  let w := startSession (mkConfig pomodoro 1500 "Pomodoro")
             (mount (fresh 1700000000000 true)) in
  currentStateRef (hook (updateFocusState d w)) = focused.
Proof.
  intros d w.
  destruct (C5_classification d w) as [Hstore [_ [Hfocused _]]].
  rewrite Hstore by reflexivity.
  apply Hfocused; [ reflexivity | ].
  unfold d, Qle; simpl; lia.
Defined.

End Attribution.

Section Conservation.
Import Tracker.

(** C2.  An update of an active session adds [delta], the seconds since
    the previous update, to the bucket of the state held before the
    update and leaves the two others as they were; the bucket grows when
    the clock has moved.  The first update after a start therefore
    credits [awayTime], whatever the detection says. *)
Theorem C2_prior_state_attribution
    (d : DetectionResults) (w : World) (last : Z)
    (cfg : SessionConfig) (t0 t1 : Z) (w0 : World) :
  (sessionActive (hook w) = true ->
   lastUpdateTimeRef (hook w) = Some last -> last <> 0 ->
   let delta := seconds (dateNow (env w) - last) in
   let h := hook w in
   let h' := hook (updateFocusState d w) in
   match currentStateRef h with
   | focused => focusedTime h' = (focusedTime h + delta)%Q /\
                distractedTime h' = distractedTime h /\
                awayTime h' = awayTime h
   | distracted => focusedTime h' = focusedTime h /\
                   distractedTime h' = (distractedTime h + delta)%Q /\
                   awayTime h' = awayTime h
   | away => focusedTime h' = focusedTime h /\
             distractedTime h' = distractedTime h /\
             awayTime h' = (awayTime h + delta)%Q
   end /\
   (last < dateNow (env w) -> (0 < delta)%Q)) /\
  (t0 <> 0 ->
   let h' := hook (updateFocusState d
                     (at_time t1 (startSession cfg (at_time t0 w0)))) in
   (awayTime h' == seconds (t1 - t0))%Q /\
   focusedTime h' = 0%Q /\ distractedTime h' = 0%Q).
Proof.
  split.
  - intros Ha Hl Hnz delta h h'. split.
    + subst h h' delta. unfold_update.
      rewrite Ha, Hl. simpl.
      apply Z.eqb_neq in Hnz. rewrite Hnz. simpl.
      destruct (classify d); simpl;
        repeat match goal with
               | |- context [if ?b then _ else _] => destruct b; simpl
               end;
        destruct (currentStateRef (hook w)); simpl; auto.
    + intros Hlt. apply seconds_pos. unfold dateNow in *. lia.
  - intros Hnz h'. subst h'. unfold_update. simpl.
    apply Z.eqb_neq in Hnz. rewrite Hnz. simpl.
    destruct (classify d); simpl; repeat split;
      unfold seconds; try (rewrite Qplus_0_l; reflexivity).
Qed.

Lemma C2_prior_state_attribution_witness :
  let d := mkDetection true 0.9 in
  let w0 := mount (fresh 1700000000000 true) in
  let cfg := mkConfig pomodoro 1500 "Pomodoro" in
  let w := updateFocusState d
             (at_time 1700000000100 (startSession cfg (at_time 1700000000000 w0))) in
  let h' := hook (updateFocusState d (at_time 1700000000350 w)) in
  (awayTime (hook w) == seconds 100)%Q /\
  focusedTime h' = (0 + seconds 250)%Q /\
  distractedTime h' = 0%Q.
Proof.
  intros d w0 cfg w h'.
  destruct (C2_prior_state_attribution d (at_time 1700000000350 w)
              1700000000100 cfg 1700000000000 1700000000100 w0)
    as [Hstep Hfirst].
  destruct Hstep as [[Hf [Hd _]] _]; [ reflexivity | reflexivity | discriminate | ].
  destruct Hfirst as [Ha _]; [ discriminate | ].
  split; [ exact Ha | split; [ exact Hf | exact Hd ] ].
Defined.

Lemma conserved_mount (e : Env) : conserved (hook (mount e)).
Proof. reflexivity. Qed.

Lemma conserved_startSession (cfg : SessionConfig) (w : World) :
  conserved (hook (startSession cfg w)).
Proof.
  unfold conserved, accumulated, elapsedAtLastUpdate. simpl.
  rewrite Z.sub_diag. reflexivity.
Qed.

Lemma hook_stopSession (w : World) :
  let h := hook w in
  let h' := hook (fst (stopSession w)) in
  sessionStartTime h' = sessionStartTime h /\
  sessionDuration h' = sessionDuration h /\
  focusedTime h' = focusedTime h /\
  distractedTime h' = distractedTime h /\
  awayTime h' = awayTime h /\
  lastUpdateTimeRef h' = lastUpdateTimeRef h /\
  currentStateRef h' = currentStateRef h /\
  remainingTime h' = remainingTime h /\
  sessionActive h' = false /\
  awayStartTime h' = None /\
  awayNotificationShown h' = false.
Proof.
  unfold stopSession.
  destruct (release (intervalRef (hook w)) (env w)) as [i e1].
  destruct (release (waterIntervalRef (hook w)) e1) as [v e2].
  simpl. repeat split.
Qed.

Lemma conserved_stopSession (w : World) :
  conserved (hook w) -> conserved (hook (fst (stopSession w))).
Proof.
  destruct (hook_stopSession w) as (Hs & _ & Hf & Hd & Ha & Hl & _).
  unfold conserved, accumulated, elapsedAtLastUpdate.
  now rewrite Hs, Hf, Hd, Ha, Hl.
Qed.

Lemma conserved_updateFocusState (d : DetectionResults) (w : World) :
  conserved (hook w) -> conserved (hook (updateFocusState d w)).
Proof.
  intros H. unfold_update.
  destruct (negb (sessionActive (hook w)) || negb (truthy (lastUpdateTimeRef (hook w))));
    [ exact H | ].
  unfold conserved, accumulated, elapsedAtLastUpdate in *.
  set (guard := match classify d with away => _ | _ => _ end).
  destruct guard as [[a s] e]. simpl.
  rewrite (seconds_split (dateNow (env w))
             (toNumber (lastUpdateTimeRef (hook w)))
             (toNumber (sessionStartTime (hook w)))).
  rewrite <- H.
  destruct (currentStateRef (hook w)); ring.
Qed.

Lemma conserved_fire (id : nat) (w : World) :
  conserved (hook w) -> conserved (hook (fire id w)).
Proof.
  intros H. unfold fire.
  destruct (findTimer id (env w)) as [t|]; [ | exact H ].
  destruct (timerCallback t); simpl; try exact H.
  unfold countdownTick.
  destruct (remainingTime (hook w) <=? 1); simpl; [ | exact H ].
  unfold handleSessionComplete.
  destruct (hook_stopSession (mkWorld (notify SessionComplete (env w)) (hook w)))
    as (Hs & _ & Hf & Hd & Ha & Hl & _).
  simpl in *.
  unfold conserved, accumulated, elapsedAtLastUpdate in *. simpl.
  rewrite Hs, Hf, Hd, Ha, Hl. exact H.
Qed.

Lemma conserved_run (script : list (Z * Command)) (w : World) :
  conserved (hook w) -> conserved (hook (run script w)).
Proof.
  revert w. induction script as [| [t c] rest IH]; intros w H; simpl.
  - exact H.
  - apply IH. change (conserved (hook (at_time t w))) in H.
    destruct c; unfold handle.
    + apply conserved_startSession.
    + now apply conserved_stopSession.
    + now apply conserved_updateFocusState.
    + now apply conserved_fire.
Qed.

Lemma sessionActive_updateFocusStateOf (r : Render) (d : DetectionResults) (w : World) :
  sessionActive (hook (updateFocusStateOf r d w)) = sessionActive (hook w).
Proof.
  unfold updateFocusStateOf.
  destruct (negb (seenActive r) || negb (truthy (lastUpdateTimeRef (hook w))));
    [ reflexivity | ].
  set (guard := match classify d with away => _ | _ => _ end).
  destruct guard as [[a s] e]. reflexivity.
Qed.

Lemma updateFocusStateOf_unseen (r : Render) (d : DetectionResults) (w : World) :
  seenActive r = false -> updateFocusStateOf r d w = w.
Proof. intros H. unfold updateFocusStateOf. now rewrite H. Qed.

(** An update through a function whose render saw the session active
    credits the time since the last update, whatever the state is now. *)
Lemma updateFocusStateOf_credits
    (r : Render) (d : DetectionResults) (w : World) (l : Z) :
  seenActive r = true ->
  lastUpdateTimeRef (hook w) = Some l -> l <> 0 ->
  let w' := updateFocusStateOf r d w in
  lastUpdateTimeRef (hook w') = Some (clock (env w)) /\
  sessionStartTime (hook w') = sessionStartTime (hook w) /\
  (accumulated (hook w') == accumulated (hook w) + seconds (clock (env w) - l))%Q.
Proof.
  intros Hr Hl Hnz. unfold updateFocusStateOf. rewrite Hr, Hl.
  apply Z.eqb_neq in Hnz. cbn [truthy negb orb]. rewrite Hnz. cbn [negb].
  set (guard := match classify d with away => _ | _ => _ end).
  destruct guard as [[a s] e].
  unfold accumulated, dateNow.
  cbn [hook env lastUpdateTimeRef sessionStartTime focusedTime distractedTime
       awayTime toNumber].
  repeat split.
  destruct (currentStateRef (hook w)); ring.
Qed.

Lemma fire_keeps_buckets (id : nat) (w : World) :
  let h := hook w in
  let h' := hook (fire id w) in
  lastUpdateTimeRef h' = lastUpdateTimeRef h /\
  sessionStartTime h' = sessionStartTime h /\
  focusedTime h' = focusedTime h /\
  distractedTime h' = distractedTime h /\
  awayTime h' = awayTime h /\
  (sessionActive h = false -> sessionActive h' = false).
Proof.
  unfold fire.
  destruct (findTimer id (env w)) as [t|]; [ | now repeat split ].
  destruct (timerCallback t); try (now repeat split).
  unfold countdownTick.
  destruct (remainingTime (hook w) <=? 1); [ | now repeat split ].
  unfold handleSessionComplete.
  destruct (hook_stopSession (mkWorld (notify SessionComplete (env w)) (hook w)))
    as (Hs & _ & Hf & Hd & Ha & Hl & _ & _ & Hact & _).
  unfold setSessionDuration, setRemainingTime.
  cbn [hook env lastUpdateTimeRef sessionStartTime focusedTime distractedTime
       awayTime sessionActive] in *.
  repeat split; try assumption. intros _. exact Hact.
Qed.

Lemma stays_inactive (script : list (Z * Calls.Call)) :
  forall w : World,
    Calls.sameSession script ->
    sessionActive (hook w) = false ->
    sessionActive (hook (Calls.run script w)) = false.
Proof.
  induction script as [| [t c] rest IH]; intros w S A; [ exact A | ].
  change (Calls.run ((t, c) :: rest) w)
    with (Calls.run rest (Calls.handle c (at_time t w))).
  destruct c as [[cfg | | d | id] | r d]; simpl in S; try contradiction;
    apply IH; try assumption; unfold Calls.handle, handle.
  - now destruct (hook_stopSession (at_time t w))
      as (_ & _ & _ & _ & _ & _ & _ & _ & Ha & _).
  - rewrite updateFocusState_inactive; assumption.
  - now apply (fire_keeps_buckets id (at_time t w)).
  - now rewrite sessionActive_updateFocusStateOf.
Qed.

(** The buckets follow the updates of the script, one by one. *)
Lemma sum_follows_updates (script : list (Z * Calls.Call)) :
  forall (w : World) (l : Z),
    lastUpdateTimeRef (hook w) = Some l -> l <> 0 ->
    Forall (fun x => fst x <> 0) script ->
    Calls.sameSession script ->
    sessionActive (hook (Calls.run script w)) = true ->
    let w' := Calls.run script w in
    sessionStartTime (hook w') = sessionStartTime (hook w) /\
    (accumulated (hook w') ==
       accumulated (hook w) + seconds (Calls.lastUpdate l script - l))%Q.
Proof.
  induction script as [| [t c] rest IH]; intros w l Hl Hnz Hz S A.
  - simpl. split; [ reflexivity | ].
    rewrite Z.sub_diag, seconds_zero. ring.
  - change (Calls.run ((t, c) :: rest) w)
      with (Calls.run rest (Calls.handle c (at_time t w))) in *.
    inversion Hz as [| x xs Ht Hrest]; subst. simpl in Ht.
    assert (Credit : forall r d,
               seenActive r = true ->
               sessionActive (hook (Calls.run rest (updateFocusStateOf r d (at_time t w)))) = true ->
               Calls.sameSession rest ->
               sessionStartTime (hook (Calls.run rest (updateFocusStateOf r d (at_time t w))))
                 = sessionStartTime (hook w) /\
               (accumulated (hook (Calls.run rest (updateFocusStateOf r d (at_time t w)))) ==
                  accumulated (hook w) + seconds (Calls.lastUpdate t rest - l))%Q).
    { intros r d Hr A' S'.
      destruct (updateFocusStateOf_credits r d (at_time t w) l Hr Hl Hnz)
        as (Hl' & Hs' & Hacc).
      change (clock (env (at_time t w))) with t in Hl', Hacc.
      destruct (IH _ t Hl' Ht Hrest S' A') as (Hs2 & Hacc2).
      split; [ now rewrite Hs2, Hs' | ].
      rewrite Hacc2, Hacc.
      change (accumulated (hook (at_time t w))) with (accumulated (hook w)).
      rewrite (seconds_split (Calls.lastUpdate t rest) t l). ring. }
    destruct c as [[cfg | | d | id] | r d]; simpl in S; try contradiction.
    + (* stop: the session would not be active at the end *)
      exfalso.
      assert (F : sessionActive (hook (Calls.run rest
                    (Calls.handle (Calls.Fresh Stop) (at_time t w)))) = false).
      { apply stays_inactive; [ exact S | ].
        now destruct (hook_stopSession (at_time t w))
          as (_ & _ & _ & _ & _ & _ & _ & _ & Ha & _). }
      congruence.
    + (* the function of the latest render *)
      destruct (sessionActive (hook w)) eqn:Act.
      * apply (Credit (render (hook (at_time t w))) d); assumption.
      * exfalso.
        assert (F : sessionActive (hook (Calls.run rest
                      (Calls.handle (Calls.Fresh (Update d)) (at_time t w)))) = false).
        { apply stays_inactive; [ exact S | ].
          unfold Calls.handle, handle.
          rewrite updateFocusState_inactive; exact Act. }
        congruence.
    + (* an interval callback *)
      destruct (fire_keeps_buckets id (at_time t w)) as (Fl & Fs & Ff & Fd & Fa & _).
      cbn zeta in Fl, Fs, Ff, Fd, Fa.
      unfold Calls.handle, handle in *.
      destruct (IH (fire id (at_time t w)) l) as (Hs2 & Hacc2); try assumption.
      { now rewrite Fl. }
      split; [ now rewrite Hs2, Fs | ].
      simpl Calls.lastUpdate. rewrite Hacc2.
      unfold accumulated. now rewrite Ff, Fd, Fa.
    + (* a kept function *)
      simpl Calls.lastUpdate. destruct (seenActive r) eqn:Hr.
      * now apply (Credit r d).
      * unfold Calls.handle in *. rewrite (updateFocusStateOf_unseen r d _ Hr) in *.
        now apply (IH (at_time t w) l).
Qed.

(** C1, as the hook has it.  Start a session at [t0] and let any updates,
    interval callbacks and stops follow, the updates through the latest
    function of the hook or through functions kept from earlier renders.
    While the session is active the three buckets add up to the time from
    [t0] to the instant of the last update that was not turned away; the
    time since that update is what the wall clock has and the buckets do
    not. *)
Theorem C1_accumulators_reach_last_update
    (w : World) (cfg : SessionConfig) (t0 : Z) (script : list (Z * Calls.Call)) :
  t0 <> 0 ->
  Forall (fun x => fst x <> 0) script ->
  Calls.sameSession script ->
  let w' := Calls.run script (startSession cfg (at_time t0 w)) in
  sessionActive (hook w') = true ->
  (accumulated (hook w') == seconds (Calls.lastUpdate t0 script - t0))%Q /\
  (elapsedSinceStart w' - accumulated (hook w') ==
     seconds (dateNow (env w') - Calls.lastUpdate t0 script))%Q.
Proof.
  intros Ht0 Hz S w' A.
  destruct (sum_follows_updates script (startSession cfg (at_time t0 w)) t0)
    as (Hs & Hacc); try assumption; try reflexivity.
  fold w' in Hs, Hacc.
  assert (Hsum : (accumulated (hook w') == seconds (Calls.lastUpdate t0 script - t0))%Q).
  { rewrite Hacc. unfold accumulated. simpl. ring. }
  split; [ exact Hsum | ].
  rewrite Hsum. unfold elapsedSinceStart. rewrite Hs.
  change (toNumber (sessionStartTime (hook (startSession cfg (at_time t0 w)))))
    with t0.
  rewrite (seconds_split (dateNow (env w')) (Calls.lastUpdate t0 script) t0).
  ring.
Qed.

(** Two updates through the latest function, one through a function
    kept from the render after the start, one through a function kept
    from before the start, and a tick: the buckets hold the 0.3 s up to
    the third update. *)
Lemma C1_accumulators_reach_last_update_witness :
  let t0 := 1700000000000 in
  let d := mkDetection true 0.9 in
  let script := [ (t0 + 100, Calls.Fresh (Update d));
                  (t0 + 200, Calls.Fresh (Update d));
                  (t0 + 300, Calls.Kept (mkRender true None false) d);
                  (t0 + 1000, Calls.Fresh (Fire 1%nat));
                  (t0 + 1100, Calls.Kept (mkRender false None false) d) ] in
  let w' := Calls.run script
              (startSession (mkConfig pomodoro 1500 "Pomodoro")
                 (at_time t0 (mount (fresh t0 true)))) in
  (accumulated (hook w') == seconds 300)%Q.
Proof.
  intros t0 d script w'.
  apply (C1_accumulators_reach_last_update (mount (fresh t0 true))
           (mkConfig pomodoro 1500 "Pomodoro") t0 script).
  - discriminate.
  - repeat constructor; discriminate.
  - simpl. exact I.
  - reflexivity.
Defined.

(** C1 as stated fails: one second into a session that received updates
    at 100 and 200 ms, the buckets hold 0.2 s while the wall clock has
    1 s since the start. *)
Lemma C1_counterexample :
  let d := mkDetection true 0.9 in
  let w := run [ (1700000000000, Start (mkConfig pomodoro 1500 "Pomodoro"));
                 (1700000000100, Update d);
                 (1700000000200, Update d);
                 (1700000001000, Fire 1%nat) ]
               (mount (fresh 1700000000000 true)) in
  sessionActive (hook w) = true /\
  (accumulated (hook w) == 0.2)%Q /\
  (elapsedSinceStart w == 1)%Q /\
  ~ withinTolerance (accumulated (hook w)) (elapsedSinceStart w).
Proof.
  intros d w. repeat split.
  unfold withinTolerance. vm_compute. intros H. apply H. reflexivity.
Qed.

End Conservation.

(** ** Countdown *)

Section Countdown.
Import Tracker.

Lemma run_app (a b : list (Z * Command)) (w : World) :
  run (a ++ b) w = run b (run a w).
Proof.
  revert w. induction a as [| [t c] a IH]; intros w; simpl; [ reflexivity | apply IH ].
Qed.

Lemma last_default (u : Z) (r : list Z) (d d' : Z) :
  last (u :: r) d = last (u :: r) d'.
Proof.
  revert u. induction r as [| v r IH]; intros u; [ reflexivity | ].
  change (last (v :: r) d = last (v :: r) d'). apply IH.
Qed.

Lemma last_cons (t d : Z) (rest : list Z) :
  last (t :: rest) d = last rest t.
Proof.
  destruct rest as [| u r]; [ reflexivity | ].
  change (last (u :: r) d = last (u :: r) t). apply last_default.
Qed.

Lemma countdownTick_running (w : World) :
  1 < remainingTime (hook w) ->
  countdownTick w =
    setSessionDuration (sessionDuration (hook w) + 1)
      (setRemainingTime (remainingTime (hook w) - 1) w).
Proof.
  intros H. unfold countdownTick.
  apply Z.leb_gt in H. now rewrite H.
Qed.

(** While more than one second remains, a countdown tick only moves the
    two counters. *)
Lemma ticks_count_down (id : nat) (instants : list Z) :
  forall (w : World) (tm : Timer),
    findTimer id (env w) = Some tm ->
    timerCallback tm = CountdownTick ->
    Z.of_nat (List.length instants) < remainingTime (hook w) ->
    run (ticks id instants) w =
      countedDown (Z.of_nat (List.length instants))
                  (last instants (clock (env w))) w.
Proof.
  induction instants as [| t rest IH]; intros w tm Hf Hc Hn.
  - destruct w as [[c n l x tr] h]. destruct h. unfold countedDown. simpl.
    now rewrite Z.add_0_r, Z.sub_0_r.
  - change (run (ticks id (t :: rest)) w)
      with (run (ticks id rest) (fire id (at_time t w))).
    assert (Hstep : fire id (at_time t w) = countedDown 1 t w).
    { unfold fire. change (findTimer id (env (at_time t w))) with (findTimer id (env w)).
      rewrite Hf, Hc. apply countdownTick_running.
      simpl in *. lia. }
    rewrite Hstep.
    rewrite (IH (countedDown 1 t w) tm); [ | exact Hf | exact Hc | simpl in *; lia ].
    rewrite (last_cons t (clock (env w)) rest).
    change (List.length (t :: rest)) with (S (List.length rest)).
    rewrite Nat2Z.inj_succ.
    generalize (Z.of_nat (List.length rest)). intros k.
    clear. destruct w as [e h]. destruct h.
    unfold countedDown, setSessionDuration, setRemainingTime, at_time.
    cbn. f_equal. f_equal; lia.
Qed.

(** With no interval armed the browser has no callback to run. *)
Lemma fires_without_timers (timers : list (Z * nat)) :
  forall w : World,
    live (env w) = [] ->
    hook (run (fires timers) w) = hook w /\
    trace (env (run (fires timers) w)) = trace (env w) /\
    live (env (run (fires timers) w)) = [].
Proof.
  induction timers as [| [t id] rest IH]; intros w Hl; [ now repeat split | ].
  change (run (fires ((t, id) :: rest)) w)
    with (run (fires rest) (fire id (at_time t w))).
  assert (E : fire id (at_time t w) = at_time t w).
  { unfold fire, findTimer. simpl. now rewrite Hl. }
  rewrite E. apply (IH (at_time t w)). exact Hl.
Qed.

(** C4, as the hook has it.  A session of 3 seconds counts 3, 2, 1, 0
    over three ticks; the third tick sends one completion notice and
    then stops the session, which clears both intervals; from then on
    the browser has no interval of this session left to run, so whatever
    timers fire later change neither the hook state nor the trace: the
    completion stays the only one. *)
Theorem C4_countdown_completes_and_disarms
    (t0 t1 t2 t3 : Z) (ty : SessionTypeId) (name : string)
    (afterwards : list (Z * nat)) :
  let w0 := firstSession t0 true (mkConfig ty 3 name) in
  let w1 := handle (Fire 1%nat) (at_time t1 w0) in
  let w2 := handle (Fire 1%nat) (at_time t2 w1) in
  let w3 := handle (Fire 1%nat) (at_time t3 w2) in
  let w4 := run (fires afterwards) w3 in
  map (fun w => remainingTime (hook w)) [w0; w1; w2; w3] = [3; 2; 1; 0] /\
  map (fun w => sessionActive (hook w)) [w0; w1; w2; w3]
    = [true; true; true; false] /\
  map (fun w => notices SessionComplete (env w)) [w0; w1; w2; w3]
    = [0; 0; 0; 1]%nat /\
  trace (env w3) =
    [ (t0, Armed 1%nat CountdownTick 1000);
      (t0, Armed 2%nat WaterReminder 1800000);
      (t3, Notified SessionComplete);
      (t3, Cleared 1%nat);
      (t3, Cleared 2%nat) ] /\
  live (env w3) = [] /\
  hook w4 = hook w3 /\
  notices SessionComplete (env w4) = 1%nat.
Proof.
  intros w0 w1 w2 w3 w4.
  assert (Hlive : live (env w3) = []) by (vm_compute; reflexivity).
  destruct (fires_without_timers afterwards w3 Hlive) as (Hh & Ht & _).
  fold w4 in Hh, Ht.
  split; [ vm_compute; reflexivity | ].
  split; [ vm_compute; reflexivity | ].
  split; [ vm_compute; reflexivity | ].
  split; [ vm_compute; reflexivity | ].
  split; [ exact Hlive | ].
  split; [ exact Hh | ].
  unfold notices. rewrite Ht. vm_compute. reflexivity.
Qed.

(** C4 as stated fails: the interval callback has no guard of its own.
    Run once more after the countdown reached zero, it sends the
    completion notice a second time. *)
Lemma C4_counterexample :
  let w3 := run (ticks 1%nat [1700000001000; 1700000002000; 1700000003000])
                (firstSession 1700000000000 true (mkConfig custom 3 "3 Second Session")) in
  remainingTime (hook w3) = 0 /\
  notices SessionComplete (env w3) = 1%nat /\
  notices SessionComplete (env (countdownTick (at_time 1700000004000 w3))) = 2%nat.
Proof. repeat split. Qed.

Lemma ticks_app (id : nat) (a b : list Z) :
  ticks id (a ++ b) = ticks id a ++ ticks id b.
Proof. apply map_app. Qed.

(** C9, as the hook has it.  Sixty ticks and no update in a session of
    60 seconds: the ticks move only the two counters, so the three
    buckets are still 0 when the sixtieth tick completes and stops the
    session; the session is active up to the fifty-ninth. *)
Theorem C9_no_events_no_accumulation
    (t0 : Z) (bridge : bool) (name : string) (instants : list Z) :
  List.length instants = 60%nat ->
  let w0 := firstSession t0 bridge (mkConfig custom 60 name) in
  let w59 := run (ticks 1%nat (firstn 59 instants)) w0 in
  let w60 := run (ticks 1%nat instants) w0 in
  focusedTime (hook w60) = 0%Q /\
  distractedTime (hook w60) = 0%Q /\
  awayTime (hook w60) = 0%Q /\
  sessionDuration (hook w60) = 60 /\
  remainingTime (hook w60) = 0 /\
  sessionActive (hook w59) = true /\
  sessionActive (hook w60) = false /\
  live (env w60) = [] /\
  notices SessionComplete (env w60) = (if bridge then 1 else 0)%nat.
Proof.
  intros Hlen w0 w59 w60.
  assert (Hsplit : instants = firstn 59 instants ++ skipn 59 instants)
    by (symmetry; apply firstn_skipn).
  assert (H59 : List.length (firstn 59 instants) = 59%nat)
    by (rewrite length_firstn, Hlen; reflexivity).
  assert (H1 : List.length (skipn 59 instants) = 1%nat)
    by (rewrite length_skipn, Hlen; reflexivity).
  destruct (skipn 59 instants) as [| t60 [| ? ?]]; try discriminate.
  assert (E59 : w59 = countedDown 59 (last (firstn 59 instants) t0) w0).
  { unfold w59.
    rewrite (ticks_count_down 1%nat (firstn 59 instants) w0
               (mkTimer 1%nat CountdownTick 1000));
      [ now rewrite H59 | reflexivity | reflexivity | rewrite H59; reflexivity ]. }
  assert (E60 : w60 = handle (Fire 1%nat) (at_time t60 w59)).
  { unfold w60. rewrite Hsplit at 1. rewrite ticks_app, run_app. reflexivity. }
  rewrite E60, E59. destruct bridge; repeat split.
Qed.

Lemma C9_no_events_no_accumulation_witness :
  let instants := map (fun k => 1700000000000 + 1000 * Z.of_nat k) (seq 1 60) in
  let w60 := run (ticks 1%nat instants)
                 (firstSession 1700000000000 true
                    (mkConfig custom 60 "1 Minute Session")) in
  awayTime (hook w60) = 0%Q /\ sessionDuration (hook w60) = 60 /\
  sessionActive (hook w60) = false.
Proof.
  intros instants w60.
  destruct (C9_no_events_no_accumulation 1700000000000 true
              "1 Minute Session" instants eq_refl)
    as (_ & _ & Ha & Hd & _ & _ & Hs & _).
  repeat split; assumption.
Defined.

(** C9 as stated fails: after the sixty ticks of a 60-second session
    with no update, the wall clock has 60 s since the start and
    [awayTime] has none of them. *)
Lemma C9_counterexample :
  let instants := map (fun k => 1700000000000 + 1000 * Z.of_nat k) (seq 1 60) in
  let w60 := run (ticks 1%nat instants)
                 (firstSession 1700000000000 true
                    (mkConfig custom 60 "1 Minute Session")) in
  (elapsedSinceStart w60 == 60)%Q /\
  (awayTime (hook w60) == 0)%Q /\
  ~ (awayTime (hook w60) == elapsedSinceStart w60)%Q.
Proof.
  intros instants w60. repeat split. vm_compute. discriminate.
Qed.

End Countdown.

(** ** Starting again *)

Section StartingAgain.
Import Tracker.

Lemma env_release (r : option nat) (e : Env) :
  clock (snd (release r e)) = clock e /\
  nextTimer (snd (release r e)) = nextTimer e /\
  notifyExposed (snd (release r e)) = notifyExposed e.
Proof.
  unfold release. destruct r as [id|]; [ | now repeat split ].
  destruct (truthyId (Some id)); now repeat split.
Qed.

Lemma env_stopSession (w : World) :
  clock (env (fst (stopSession w))) = clock (env w) /\
  nextTimer (env (fst (stopSession w))) = nextTimer (env w) /\
  notifyExposed (env (fst (stopSession w))) = notifyExposed (env w).
Proof.
  unfold stopSession.
  destruct (env_release (intervalRef (hook w)) (env w)) as (Hc1 & Hn1 & Hb1).
  destruct (release (intervalRef (hook w)) (env w)) as [i e1]. simpl in *.
  destruct (env_release (waterIntervalRef (hook w)) e1) as (Hc2 & Hn2 & Hb2).
  destruct (release (waterIntervalRef (hook w)) e1) as [v e2]. simpl in *.
  repeat split; congruence.
Qed.

(** C7, as the hook has it.  Whatever the tracker state, [startSession]
    sets every state variable and every ref: the buckets and the
    duration to 0, the classification to [away], the countdown to the
    configured duration, the away guard cleared; and the resulting hook
    state is the one [stopSession] followed by [startSession] gives. *)
Theorem C7_start_resets_hook_state (cfg : SessionConfig) (w : World) :
  let restarted := startSession cfg w in
  let stoppedFirst := startSession cfg (fst (stopSession w)) in
  hook restarted = hook stoppedFirst /\
  hook restarted =
    mkHook true (Some (dateNow (env w))) 0 0 0 0
           (Some (configType cfg)) (configDuration cfg) (configDuration cfg)
           None false away (Some (dateNow (env w)))
           (Some (nextTimer (env w))) (Some (S (nextTimer (env w)))).
Proof.
  intros restarted stoppedFirst.
  destruct (env_stopSession w) as (Hc & Hn & _).
  split; [ | reflexivity ].
  unfold restarted, stoppedFirst, startSession, dateNow. simpl.
  now rewrite Hc, Hn.
Qed.

(** C7 as stated fails on the timers: [startSession] arms two new
    intervals without clearing the two of the session under way, so
    four are armed where stop-then-start leaves two, and the countdown
    then runs twice a second. *)
Lemma C7_counterexample :
  let cfg := mkConfig pomodoro 1500 "Pomodoro" in
  let w := at_time 1700000005000 (firstSession 1700000000000 true cfg) in
  let restarted := startSession cfg w in
  let stoppedFirst := startSession cfg (fst (stopSession w)) in
  let aSecondLater := [ (1700000006000, Fire 1%nat); (1700000006000, Fire 3%nat) ] in
  map timerId (live (env restarted)) = [1; 2; 3; 4]%nat /\
  map timerId (live (env stoppedFirst)) = [3; 4]%nat /\
  restarted <> stoppedFirst /\
  sessionDuration (hook (run aSecondLater restarted)) = 2 /\
  sessionDuration (hook (run aSecondLater stoppedFirst)) = 1.
Proof.
  intros cfg w restarted stoppedFirst aSecondLater.
  repeat split. intros H.
  apply (f_equal (fun x => List.length (live (env x)))) in H.
  discriminate H.
Qed.

End StartingAgain.

(** ** Focus score *)

Section Score.
Import Tracker.

Lemma clock_handle (c : Command) (w : World) :
  clock (env (handle c w)) = clock (env w).
Proof.
  destruct c as [cfg | | d | id]; unfold handle.
  - reflexivity.
  - apply env_stopSession.
  - unfold_update.
    destruct (negb _ || negb _); [ reflexivity | ].
    destruct (classify d); try reflexivity.
    destruct (negb (truthy (awayStartTime (hook w)))); [ reflexivity | ].
    destruct (Qle_bool 10 _ && negb _); [ | reflexivity ].
    simpl. unfold notify. now destruct (notifyExposed (env w)).
  - unfold fire. destruct (findTimer id (env w)) as [t|]; [ | reflexivity ].
    destruct (timerCallback t); simpl; try reflexivity.
    + unfold countdownTick.
      destruct (remainingTime (hook w) <=? 1); [ | reflexivity ].
      simpl. unfold handleSessionComplete.
      destruct (env_stopSession (mkWorld (notify SessionComplete (env w)) (hook w)))
        as (Hc & _). rewrite Hc. simpl.
      unfold notify. now destruct (notifyExposed (env w)).
    + unfold notify. now destruct (notifyExposed (env w)).
Qed.

Lemma sane_stopSession (w : World) : sane w -> sane (fst (stopSession w)).
Proof.
  intros (Hf & Hd & Hl).
  destruct (hook_stopSession w) as (_ & Ed & Ef & _ & _ & El & _).
  destruct (env_stopSession w) as (Ec & _).
  unfold sane. now rewrite Ed, Ef, El, Ec.
Qed.

Lemma sane_updateFocusState (d : DetectionResults) (w : World) :
  sane w -> sane (updateFocusState d w).
Proof.
  intros H.
  assert (Ec := clock_handle (Update d) w). simpl in Ec.
  revert Ec. unfold_update.
  destruct (negb (sessionActive (hook w))
            || negb (truthy (lastUpdateTimeRef (hook w)))) eqn:G;
    [ intros _; exact H | ].
  apply orb_false_elim in G. destruct G as [_ G].
  apply negb_false_iff, truthy_some in G. destruct G as (l & El & _).
  destruct H as (Hf & Hd & Hl). rewrite El in Hl.
  set (guard := match classify d with away => _ | _ => _ end).
  destruct guard as [[a s] e]. simpl. intros Ec.
  unfold sane. simpl. rewrite Ec. repeat split.
  - rewrite El. simpl.
    assert (0 <= seconds (dateNow (env w) - l))%Q
      by (apply seconds_nonneg; unfold dateNow; lia).
    destruct (currentStateRef (hook w)); try exact Hf.
    apply Qle_trans with (0 + 0)%Q; [ discriminate | now apply Qplus_le_compat ].
  - exact Hd.
  - unfold dateNow. lia.
Qed.

Lemma sane_fire (id : nat) (w : World) : sane w -> sane (fire id w).
Proof.
  intros H.
  assert (Ec := clock_handle (Fire id) w). simpl in Ec. revert Ec.
  unfold fire. destruct (findTimer id (env w)) as [t|]; [ | intros _; exact H ].
  destruct (timerCallback t).
  - intros Ec. destruct H as (Hf & Hd & Hl).
    unfold sane in *. simpl in *. repeat split; [ exact Hf | lia | exact Hl ].
  - unfold countdownTick.
    destruct (remainingTime (hook w) <=? 1).
    + unfold handleSessionComplete.
      assert (S : sane (mkWorld (notify SessionComplete (env w)) (hook w))).
      { destruct H as (Hf & Hd & Hl). unfold sane. simpl.
        repeat split; try assumption.
        unfold notify. now destruct (notifyExposed (env w)). }
      apply sane_stopSession in S.
      destruct S as (Hf & Hd & Hl). intros Ec.
      unfold sane in *. simpl in *. repeat split; [ exact Hf | lia | exact Hl ].
    + intros Ec. destruct H as (Hf & Hd & Hl).
      unfold sane in *. simpl in *. repeat split; [ exact Hf | lia | exact Hl ].
  - intros Ec. destruct H as (Hf & Hd & Hl).
    unfold sane in *. simpl in *. repeat split; try assumption.
    unfold notify. now destruct (notifyExposed (env w)).
Qed.

Lemma sane_handle (c : Command) (w : World) : sane w -> sane (handle c w).
Proof.
  intros H. destruct c as [cfg | | d | id]; unfold handle.
  - unfold sane. simpl. unfold dateNow. repeat split; try discriminate. lia.
  - now apply sane_stopSession.
  - now apply sane_updateFocusState.
  - now apply sane_fire.
Qed.

Lemma sane_run (script : list (Z * Command)) :
  forall w : World,
    sane w -> ordered (clock (env w)) script -> sane (run script w).
Proof.
  induction script as [| [t c] rest IH]; intros w H Ho; [ exact H | ].
  destruct Ho as [Ht Ho].
  change (run ((t, c) :: rest) w) with (run rest (handle c (at_time t w))).
  apply IH.
  - apply sane_handle. destruct H as (Hf & Hd & Hl).
    unfold sane. simpl. repeat split; try assumption.
    destruct (lastUpdateTimeRef (hook w)); [ lia | exact I ].
  - now rewrite clock_handle.
Qed.

Lemma focusScore_nonneg (h : Hook) :
  (0 <= focusedTime h)%Q -> (0 <= focusScore h)%Q.
Proof.
  intros Hf. unfold focusScore.
  destruct (0 <? sessionDuration h) eqn:E; [ | discriminate ].
  apply Z.ltb_lt in E.
  apply Qmult_le_0_compat; [ | discriminate ].
  apply Qle_shift_div_l.
  - change 0%Q with (inject_Z 0). now rewrite <- Zlt_Qlt.
  - now rewrite Qmult_0_l.
Qed.

Lemma focusScore_at_most_100 (h : Hook) :
  (focusedTime h <= inject_Z (sessionDuration h))%Q -> (focusScore h <= 100)%Q.
Proof.
  intros Hf. unfold focusScore.
  destruct (0 <? sessionDuration h) eqn:E; [ | discriminate ].
  apply Z.ltb_lt in E.
  setoid_replace 100%Q with (1 * 100)%Q at 2 by reflexivity.
  apply Qmult_le_compat_r; [ | discriminate ].
  apply Qle_shift_div_r.
  - change 0%Q with (inject_Z 0). now rewrite <- Zlt_Qlt.
  - now rewrite Qmult_1_l.
Qed.

(** What does hold of the score.  In every state reached from the first
    render by a script whose instants never go back, it is not negative
    and is 0 while [sessionDuration] is 0; it is at most 100 whenever
    [focusedTime] does not exceed [sessionDuration]. *)
Lemma focusScore_reached (e : Env) (script : list (Z * Command)) :
  ordered (clock e) script ->
  let h := hook (run script (mount e)) in
  (0 <= focusScore h)%Q /\
  (sessionDuration h = 0 -> focusScore h = 0%Q) /\
  ((focusedTime h <= inject_Z (sessionDuration h))%Q -> (focusScore h <= 100)%Q).
Proof.
  intros Ho h.
  assert (S : sane (run script (mount e))).
  { apply sane_run; [ | exact Ho ].
    unfold sane. simpl. repeat split; try discriminate. }
  repeat split.
  - apply focusScore_nonneg. apply S.
  - intros Hd. unfold focusScore. now rewrite Hd.
  - apply focusScore_at_most_100.
Qed.

Example focusScore_reached_one_second :
  let d := mkDetection true 0.9 in
  let script := (1700000000000, Start (mkConfig pomodoro 1500 "Pomodoro"))
                :: detections 1700000000000 d (seq 1 10)
                ++ ticks 1%nat [1700000001000] in
  let h := hook (run script (mount (fresh 1700000000000 true))) in
  (0 <= focusScore h)%Q /\ (focusScore h <= 100)%Q.
Proof.
  intros d script h.
  destruct (focusScore_reached (fresh 1700000000000 true) script)
    as (Hlow & _ & Hhigh).
  - simpl. repeat split; lia.
  - split; [ exact Hlow | ]. apply Hhigh. vm_compute. discriminate.
Qed.

(** C6 at the failing input.  The score is meant as the share of the
    session spent focused, but [focusedTime] follows the wall clock while
    [sessionDuration] counts whole ticks.  With detections of a focused
    face every 100 ms, 1.9 s into the session one tick has fired and
    1.8 s are in [focusedTime]: the score is 180, above 100. *)
Theorem C6_score_exceeds_100 :
  let d := mkDetection true 0.9 in
  let script := (1700000000000, Start (mkConfig pomodoro 1500 "Pomodoro"))
                :: detections 1700000000000 d (seq 1 10)
                ++ ticks 1%nat [1700000001000]
                ++ detections 1700000000000 d (seq 11 9) in
  let h := hook (run script (mount (fresh 1700000000000 true))) in
  ordered 1700000000000 script /\
  sessionDuration h = 1 /\
  (focusScore h == 180)%Q /\
  ~ (focusScore h <= 100)%Q.
Proof.
  intros d script h. split; [ | split; [ | split ] ].
  - simpl. repeat split; lia.
  - reflexivity.
  - reflexivity.
  - vm_compute. intros H. apply H. reflexivity.
Qed.

End Score.

(** ** Away notification *)

Section AwayNotification.
Import Tracker.

Lemma Qle_bool_seconds (ms : Z) : Qle_bool 10 (seconds ms) = (10000 <=? ms).
Proof.
  apply eq_true_iff_eq. rewrite seconds_ge_10. symmetry. apply Z.leb_le.
Qed.

Lemma classify_no_face (d : DetectionResults) :
  faceDetected d = false -> classify d = away.
Proof. intros H. unfold classify. now rewrite H. Qed.

Lemma classify_face (d : DetectionResults) :
  faceDetected d = true -> classify d <> away.
Proof.
  intros H. unfold classify. rewrite H.
  destruct (Qle_bool 0.6 (confidence d)); discriminate.
Qed.

(** The first detection without a face opens the period. *)
Lemma away_opens (d : DetectionResults) (w : World) :
  sessionActive (hook w) = true ->
  truthy (lastUpdateTimeRef (hook w)) = true ->
  faceDetected d = false ->
  truthy (awayStartTime (hook w)) = false ->
  let w' := updateFocusState d w in
  sessionActive (hook w') = true /\
  lastUpdateTimeRef (hook w') = Some (clock (env w)) /\
  awayStartTime (hook w') = Some (clock (env w)) /\
  awayNotificationShown (hook w') = awayNotificationShown (hook w) /\
  env w' = env w.
Proof.
  intros Ha Hl Hf Hs w'. subst w'. unfold_update.
  rewrite Ha, Hl, (classify_no_face d Hf), Hs. simpl. repeat split.
Qed.

(** A later detection without a face notifies once the ten seconds are
    over, unless the period has notified already. *)
Lemma away_goes_on (d : DetectionResults) (w : World) (opened : Z) :
  sessionActive (hook w) = true ->
  truthy (lastUpdateTimeRef (hook w)) = true ->
  faceDetected d = false ->
  awayStartTime (hook w) = Some opened -> opened <> 0 ->
  let w' := updateFocusState d w in
  sessionActive (hook w') = true /\
  lastUpdateTimeRef (hook w') = Some (clock (env w)) /\
  awayStartTime (hook w') = Some opened /\
  if (opened + 10000 <=? clock (env w)) && negb (awayNotificationShown (hook w))
  then awayNotificationShown (hook w') = true /\
       env w' = notify ComeBack (env w)
  else awayNotificationShown (hook w') = awayNotificationShown (hook w) /\
       env w' = env w.
Proof.
  intros Ha Hl Hf Hs Hnz w'. subst w'. unfold_update.
  rewrite Ha, Hl, (classify_no_face d Hf), Hs. simpl.
  apply Z.eqb_neq in Hnz. rewrite Hnz. simpl.
  rewrite Qle_bool_seconds. unfold dateNow.
  replace (10000 <=? clock (env w) - opened)
    with (opened + 10000 <=? clock (env w))
    by (apply eq_true_iff_eq; rewrite !Z.leb_le; lia).
  destruct ((opened + 10000 <=? clock (env w))
            && negb (awayNotificationShown (hook w)));
    simpl; repeat split.
Qed.

(** A detection with a face closes the period and clears the flag. *)
Lemma face_closes (d : DetectionResults) (w : World) :
  sessionActive (hook w) = true ->
  truthy (lastUpdateTimeRef (hook w)) = true ->
  faceDetected d = true ->
  let w' := updateFocusState d w in
  sessionActive (hook w') = true /\
  lastUpdateTimeRef (hook w') = Some (clock (env w)) /\
  awayStartTime (hook w') = None /\
  awayNotificationShown (hook w') = false /\
  env w' = env w.
Proof.
  intros Ha Hl Hf w'. subst w'. unfold_update.
  rewrite Ha, Hl. simpl.
  assert (Hc := classify_face d Hf).
  destruct (classify d); [ | | congruence ]; simpl; repeat split.
Qed.

Lemma trace_notify (n : Notice) (e : Env) :
  trace (notify n e) =
    trace e ++ (if notifyExposed e then [(clock e, Notified n)] else []).
Proof.
  unfold notify. destruct (notifyExposed e); simpl; [ reflexivity | ].
  now rewrite app_nil_r.
Qed.

Lemma notifyExposed_notify (n : Notice) (e : Env) :
  notifyExposed (notify n e) = notifyExposed e.
Proof. unfold notify. destruct (notifyExposed e) eqn:E; simpl; congruence. Qed.

(** The detections that follow the first one of a period. *)
Lemma period_goes_on (rest : list (Z * DetectionResults)) :
  forall (w : World) (opened : Z),
    sessionActive (hook w) = true ->
    truthy (lastUpdateTimeRef (hook w)) = true ->
    awayStartTime (hook w) = Some opened -> opened <> 0 ->
    awayPeriod rest = true ->
    let w' := run (updates rest) w in
    sessionActive (hook w') = true /\
    truthy (lastUpdateTimeRef (hook w')) = true /\
    awayStartTime (hook w') = Some opened /\
    notifyExposed (env w') = notifyExposed (env w) /\
    awayNotificationShown (hook w') =
      awayNotificationShown (hook w) || existsb (late opened) rest /\
    trace (env w') =
      trace (env w) ++ comeBack opened (awayNotificationShown (hook w))
                                (notifyExposed (env w)) rest.
Proof.
  induction rest as [| [t d] rest IH]; intros w opened Ha Hl Hs Hnz Hp.
  - simpl. repeat split; try assumption.
    + now rewrite orb_false_r.
    + unfold comeBack. simpl.
      destruct (_ || _); now rewrite app_nil_r.
  - simpl in Hp. apply andb_prop in Hp. destruct Hp as [Hd Hp].
    apply andb_prop in Hd. destruct Hd as [Hf Ht].
    apply negb_true_iff in Hf. apply negb_true_iff, Z.eqb_neq in Ht.
    change (run (updates ((t, d) :: rest)) w)
      with (run (updates rest) (updateFocusState d (at_time t w))).
    destruct (away_goes_on d (at_time t w) opened Ha Hl Hf Hs Hnz)
      as (Ha' & Hl' & Hs' & Hstep).
    assert (Hl'' : truthy (lastUpdateTimeRef
                             (hook (updateFocusState d (at_time t w)))) = true).
    { rewrite Hl'. simpl. now apply negb_true_iff, Z.eqb_neq. }
    specialize (IH (updateFocusState d (at_time t w)) opened Ha' Hl'' Hs' Hnz Hp).
    destruct IH as (Ha2 & Hl2 & Hs2 & Hb2 & Hn2 & Ht2).
    change (clock (env (at_time t w))) with t in Hstep.
    change (awayNotificationShown (hook (at_time t w)))
      with (awayNotificationShown (hook w)) in Hstep.
    assert (Hnow : awayNotificationShown (hook (updateFocusState d (at_time t w)))
                   = awayNotificationShown (hook w) || (opened + 10000 <=? t)
                   /\ notifyExposed (env (updateFocusState d (at_time t w)))
                      = notifyExposed (env w)
                   /\ trace (env (updateFocusState d (at_time t w)))
                      = trace (env w) ++
                        (if (opened + 10000 <=? t)
                            && negb (awayNotificationShown (hook w))
                            && notifyExposed (env w)
                         then [(t, Notified ComeBack)] else [])).
    { destruct (opened + 10000 <=? t);
        destruct (awayNotificationShown (hook w));
        simpl in Hstep; destruct Hstep as [Hsh He]; rewrite Hsh, He;
        simpl; rewrite ?app_nil_r; repeat split.
      - unfold notify. simpl. destruct (notifyExposed (env w)) eqn:E; simpl; congruence.
      - rewrite trace_notify. simpl. destruct (notifyExposed (env w)); reflexivity. }
    destruct Hnow as (Hsh & Hex & Htr).
    rewrite Hsh, Hex, Htr in *. clear Hstep Hsh Hex Htr.
    change (existsb (late opened) ((t, d) :: rest))
      with (late opened (t, d) || existsb (late opened) rest).
    unfold comeBack in *.
    change (find (late opened) ((t, d) :: rest))
      with (if late opened (t, d) then Some (t, d) else find (late opened) rest).
    change (late opened (t, d)) with (opened + 10000 <=? t).
    cbv zeta.
    repeat split; try assumption.
    + rewrite Hn2. now rewrite orb_assoc.
    + rewrite Ht2.
      destruct (opened + 10000 <=? t);
        destruct (awayNotificationShown (hook w));
        destruct (notifyExposed (env w)); simpl;
        rewrite ?app_nil_r; reflexivity.
Qed.

(** A whole period, from its first detection. *)
Lemma period_from_closed (w : World) (t1 : Z) (d1 : DetectionResults)
    (rest : list (Z * DetectionResults)) :
  closedGuard w ->
  awayPeriod ((t1, d1) :: rest) = true ->
  let w' := run (updates ((t1, d1) :: rest)) w in
  sessionActive (hook w') = true /\
  truthy (lastUpdateTimeRef (hook w')) = true /\
  awayStartTime (hook w') = Some t1 /\
  notifyExposed (env w') = notifyExposed (env w) /\
  awayNotificationShown (hook w') = existsb (late t1) rest /\
  trace (env w') =
    trace (env w) ++ comeBack t1 false (notifyExposed (env w)) rest.
Proof.
  intros (Ha & Hl & Hs & Hsh) Hp.
  simpl in Hp. apply andb_prop in Hp. destruct Hp as [Hd Hp].
  apply andb_prop in Hd. destruct Hd as [Hf Ht].
  apply negb_true_iff in Hf. apply negb_true_iff, Z.eqb_neq in Ht.
  change (run (updates ((t1, d1) :: rest)) w)
    with (run (updates rest) (updateFocusState d1 (at_time t1 w))).
  destruct (away_opens d1 (at_time t1 w)) as (Ha' & Hl' & Hs' & Hsh' & He');
    try assumption.
  { change (truthy (awayStartTime (hook w)) = false). now rewrite Hs. }
  change (clock (env (at_time t1 w))) with t1 in *.
  change (awayNotificationShown (hook (at_time t1 w)))
    with (awayNotificationShown (hook w)) in Hsh'.
  assert (Hl'' : truthy (lastUpdateTimeRef
                           (hook (updateFocusState d1 (at_time t1 w)))) = true).
  { rewrite Hl'. simpl. now apply negb_true_iff, Z.eqb_neq. }
  destruct (period_goes_on rest (updateFocusState d1 (at_time t1 w)) t1
              Ha' Hl'' Hs' Ht Hp) as (Ha2 & Hl2 & Hs2 & Hb2 & Hn2 & Ht2).
  rewrite He', Hsh', Hsh in *. simpl in *.
  repeat split; assumption.
Qed.

Lemma comeBack_short (opened : Z) (shown exposed : bool)
    (rest : list (Z * DetectionResults)) :
  (List.length (comeBack opened shown exposed rest) <= 1)%nat.
Proof.
  unfold comeBack. destruct (shown || negb exposed); simpl; [ lia | ].
  destruct (find (late opened) rest); simpl; lia.
Qed.

Lemma comeBack_late (opened : Z) (shown exposed : bool)
    (rest : list (Z * DetectionResults)) :
  Forall (fun x => snd x = Notified ComeBack /\ opened + 10000 <= fst x)
         (comeBack opened shown exposed rest).
Proof.
  unfold comeBack. destruct (shown || negb exposed); [ constructor | ].
  destruct (find (late opened) rest) as [td|] eqn:E; [ | constructor ].
  apply find_some in E. destruct E as [_ E].
  constructor; [ | constructor ]. split; [ reflexivity | ].
  simpl. now apply Z.leb_le.
Qed.

Lemma comeBack_none (opened : Z) (shown exposed : bool)
    (rest : list (Z * DetectionResults)) :
  existsb (late opened) rest = false ->
  comeBack opened shown exposed rest = [].
Proof.
  intros H. unfold comeBack. destruct (shown || negb exposed); [ reflexivity | ].
  destruct (find (late opened) rest) as [td|] eqn:E; [ | reflexivity ].
  apply find_some in E. destruct E as [Hin E].
  assert (X : existsb (late opened) rest = true)
    by (apply existsb_exists; now exists td).
  congruence.
Qed.

Lemma comeBack_one (opened : Z) (rest : list (Z * DetectionResults)) :
  existsb (late opened) rest = true ->
  exists t, comeBack opened false true rest = [(t, Notified ComeBack)].
Proof.
  intros H. unfold comeBack. simpl.
  destruct (find (late opened) rest) as [td|] eqn:E; [ now exists (fst td) | ].
  apply existsb_exists in H. destruct H as (td & Hin & Hl).
  now rewrite (find_none _ _ E td Hin) in Hl.
Qed.

Lemma notices_app (n : Notice) (e e' : Env) (added : list (Z * Effect)) :
  trace e' = trace e ++ added ->
  notices n e' = (notices n e + List.length (filter (isNotice n) added))%nat.
Proof.
  intros H. unfold notices. now rewrite H, filter_app, length_app.
Qed.

Lemma face_recloses (w : World) (tb : Z) (back : DetectionResults) :
  sessionActive (hook w) = true ->
  truthy (lastUpdateTimeRef (hook w)) = true ->
  tb <> 0 -> faceDetected back = true ->
  let w' := run (updates [(tb, back)]) w in
  closedGuard w' /\
  trace (env w') = trace (env w) /\
  notifyExposed (env w') = notifyExposed (env w).
Proof.
  intros Ha Hl Ht Hf.
  change (run (updates [(tb, back)]) w)
    with (updateFocusState back (at_time tb w)).
  destruct (face_closes back (at_time tb w) Ha Hl Hf)
    as (Ha' & Hl' & Hs' & Hsh' & He').
  cbv zeta. unfold closedGuard. rewrite He', Hl'. simpl.
  repeat split; try assumption.
  now apply negb_true_iff, Z.eqb_neq.
Qed.

(** The debounce as the hook attempts it, when every call goes through
    the function of the latest render.  Take an active session with no
    away period open.  An
    uninterrupted away period adds at most one entry to the trace, a
    come-back notice sent ten seconds or more after the period's first
    detection; it adds none when no detection comes that late, and
    exactly one when one does.  A detection with a face then closes the
    period and clears the flag, and a second period of ten seconds or
    more raises the count to two. *)
Theorem latest_function_debounces
    (w : World)
    (t1 : Z) (d1 : DetectionResults) (rest1 : list (Z * DetectionResults))
    (tb : Z) (back : DetectionResults)
    (t2 : Z) (d2 : DetectionResults) (rest2 : list (Z * DetectionResults)) :
  closedGuard w ->
  awayPeriod ((t1, d1) :: rest1) = true ->
  tb <> 0 -> faceDetected back = true ->
  awayPeriod ((t2, d2) :: rest2) = true ->
  let wA := run (updates ((t1, d1) :: rest1)) w in
  let wB := run (updates [(tb, back)]) wA in
  let wC := run (updates ((t2, d2) :: rest2)) wB in
  (exists added,
      trace (env wA) = trace (env w) ++ added /\
      (List.length added <= 1)%nat /\
      Forall (fun x => snd x = Notified ComeBack /\ t1 + 10000 <= fst x) added) /\
  (existsb (late t1) rest1 = false -> trace (env wA) = trace (env w)) /\
  (notifyExposed (env w) = true -> existsb (late t1) rest1 = true ->
   notices ComeBack (env wA) = S (notices ComeBack (env w))) /\
  (closedGuard wB /\ trace (env wB) = trace (env wA)) /\
  (notifyExposed (env w) = true ->
   existsb (late t1) rest1 = true -> existsb (late t2) rest2 = true ->
   notices ComeBack (env wC) = S (S (notices ComeBack (env w)))).
Proof.
  intros Hg Hp1 Htb Hback Hp2 wA wB wC.
  destruct (period_from_closed w t1 d1 rest1 Hg Hp1)
    as (HaA & HlA & _ & HbA & _ & HtA).
  fold wA in HaA, HlA, HbA, HtA.
  destruct (face_recloses wA tb back HaA HlA Htb Hback) as (HgB & HtB & HbB).
  fold wB in HgB, HtB, HbB.
  destruct (period_from_closed wB t2 d2 rest2 HgB Hp2)
    as (_ & _ & _ & _ & _ & HtC).
  fold wC in HtC.
  assert (One : notifyExposed (env w) = true ->
                existsb (late t1) rest1 = true ->
                notices ComeBack (env wA) = S (notices ComeBack (env w))).
  { intros Hex Hlate. rewrite Hex in HtA.
    destruct (comeBack_one t1 rest1 Hlate) as [t Ht]. rewrite Ht in HtA.
    rewrite (notices_app ComeBack (env w) (env wA) _ HtA). simpl. lia. }
  split; [ | split; [ | split; [ | split ] ] ].
  - exists (comeBack t1 false (notifyExposed (env w)) rest1).
    split; [ exact HtA | split; [ apply comeBack_short | apply comeBack_late ] ].
  - intros Hnone. rewrite HtA, (comeBack_none _ _ _ _ Hnone). apply app_nil_r.
  - exact One.
  - split; assumption.
  - intros Hex Hl1 Hl2.
    rewrite HbB, HbA, Hex in HtC.
    destruct (comeBack_one t2 rest2 Hl2) as [t Ht]. rewrite Ht in HtC.
    rewrite (notices_app ComeBack (env wB) (env wC) _ HtC).
    unfold notices at 1. rewrite HtB. fold (notices ComeBack (env wA)).
    rewrite (One Hex Hl1). simpl. lia.
Qed.

(** The 15-second stream of the specification, then a face, then a
    second away period: detections every 100 ms. *)
Lemma latest_function_debounces_witness :
  let t0 := 1700000000000 in
  let absent := mkDetection false 0 in
  let w := firstSession t0 true (mkConfig pomodoro 1500 "Pomodoro") in
  let wA := run (detections t0 absent (seq 1 150)) w in
  let wC := run (detections t0 absent (seq 1 150)
                 ++ detections t0 (mkDetection true 0.9) [151%nat]
                 ++ detections t0 absent (seq 152 150)) w in
  notices ComeBack (env wA) = 1%nat /\
  notices ComeBack (env wC) = 2%nat.
Proof.
  intros t0 absent w wA wC.
  destruct (latest_function_debounces w
              (t0 + 100) absent (stream t0 absent (seq 2 149))
              (t0 + 15100) (mkDetection true 0.9)
              (t0 + 15200) absent (stream t0 absent (seq 153 149)))
    as (_ & _ & HA & _ & HC).
  - repeat split.
  - reflexivity.
  - discriminate.
  - reflexivity.
  - reflexivity.
  - split.
    + exact (HA eq_refl eq_refl).
    + unfold wC. rewrite !run_app. exact (HC eq_refl eq_refl eq_refl).
Defined.

(** The stream by itself: 150 detections without a face, 100 ms apart.
    The period opens at 0.1 s and the one notice is sent at 10.1 s. *)
Example away_stream_notifies_once :
  let t0 := 1700000000000 in
  let w := firstSession t0 true (mkConfig pomodoro 1500 "Pomodoro") in
  filter (isNotice ComeBack)
         (trace (env (run (detections t0 (mkDetection false 0) (seq 1 150)) w)))
  = [(t0 + 10100, Notified ComeBack)].
Proof. vm_compute. reflexivity. Qed.


(** *** One function kept over many calls *)

(** A function whose render saw no away period open never notifies: at
    each detection without a face it takes the period to open just now. *)
Lemma kept_function_silent (r : Render) (d : DetectionResults) (w : World) :
  truthy (seenAwayStartTime r) = false ->
  env (updateFocusStateOf r d w) = env w.
Proof.
  intros H. unfold updateFocusStateOf.
  destruct (negb (seenActive r) || negb (truthy (lastUpdateTimeRef (hook w))));
    [ reflexivity | ].
  rewrite H. destruct (classify d); reflexivity.
Qed.

Lemma kept_stream_silent (r : Render) (ds : list (Z * DetectionResults)) :
  truthy (seenAwayStartTime r) = false ->
  forall w : World,
    trace (env (Calls.run (Calls.keptStream r ds) w)) = trace (env w).
Proof.
  intros H. induction ds as [| [t d] rest IH]; intros w; [ reflexivity | ].
  change (Calls.run (Calls.keptStream r ((t, d) :: rest)) w)
    with (Calls.run (Calls.keptStream r rest)
            (updateFocusStateOf r d (at_time t w))).
  rewrite IH, (kept_function_silent r d _ H). reflexivity.
Qed.

(** A function whose render saw the period open since [opened] and the
    flag down notifies at every late detection without a face: the flag
    it raises is not the one it reads. *)
Lemma kept_function_repeats
    (r : Render) (opened : Z) (d : DetectionResults) (w : World) :
  seenActive r = true ->
  seenAwayStartTime r = Some opened -> opened <> 0 ->
  seenAwayNotificationShown r = false ->
  truthy (lastUpdateTimeRef (hook w)) = true ->
  faceDetected d = false ->
  opened + 10000 <= clock (env w) ->
  let w' := updateFocusStateOf r d w in
  env w' = notify ComeBack (env w) /\
  lastUpdateTimeRef (hook w') = Some (clock (env w)) /\
  awayNotificationShown (hook w') = true.
Proof.
  intros Ha Hs Hnz Hsh Hl Hf Hlate. unfold updateFocusStateOf.
  rewrite Ha, Hl, (classify_no_face d Hf), Hs, Hsh.
  apply Z.eqb_neq in Hnz. cbn [truthy negb orb toNumber]. rewrite Hnz.
  cbn [negb]. rewrite Qle_bool_seconds. unfold dateNow.
  replace (10000 <=? clock (env w) - opened) with true
    by (symmetry; apply Z.leb_le; lia).
  cbn [andb]. repeat split.
Qed.

Lemma kept_stream_repeats
    (r : Render) (opened : Z) (ds : list (Z * DetectionResults)) :
  seenActive r = true ->
  seenAwayStartTime r = Some opened -> opened <> 0 ->
  seenAwayNotificationShown r = false ->
  awayPeriod ds = true ->
  forallb (late opened) ds = true ->
  forall w : World,
    notifyExposed (env w) = true ->
    truthy (lastUpdateTimeRef (hook w)) = true ->
    trace (env (Calls.run (Calls.keptStream r ds) w)) =
      trace (env w) ++ map (fun td => (fst td, Notified ComeBack)) ds.
Proof.
  intros Ha Hs Hnz Hsh.
  induction ds as [| [t d] rest IH]; intros Hp Hlate w Hex Hl.
  - simpl. now rewrite app_nil_r.
  - simpl in Hp. apply andb_prop in Hp. destruct Hp as [Hd Hp].
    apply andb_prop in Hd. destruct Hd as [Hf Ht].
    apply negb_true_iff in Hf. apply negb_true_iff, Z.eqb_neq in Ht.
    simpl in Hlate. apply andb_prop in Hlate. destruct Hlate as [Hl1 Hlate].
    unfold late in Hl1. simpl in Hl1. apply Z.leb_le in Hl1.
    change (Calls.run (Calls.keptStream r ((t, d) :: rest)) w)
      with (Calls.run (Calls.keptStream r rest)
              (updateFocusStateOf r d (at_time t w))).
    destruct (kept_function_repeats r opened d (at_time t w))
      as (He & Hl' & _); try assumption.
    rewrite (IH Hp Hlate).
    + rewrite He, trace_notify.
      change (notifyExposed (env (at_time t w))) with (notifyExposed (env w)).
      change (clock (env (at_time t w))) with t.
      change (trace (env (at_time t w))) with (trace (env w)).
      rewrite Hex. simpl. now rewrite <- app_assoc.
    + rewrite He, notifyExposed_notify. exact Hex.
    + rewrite Hl'. simpl. now apply negb_true_iff, Z.eqb_neq.
Qed.

Lemma comeBack_length (ds : list (Z * DetectionResults)) :
  List.length (filter (isNotice ComeBack)
                 (map (fun td => (fst td, Notified ComeBack)) ds))
    = List.length ds.
Proof. induction ds as [| td rest IH]; simpl; congruence. Qed.

(** C3 fails on a function that is kept.  The debounce reads
    [awayStartTime] and [awayNotificationShown] as the render that created
    the function saw them, so a detection loop that calls one kept
    function never sees what its own calls have set.  Kept from a render
    with no away period open (such as the one right after the start), the
    function sends no notice at all, however long the user is away.  Kept
    from a render with a period open and the flag down, it sends a notice
    at every detection without a face that comes ten seconds or more
    after the period opened. *)
Theorem C3_kept_function_misses_debounce
    (r : Render) (opened : Z) (ds : list (Z * DetectionResults)) (w : World) :
  let w' := Calls.run (Calls.keptStream r ds) w in
  (truthy (seenAwayStartTime r) = false ->
   notices ComeBack (env w') = notices ComeBack (env w)) /\
  (seenActive r = true ->
   seenAwayStartTime r = Some opened -> opened <> 0 ->
   seenAwayNotificationShown r = false ->
   notifyExposed (env w) = true ->
   truthy (lastUpdateTimeRef (hook w)) = true ->
   awayPeriod ds = true ->
   forallb (late opened) ds = true ->
   notices ComeBack (env w') = (notices ComeBack (env w) + List.length ds)%nat).
Proof.
  intros w'. split.
  - intros H. unfold notices, w'. now rewrite (kept_stream_silent r ds H).
  - intros Ha Hs Hnz Hsh Hex Hl Hp Hlate.
    rewrite (notices_app ComeBack (env w) (env w') _
               (kept_stream_repeats r opened ds Ha Hs Hnz Hsh Hp Hlate w Hex Hl)).
    now rewrite comeBack_length.
Qed.

(** The 15-second stream of the specification through the function of
    the render that follows the start: no notice.  Then, through the
    function of the render that follows the first detection without a
    face, 50 detections from the tenth second on: 50 notices. *)
Lemma C3_kept_function_misses_debounce_witness :
  let t0 := 1700000000000 in
  let absent := mkDetection false 0 in
  let w := firstSession t0 true (mkConfig pomodoro 1500 "Pomodoro") in
  let w1 := run (detections t0 absent [1%nat]) w in
  notices ComeBack
    (env (Calls.run (Calls.keptStream (render (hook w))
                       (stream t0 absent (seq 1 150))) w)) = 0%nat /\
  notices ComeBack
    (env (Calls.run (Calls.keptStream (render (hook w1))
                       (stream t0 absent (seq 101 50))) w1)) = 50%nat.
Proof.
  intros t0 absent w w1. split.
  - apply (C3_kept_function_misses_debounce (render (hook w)) 0
             (stream t0 absent (seq 1 150)) w).
    reflexivity.
  - apply (C3_kept_function_misses_debounce (render (hook w1)) (t0 + 100)
             (stream t0 absent (seq 101 50)) w1); try reflexivity.
    discriminate.
Defined.

End AwayNotification.

(** ** The two versions of the hook *)

Section Versions.
Import Both.

Lemma sameCore_mount (e e' : Env) :
  sameCore (Early.hook (Early.mount e)) (Tracker.hook (Tracker.mount e')).
Proof. repeat split. Qed.

Lemma sameCore_startSession (cfg : SessionConfig)
    (we : Early.World) (wl : Tracker.World) :
  clock (Early.env we) = clock (Tracker.env wl) ->
  sameCore (Early.hook (Early.startSession we))
           (Tracker.hook (Tracker.startSession cfg wl)).
Proof.
  intros Hc. unfold sameCore. simpl. unfold dateNow. rewrite Hc. repeat split.
Qed.

Lemma sameCore_updateFocusStateOf (r : Tracker.Render) (d : DetectionResults)
    (we : Early.World) (wl : Tracker.World) :
  clock (Early.env we) = clock (Tracker.env wl) ->
  sameCore (Early.hook we) (Tracker.hook wl) ->
  sameCore (Early.hook (Early.updateFocusStateOf (Tracker.seenActive r) d we))
           (Tracker.hook (Tracker.updateFocusStateOf r d wl)).
Proof.
  intros Hc H. assert (H' := H).
  destruct H' as (Ha & Hd & Hf & Hdi & Haw & Hs & Hl).
  unfold Early.updateFocusStateOf, Tracker.updateFocusStateOf.
  rewrite Hl.
  destruct (negb (Tracker.seenActive r)
            || negb (truthy (Tracker.lastUpdateTimeRef (Tracker.hook wl))));
    [ exact H | ].
  set (guard := match Tracker.classify d with away => _ | _ => _ end).
  destruct guard as [[a s] e].
  unfold sameCore, dateNow. simpl.
  rewrite ?Ha, ?Hd, ?Hf, ?Hdi, ?Haw, ?Hs, ?Hl, ?Hc. repeat split.
Qed.

Lemma sameCore_updateFocusState (d : DetectionResults)
    (we : Early.World) (wl : Tracker.World) :
  clock (Early.env we) = clock (Tracker.env wl) ->
  sameCore (Early.hook we) (Tracker.hook wl) ->
  sameCore (Early.hook (Early.updateFocusState d we))
           (Tracker.hook (Tracker.updateFocusState d wl)).
Proof.
  intros Hc H. unfold Early.updateFocusState, Tracker.updateFocusState.
  replace (Early.sessionActive (Early.hook we))
    with (Tracker.seenActive (Tracker.render (Tracker.hook wl)))
    by (symmetry; apply H).
  now apply sameCore_updateFocusStateOf.
Qed.

End Versions.

(** ** Custom duration *)

Section CustomDuration.
Import SessionTypeModal.
Local Open Scope string_scope.

(** C8, as the modal has it.  The custom input is accepted exactly when
    [parseInt] reads from it a number of minutes from 1 to 180: the
    modal then calls [onSelect] with a custom session of that many
    minutes times 60 seconds and keeps its state.  Otherwise it sets an
    error message, keeps the input and does not call [onSelect]. *)
Theorem C8_custom_duration_validation (value : string) :
  let result := handleCustomSubmit (typed value) in
  (forall cfg : SessionConfig,
      snd result = Some cfg <->
      exists minutes : Z,
        parseInt value = Some minutes /\ 1 <= minutes <= 180 /\
        cfg = mkConfig custom (minutes * 60)
                       (toString minutes ++ " Minute Session")) /\
  (snd result = None ->
   error (fst result) <> "" /\ customDuration (fst result) = value) /\
  (snd result <> None -> fst result = typed value).
Proof.
  unfold handleCustomSubmit, typed, handleCustomInputChange. simpl.
  destruct (parseInt value) as [minutes|].
  - destruct (minutes <? 1)%Z eqn:E1; [ | destruct (180 <? minutes)%Z eqn:E2 ]; simpl.
    + apply Z.ltb_lt in E1. repeat split; try discriminate; try congruence.
      intros (m & [= <-] & Hr & _). lia.
    + apply Z.ltb_lt in E2. repeat split; try discriminate; try congruence.
      intros (m & [= <-] & Hr & _). lia.
    + apply Z.ltb_ge in E1, E2. repeat split; try discriminate.
      * intros [= <-]. exists minutes. repeat split; assumption.
      * intros (m & [= <-] & _ & ->). reflexivity.
  - simpl. repeat split; try discriminate; try congruence.
    intros (m & Hm & _). discriminate Hm.
Qed.

Lemma C8_custom_duration_validation_witness :
  snd (handleCustomSubmit (typed "45"))
    = Some (mkConfig custom 2700 "45 Minute Session") /\
  error (fst (handleCustomSubmit (typed "181"))) <> "".
Proof.
  split.
  - apply (C8_custom_duration_validation "45").
    exists 45. repeat split; lia.
  - apply (C8_custom_duration_validation "181"). reflexivity.
Defined.

(** C8 as stated fails: [parseInt] keeps the digits before the point, so
    an input that is not a whole number of minutes is accepted. *)
Lemma C8_counterexample :
  wholeNumber "2.5" = false /\
  snd (handleCustomSubmit (typed "2.5"))
    = Some (mkConfig custom 120 "2 Minute Session").
Proof. split; reflexivity. Qed.

End CustomDuration.

(** * Further properties of the session hook *)

Section Stopping.
Import Tracker Session.

(** Stopping a stopped session is harmless: the second [stopSession]
    changes no state, clears no interval, leaves the trace as it is and
    returns the same summary. *)
Theorem stopSession_idempotent (w : World) :
  stopSession (fst (stopSession w)) = (fst (stopSession w), snd (stopSession w)).
Proof.
  unfold stopSession.
  destruct (release (intervalRef (hook w)) (env w)) as [i e1] eqn:E1.
  destruct (release (waterIntervalRef (hook w)) e1) as [v e2] eqn:E2.
  cbn [fst snd hook env intervalRef waterIntervalRef sessionStartTime
       sessionDuration focusedTime distractedTime awayTime sessionType
       targetDuration remainingTime currentStateRef lastUpdateTimeRef].
  assert (Hi : release i e2 = (i, e2)).
  { unfold release in *. destruct (intervalRef (hook w)) as [[| n]|];
      injection E1 as <- <-; reflexivity. }
  assert (Hv : release v e2 = (v, e2)).
  { unfold release in *. destruct (waterIntervalRef (hook w)) as [[| n]|];
      injection E2 as <- <-; reflexivity. }
  rewrite Hi, Hv. reflexivity.
Qed.

End Stopping.

Section CountdownInvariant.
Import Tracker Session.

Lemma live_release (r : option nat) (e : Env) :
  exists keep, live (snd (release r e)) = filter keep (live e).
Proof.
  unfold release. destruct r as [[| n]|]; simpl.
  - exists (fun _ => true). symmetry. apply forallb_filter_id.
    now apply forallb_forall.
  - eexists. reflexivity.
  - exists (fun _ => true). symmetry. apply forallb_filter_id.
    now apply forallb_forall.
Qed.

Lemma ownTimers_filter (keep : Timer -> bool) (l : list Timer) :
  Forall (fun t => timerCallback t <> ElapsedTick) l ->
  Forall (fun t => timerCallback t <> ElapsedTick) (filter keep l).
Proof.
  intros H. apply Forall_forall. intros t Ht.
  apply filter_In in Ht. destruct Ht as [Ht _].
  now apply (proj1 (Forall_forall _ _) H).
Qed.

Lemma live_stopSession (w : World) :
  exists keep, live (env (fst (stopSession w))) = filter keep (live (env w)).
Proof.
  unfold stopSession.
  destruct (live_release (intervalRef (hook w)) (env w)) as [k1 H1].
  destruct (release (intervalRef (hook w)) (env w)) as [i e1]. simpl in H1.
  destruct (live_release (waterIntervalRef (hook w)) e1) as [k2 H2].
  destruct (release (waterIntervalRef (hook w)) e1) as [v e2]. simpl in *.
  exists (fun t => k1 t && k2 t). rewrite H2, H1.
  clear. induction (live (env w)) as [| t l IH]; [ reflexivity | ].
  simpl. destruct (k1 t); simpl; [ | exact IH ].
  destruct (k2 t); simpl; [ now rewrite IH | exact IH ].
Qed.

Lemma live_notify (n : Notice) (e : Env) : live (notify n e) = live e.
Proof. unfold notify. now destruct (notifyExposed e). Qed.

Lemma live_updateFocusState (d : DetectionResults) (w : World) :
  live (env (updateFocusState d w)) = live (env w).
Proof.
  unfold_update.
  destruct (negb _ || negb _); [ reflexivity | ].
  destruct (classify d); try reflexivity.
  destruct (negb (truthy (awayStartTime (hook w)))); [ reflexivity | ].
  destruct (Qle_bool 10 _ && negb _); [ | reflexivity ].
  apply live_notify.
Qed.

Lemma ownTimers_handle (c : Command) (w : World) :
  ownTimers (env w) -> ownTimers (env (handle c w)).
Proof.
  unfold ownTimers. intros H. destruct c as [cfg | | d | id]; unfold handle.
  - simpl. rewrite <- app_assoc. apply Forall_app. split; [ exact H | ].
    repeat constructor; discriminate.
  - destruct (live_stopSession w) as [k ->]. now apply ownTimers_filter.
  - now rewrite live_updateFocusState.
  - unfold fire. destruct (findTimer id (env w)) as [t|]; [ | exact H ].
    destruct (timerCallback t); simpl; try exact H.
    + unfold countdownTick.
      destruct (remainingTime (hook w) <=? 1); simpl; [ | exact H ].
      unfold handleSessionComplete.
      destruct (live_stopSession (mkWorld (notify SessionComplete (env w)) (hook w)))
        as [k ->].
      simpl. rewrite live_notify. now apply ownTimers_filter.
    + now rewrite live_notify.
Qed.

Lemma countingDown_stopSession (w : World) :
  countingDown (hook w) -> countingDown (hook (fst (stopSession w))).
Proof.
  intros [Hb _].
  destruct (hook_stopSession w) as (_ & _ & _ & _ & _ & _ & _ & Hr & Ha & _).
  assert (Ht : targetDuration (hook (fst (stopSession w))) = targetDuration (hook w)).
  { unfold stopSession.
    destruct (release (intervalRef (hook w)) (env w)) as [i e1].
    destruct (release (waterIntervalRef (hook w)) e1) as [v e2]. reflexivity. }
  unfold countingDown. rewrite Hr, Ht, Ha. split; [ exact Hb | discriminate ].
Qed.

Lemma countingDown_updateFocusState (d : DetectionResults) (w : World) :
  countingDown (hook w) -> countingDown (hook (updateFocusState d w)).
Proof.
  intros H. unfold_update.
  destruct (negb (sessionActive (hook w))
            || negb (truthy (lastUpdateTimeRef (hook w)))); [ exact H | ].
  set (guard := match classify d with away => _ | _ => _ end).
  destruct guard as [[a s] e]. exact H.
Qed.

Lemma countingDown_countdownTick (w : World) :
  countingDown (hook w) -> countingDown (hook (countdownTick w)).
Proof.
  intros H. unfold countdownTick.
  destruct (remainingTime (hook w) <=? 1) eqn:E.
  - unfold handleSessionComplete.
    assert (S := countingDown_stopSession
                   (mkWorld (notify SessionComplete (env w)) (hook w)) H).
    destruct (hook_stopSession (mkWorld (notify SessionComplete (env w)) (hook w)))
      as (_ & _ & _ & _ & _ & _ & _ & _ & Ha & _).
    destruct S as [[S1 S2] _]. unfold countingDown. simpl in *.
    rewrite Ha. split; [ lia | discriminate ].
  - apply Z.leb_gt in E. destruct H as [Hb Ha].
    unfold countingDown. simpl. split; [ lia | ].
    intros A. specialize (Ha A). lia.
Qed.

Lemma countingDown_handle (c : Command) (w : World) :
  (forall cfg, c = Start cfg -> 1 <= configDuration cfg) ->
  ownTimers (env w) ->
  countingDown (hook w) -> countingDown (hook (handle c w)).
Proof.
  intros Hc Ho H. destruct c as [cfg | | d | id]; unfold handle.
  - specialize (Hc cfg eq_refl). unfold countingDown. simpl. lia.
  - now apply countingDown_stopSession.
  - now apply countingDown_updateFocusState.
  - unfold fire. destruct (findTimer id (env w)) as [t|] eqn:F; [ | exact H ].
    destruct (timerCallback t) eqn:K.
    + exfalso. apply find_some in F. destruct F as [Hin _].
      exact (proj1 (Forall_forall _ _) Ho t Hin K).
    + now apply countingDown_countdownTick.
    + exact H.
Qed.

(** The countdown invariant.  On a page where only this hook arms
    intervals, whatever commands and timer firings reach it, as long as
    every session is started with one second or more: [remainingTime]
    stays between 0 and [targetDuration], and while the session is active
    at least one second remains and [remainingTime + sessionDuration]
    is [targetDuration]. *)
Theorem countdown_invariant (e : Env) (script : list (Z * Command)) :
  ownTimers e ->
  durationsAtLeast 1 script ->
  let h := hook (run script (mount e)) in
  0 <= remainingTime h <= targetDuration h /\
  (sessionActive h = true ->
   1 <= remainingTime h /\
   remainingTime h + sessionDuration h = targetDuration h).
Proof.
  intros Ho Hd.
  assert (G : forall w, ownTimers (env w) -> countingDown (hook w) ->
                        durationsAtLeast 1 script ->
                        countingDown (hook (run script w))).
  { clear. induction script as [| [t c] rest IH]; intros w Ho H Hd; [ exact H | ].
    change (run ((t, c) :: rest) w) with (run rest (handle c (at_time t w))).
    apply IH.
    - now apply ownTimers_handle.
    - apply countingDown_handle; try assumption.
      intros cfg ->. apply Hd.
    - destruct c; simpl in Hd; tauto. }
  apply G; try assumption.
  unfold countingDown. simpl. split; [ lia | discriminate ].
Qed.

Lemma countdown_invariant_witness :
  let script := [ (1700000000000, Start (mkConfig shortSprint 900 "Short Sprint"));
                  (1700000001000, Fire 1%nat);
                  (1700000001500, Update (mkDetection true 0.8));
                  (1700000002000, Fire 1%nat) ] in
  let h := hook (run script (mount (fresh 1700000000000 true))) in
  remainingTime h + sessionDuration h = targetDuration h.
Proof.
  intros script h.
  destruct (countdown_invariant (fresh 1700000000000 true) script) as [_ H].
  - constructor.
  - simpl. lia.
  - apply H. reflexivity.
Defined.

End CountdownInvariant.

Section Bridge.
Import Tracker Session.

Lemma sameButBridge_release (r : option nat) (e1 e2 : Env) :
  clock e1 = clock e2 -> live e1 = live e2 -> nextTimer e1 = nextTimer e2 ->
  fst (release r e1) = fst (release r e2) /\
  clock (snd (release r e1)) = clock (snd (release r e2)) /\
  live (snd (release r e1)) = live (snd (release r e2)) /\
  nextTimer (snd (release r e1)) = nextTimer (snd (release r e2)).
Proof.
  intros Hc Hl Hn. unfold release. destruct r as [[| n]|]; simpl;
    rewrite ?Hc, ?Hl, ?Hn; repeat split; assumption.
Qed.

Lemma sameButBridge_stopSession (w1 w2 : World) :
  sameButBridge w1 w2 ->
  sameButBridge (fst (stopSession w1)) (fst (stopSession w2)).
Proof.
  intros (Hh & Hc & Hl & Hn). unfold stopSession. rewrite Hh.
  destruct (sameButBridge_release (intervalRef (hook w2)) (env w1) (env w2) Hc Hl Hn)
    as (Hi & Hc1 & Hl1 & Hn1).
  destruct (release (intervalRef (hook w2)) (env w1)) as [i1 a1].
  destruct (release (intervalRef (hook w2)) (env w2)) as [i2 a2].
  simpl in Hi, Hc1, Hl1, Hn1. subst i2.
  destruct (sameButBridge_release (waterIntervalRef (hook w2)) a1 a2 Hc1 Hl1 Hn1)
    as (Hv & Hc2 & Hl2 & Hn2).
  destruct (release (waterIntervalRef (hook w2)) a1) as [v1 b1].
  destruct (release (waterIntervalRef (hook w2)) a2) as [v2 b2].
  simpl in *. subst v2. unfold sameButBridge. simpl. repeat split; assumption.
Qed.

Lemma sameButBridge_notify (n : Notice) (w1 w2 : World) :
  sameButBridge w1 w2 ->
  sameButBridge (mkWorld (notify n (env w1)) (hook w1))
                (mkWorld (notify n (env w2)) (hook w2)).
Proof.
  intros (Hh & Hc & Hl & Hn). unfold sameButBridge, notify. simpl.
  destruct (notifyExposed (env w1)); destruct (notifyExposed (env w2));
    simpl; repeat split; assumption.
Qed.

Lemma sameButBridge_updateFocusState (d : DetectionResults) (w1 w2 : World) :
  sameButBridge w1 w2 ->
  sameButBridge (updateFocusState d w1) (updateFocusState d w2).
Proof.
  intros H. assert (H' := H). destruct H' as (Hh & Hc & Hl & Hn).
  unfold_update. rewrite Hh. unfold dateNow. rewrite Hc.
  destruct (negb (sessionActive (hook w2))
            || negb (truthy (lastUpdateTimeRef (hook w2)))); [ exact H | ].
  destruct (classify d);
    try (unfold sameButBridge; simpl; repeat split; assumption).
  destruct (negb (truthy (awayStartTime (hook w2))));
    [ unfold sameButBridge; simpl; repeat split; assumption | ].
  destruct (Qle_bool 10 _ && negb _);
    [ | unfold sameButBridge; simpl; repeat split; assumption ].
  unfold sameButBridge, notify. simpl.
  destruct (notifyExposed (env w1)); destruct (notifyExposed (env w2));
    simpl; repeat split; assumption.
Qed.

Lemma sameButBridge_handle (c : Command) (w1 w2 : World) :
  sameButBridge w1 w2 -> sameButBridge (handle c w1) (handle c w2).
Proof.
  intros H. assert (H' := H). destruct H' as (Hh & Hc & Hl & Hn).
  destruct c as [cfg | | d | id]; unfold handle.
  - unfold sameButBridge. simpl. unfold dateNow. rewrite ?Hc, ?Hl, ?Hn. repeat split.
  - now apply sameButBridge_stopSession.
  - now apply sameButBridge_updateFocusState.
  - unfold fire, findTimer. rewrite Hl.
    destruct (find _ (live (env w2))) as [t|]; [ | exact H ].
    destruct (timerCallback t).
    + unfold sameButBridge. simpl. rewrite Hh. repeat split; assumption.
    + unfold countdownTick. rewrite Hh.
      destruct (remainingTime (hook w2) <=? 1).
      * unfold handleSessionComplete.
        assert (S := sameButBridge_stopSession _ _
                       (sameButBridge_notify SessionComplete w1 w2 H)).
        destruct S as (Sh & Sc & Sl & Sn).
        unfold sameButBridge, setSessionDuration, setRemainingTime.
        cbn [hook env]. rewrite Sh. repeat split; assumption.
      * unfold sameButBridge. simpl. rewrite Hh. repeat split; assumption.
    + now apply sameButBridge_notify.
Qed.

Lemma silent_release (r : option nat) (e : Env) :
  notifyExposed (snd (release r e)) = notifyExposed e /\
  filter isNotified (trace (snd (release r e))) = filter isNotified (trace e).
Proof.
  unfold release. destruct r as [[| n]|]; simpl; split; try reflexivity.
  rewrite filter_app. simpl. apply app_nil_r.
Qed.

Lemma silent_stopSession (w : World) :
  notifyExposed (env (fst (stopSession w))) = notifyExposed (env w) /\
  filter isNotified (trace (env (fst (stopSession w))))
    = filter isNotified (trace (env w)).
Proof.
  unfold stopSession.
  destruct (silent_release (intervalRef (hook w)) (env w)) as [B1 T1].
  destruct (release (intervalRef (hook w)) (env w)) as [i e1]. simpl in B1, T1.
  destruct (silent_release (waterIntervalRef (hook w)) e1) as [B2 T2].
  destruct (release (waterIntervalRef (hook w)) e1) as [v e2]. simpl in *.
  split; congruence.
Qed.

Lemma silent_notify (n : Notice) (e : Env) :
  notifyExposed e = false -> notify n e = e.
Proof. intros H. unfold notify. now rewrite H. Qed.

Lemma silent_handle (c : Command) (w : World) :
  notifyExposed (env w) = false ->
  notifyExposed (env (handle c w)) = false /\
  filter isNotified (trace (env (handle c w)))
    = filter isNotified (trace (env w)).
Proof.
  intros H. destruct c as [cfg | | d | id]; unfold handle.
  - simpl. split; [ exact H | ].
    rewrite !filter_app. simpl. now rewrite !app_nil_r.
  - destruct (silent_stopSession w) as [B T]. split; congruence.
  - unfold_update.
    destruct (negb _ || negb _); [ now split | ].
    destruct (classify d); try (now split).
    destruct (negb (truthy (awayStartTime (hook w)))); [ now split | ].
    destruct (Qle_bool 10 _ && negb _); [ | now split ].
    simpl. rewrite (silent_notify ComeBack (env w) H). now split.
  - unfold fire. destruct (findTimer id (env w)) as [t|]; [ | now split ].
    destruct (timerCallback t).
    + now split.
    + unfold countdownTick.
      destruct (remainingTime (hook w) <=? 1); [ | now split ].
      unfold handleSessionComplete. rewrite (silent_notify _ _ H).
      destruct (silent_stopSession (mkWorld (env w) (hook w))) as [B T].
      simpl in *. split; congruence.
    + unfold waterReminder. rewrite (silent_notify _ _ H). now split.
Qed.

(** Notifications do not steer the hook.  Run the same script on a page
    with the notification bridge and on the same page without it: the
    hook state and the armed intervals are the same at the end, and
    without the bridge no notification at all is added to the trace. *)
Theorem bridge_does_not_steer (e : Env) (script : list (Z * Command)) :
  let w := run script (mount e) in
  let w' := run script (mount (withoutBridge e)) in
  hook w = hook w' /\
  live (env w) = live (env w') /\
  filter isNotified (trace (env w')) = filter isNotified (trace e).
Proof.
  assert (G : forall w1 w2, sameButBridge w1 w2 ->
                            sameButBridge (run script w1) (run script w2)).
  { induction script as [| [t c] rest IH]; intros w1 w2 H; [ exact H | ].
    change (run ((t, c) :: rest) w1) with (run rest (handle c (at_time t w1))).
    change (run ((t, c) :: rest) w2) with (run rest (handle c (at_time t w2))).
    apply IH, sameButBridge_handle.
    destruct H as (Hh & Hc & Hl & Hn). unfold sameButBridge. simpl.
    repeat split; assumption. }
  assert (S : forall w, notifyExposed (env w) = false ->
                        filter isNotified (trace (env (run script w)))
                        = filter isNotified (trace (env w))).
  { clear G. induction script as [| [t c] rest IH]; intros w H; [ reflexivity | ].
    change (run ((t, c) :: rest) w) with (run rest (handle c (at_time t w))).
    destruct (silent_handle c (at_time t w) H) as [B T].
    rewrite (IH _ B), T. reflexivity. }
  intros w w'.
  destruct (G (mount e) (mount (withoutBridge e))) as (Hh & _ & Hl & _).
  { unfold sameButBridge. simpl. repeat split. }
  split; [ exact Hh | split; [ exact Hl | ] ].
  apply (S (mount (withoutBridge e))). reflexivity.
Qed.

End Bridge.

Section Buckets.
Import Tracker Session.

Lemma Qle_add_nonneg (a b : Q) : (0 <= b)%Q -> (a <= a + b)%Q.
Proof.
  intros H. setoid_replace a with (a + 0)%Q at 1 by ring.
  apply Qplus_le_compat; [ apply Qle_refl | exact H ].
Qed.

Lemma Qle_nonneg_add (a b : Q) : (0 <= a)%Q -> (0 <= b)%Q -> (0 <= a + b)%Q.
Proof.
  intros Ha Hb. apply Qle_trans with (0 + 0)%Q; [ discriminate | ].
  now apply Qplus_le_compat.
Qed.

(** What an update does to the buckets when the clock has not gone back. *)
Lemma buckets_updateFocusState (d : DetectionResults) (w : World) :
  soundBuckets w ->
  soundBuckets (updateFocusState d w) /\ bucketsGrow w (updateFocusState d w).
Proof.
  intros H.
  assert (Ec := clock_handle (Update d) w). simpl in Ec. revert Ec.
  unfold_update.
  destruct (negb (sessionActive (hook w))
            || negb (truthy (lastUpdateTimeRef (hook w)))) eqn:G.
  - intros _. split; [ exact H | ]. repeat split; apply Qle_refl.
  - apply orb_false_elim in G. destruct G as [_ G].
    apply negb_false_iff, truthy_some in G. destruct G as (l & El & _).
    destruct H as (Hf & Hd & Ha & Hl). rewrite El in Hl.
    set (guard := match classify d with away => _ | _ => _ end).
    destruct guard as [[a s] e]. simpl. intros Ec.
    assert (Hdelta : (0 <= seconds (dateNow (env w) - toNumber (lastUpdateTimeRef (hook w))))%Q).
    { rewrite El. simpl. apply seconds_nonneg. unfold dateNow. lia. }
    unfold soundBuckets, bucketsGrow. simpl. rewrite Ec.
    destruct (currentStateRef (hook w)); repeat split;
      try assumption; try apply Qle_refl;
      try (now apply Qle_nonneg_add); try (now apply Qle_add_nonneg);
      unfold dateNow; lia.
Qed.

Lemma buckets_stopSession (w : World) :
  soundBuckets w ->
  soundBuckets (fst (stopSession w)) /\ bucketsGrow w (fst (stopSession w)).
Proof.
  intros (Hf & Hd & Ha & Hl).
  destruct (hook_stopSession w) as (_ & _ & Ef & Ed & Ea & El & _).
  destruct (env_stopSession w) as (Ec & _).
  unfold soundBuckets, bucketsGrow. rewrite Ef, Ed, Ea, El, Ec.
  repeat split; try assumption; apply Qle_refl.
Qed.

Lemma buckets_fire (id : nat) (w : World) :
  soundBuckets w -> soundBuckets (fire id w) /\ bucketsGrow w (fire id w).
Proof.
  intros H.
  assert (R : bucketsGrow w w) by (repeat split; apply Qle_refl).
  unfold fire. destruct (findTimer id (env w)) as [t|]; [ | now split ].
  destruct (timerCallback t).
  - now split.
  - unfold countdownTick.
    destruct (remainingTime (hook w) <=? 1); [ | now split ].
    unfold handleSessionComplete.
    assert (S : soundBuckets (mkWorld (notify SessionComplete (env w)) (hook w))).
    { destruct H as (Hf & Hd & Ha & Hl). unfold soundBuckets. simpl.
      repeat split; try assumption.
      unfold notify. now destruct (notifyExposed (env w)). }
    apply buckets_stopSession in S. destruct S as [S G].
    split; [ exact S | exact G ].
  - split; [ | exact R ].
    destruct H as (Hf & Hd & Ha & Hl). unfold soundBuckets. simpl.
    repeat split; try assumption.
    unfold notify. now destruct (notifyExposed (env w)).
Qed.

Lemma soundBuckets_handle (c : Command) (w : World) :
  soundBuckets w -> soundBuckets (handle c w).
Proof.
  intros H. destruct c as [cfg | | d | id]; unfold handle.
  - unfold soundBuckets. simpl. unfold dateNow.
    repeat split; try discriminate. lia.
  - now apply buckets_stopSession.
  - now apply buckets_updateFocusState.
  - now apply buckets_fire.
Qed.

Lemma soundBuckets_at_time (t : Z) (w : World) :
  soundBuckets w -> clock (env w) <= t -> soundBuckets (at_time t w).
Proof.
  intros (Hf & Hd & Ha & Hl) Ht. unfold soundBuckets. simpl.
  repeat split; try assumption.
  destruct (lastUpdateTimeRef (hook w)); [ lia | exact I ].
Qed.

Lemma soundBuckets_run (script : list (Z * Command)) :
  forall w : World,
    soundBuckets w -> ordered (clock (env w)) script ->
    soundBuckets (run script w).
Proof.
  induction script as [| [t c] rest IH]; intros w H Ho; [ exact H | ].
  destruct Ho as [Ht Ho].
  change (run ((t, c) :: rest) w) with (run rest (handle c (at_time t w))).
  apply IH.
  - now apply soundBuckets_handle, soundBuckets_at_time.
  - now rewrite clock_handle.
Qed.

Lemma bucketsGrow_trans (a b c : World) :
  bucketsGrow a b -> bucketsGrow b c -> bucketsGrow a c.
Proof.
  intros (F1 & D1 & A1) (F2 & D2 & A2).
  repeat split; eapply Qle_trans; eassumption.
Qed.

Lemma bucketsGrow_run (script : list (Z * Command)) :
  forall w : World,
    soundBuckets w -> ordered (clock (env w)) script -> withoutStart script ->
    bucketsGrow w (run script w).
Proof.
  induction script as [| [t c] rest IH]; intros w H Ho Hs.
  - repeat split; apply Qle_refl.
  - destruct Ho as [Ht Ho].
    change (run ((t, c) :: rest) w) with (run rest (handle c (at_time t w))).
    assert (S := soundBuckets_at_time t w H Ht).
    apply bucketsGrow_trans with (handle c (at_time t w)).
    + destruct c as [cfg | | d | id]; unfold handle.
      * destruct Hs.
      * apply (buckets_stopSession (at_time t w) S).
      * apply (buckets_updateFocusState d (at_time t w) S).
      * apply (buckets_fire id (at_time t w) S).
    + apply IH.
      * now apply soundBuckets_handle.
      * now rewrite clock_handle.
      * destruct c; simpl in Hs; tauto.
Qed.

Lemma clock_run (script : list (Z * Command)) :
  forall w : World,
    clock (env (run script w)) = last (map fst script) (clock (env w)).
Proof.
  induction script as [| [t c] rest IH]; intros w; [ reflexivity | ].
  change (run ((t, c) :: rest) w) with (run rest (handle c (at_time t w))).
  rewrite IH, clock_handle. simpl.
  destruct rest as [| [u c'] r]; [ reflexivity | ].
  simpl. apply last_default.
Qed.

Lemma ordered_app (a b : list (Z * Command)) :
  forall from : Z,
    ordered from (a ++ b) ->
    ordered from a /\ ordered (last (map fst a) from) b.
Proof.
  induction a as [| [t c] a IH]; intros from H; [ now split | ].
  destruct H as [Ht H]. destruct (IH t H) as [Ha Hb].
  split; [ now split | ].
  change (map fst ((t, c) :: a)) with (t :: map fst a).
  now rewrite last_cons.
Qed.

(** The buckets only fill.  With a clock that never goes back, the three
    buckets are never negative in a state reached from the first render,
    and from there on, as long as no new session is started, none of
    them ever decreases, whatever updates, stops and timer firings
    follow. *)
Theorem buckets_only_fill (e : Env) (before after : list (Z * Command)) :
  ordered (clock e) (before ++ after) ->
  withoutStart after ->
  let w := run before (mount e) in
  let w' := run after w in
  ((0 <= focusedTime (hook w))%Q /\
   (0 <= distractedTime (hook w))%Q /\
   (0 <= awayTime (hook w))%Q) /\
  ((focusedTime (hook w) <= focusedTime (hook w'))%Q /\
   (distractedTime (hook w) <= distractedTime (hook w'))%Q /\
   (awayTime (hook w) <= awayTime (hook w'))%Q).
Proof.
  intros Ho Hs w w'.
  apply ordered_app in Ho. destruct Ho as [Hb Ha].
  assert (S : soundBuckets w).
  { apply soundBuckets_run; [ | exact Hb ].
    unfold soundBuckets. simpl. repeat split; discriminate. }
  split.
  - destruct S as (Hf & Hd & Haw & _). repeat split; assumption.
  - apply (bucketsGrow_run after w S); [ | exact Hs ].
    unfold w. rewrite clock_run. exact Ha.
Qed.

Lemma buckets_only_fill_witness :
  let t0 := 1700000000000 in
  let before := (t0, Start (mkConfig pomodoro 1500 "Pomodoro"))
                :: detections t0 (mkDetection true 0.9) (seq 1 5) in
  let after := detections t0 (mkDetection true 0.3) (seq 6 5)
               ++ [ (t0 + 1100, Stop) ] in
  let w := run before (mount (fresh t0 true)) in
  (focusedTime (hook w) <= focusedTime (hook (run after w)))%Q.
Proof.
  intros t0 before after w.
  destruct (buckets_only_fill (fresh t0 true) before after) as [_ [H _]].
  - simpl. repeat split; lia.
  - simpl. repeat split.
  - exact H.
Defined.

End Buckets.

(** * The application around the hook *)

Section Application.
Import Tracker ModalButtons App.

Lemma counts_release (n : Notice) (r : option nat) (e : Env) :
  notices n (snd (release r e)) = notices n e /\
  sessionsStarted (snd (release r e)) = sessionsStarted e /\
  nextTimer (snd (release r e)) = nextTimer e.
Proof.
  unfold release, notices, sessionsStarted.
  destruct r as [[| k]|]; simpl; repeat split; try reflexivity;
    rewrite filter_app; simpl; try (destruct n; simpl); now rewrite app_nil_r.
Qed.

Lemma counts_stopSession (n : Notice) (w : World) :
  notices n (env (fst (stopSession w))) = notices n (env w) /\
  sessionsStarted (env (fst (stopSession w))) = sessionsStarted (env w) /\
  nextTimer (env (fst (stopSession w))) = nextTimer (env w).
Proof.
  unfold stopSession.
  destruct (counts_release n (intervalRef (hook w)) (env w)) as (N1 & S1 & X1).
  destruct (release (intervalRef (hook w)) (env w)) as [i e1]. simpl in N1, S1, X1.
  destruct (counts_release n (waterIntervalRef (hook w)) e1) as (N2 & S2 & X2).
  destruct (release (waterIntervalRef (hook w)) e1) as [v e2]. simpl in *.
  repeat split; congruence.
Qed.

Lemma counts_notify (n : Notice) (e : Env) :
  (notices SessionComplete e <= notices SessionComplete (notify n e)
   <= notices SessionComplete e + 1)%nat /\
  (n <> SessionComplete ->
   notices SessionComplete (notify n e) = notices SessionComplete e) /\
  sessionsStarted (notify n e) = sessionsStarted e /\
  nextTimer (notify n e) = nextTimer e /\
  live (notify n e) = live e.
Proof.
  unfold notify, notices, sessionsStarted.
  destruct (notifyExposed e); simpl.
  - rewrite !filter_app, !length_app. simpl.
    destruct n; simpl; repeat split; try lia; congruence.
  - repeat split; lia.
Qed.

(** What an update leaves alone, whichever render its function is from. *)
Lemma updateFocusStateOf_keeps (r : Render) (d : DetectionResults) (w : World) :
  let w' := updateFocusStateOf r d w in
  sessionActive (hook w') = sessionActive (hook w) /\
  intervalRef (hook w') = intervalRef (hook w) /\
  waterIntervalRef (hook w') = waterIntervalRef (hook w) /\
  live (env w') = live (env w) /\
  nextTimer (env w') = nextTimer (env w) /\
  notices SessionComplete (env w') = notices SessionComplete (env w) /\
  sessionsStarted (env w') = sessionsStarted (env w).
Proof.
  unfold updateFocusStateOf.
  destruct (negb (seenActive r)
            || negb (truthy (lastUpdateTimeRef (hook w)))); [ now repeat split | ].
  destruct (classify d); try (now repeat split).
  destruct (negb (truthy (seenAwayStartTime r))); [ now repeat split | ].
  destruct (Qle_bool 10 _ && negb _); [ | now repeat split ].
  destruct (counts_notify ComeBack (env w)) as (_ & N & S & X & L).
  cbv zeta. cbn [hook env sessionActive intervalRef waterIntervalRef].
  repeat split; try assumption. apply N. discriminate.
Qed.

Lemma updateFocusState_keeps (d : DetectionResults) (w : World) :
  let w' := updateFocusState d w in
  sessionActive (hook w') = sessionActive (hook w) /\
  intervalRef (hook w') = intervalRef (hook w) /\
  waterIntervalRef (hook w') = waterIntervalRef (hook w) /\
  live (env w') = live (env w) /\
  nextTimer (env w') = nextTimer (env w) /\
  notices SessionComplete (env w') = notices SessionComplete (env w) /\
  sessionsStarted (env w') = sessionsStarted (env w).
Proof. exact (updateFocusStateOf_keeps (render (hook w)) d w). Qed.

(** The countdown is out of an update's reach. *)
Lemma updateFocusStateOf_countdown (r : Render) (d : DetectionResults) (w : World) :
  let w' := updateFocusStateOf r d w in
  remainingTime (hook w') = remainingTime (hook w) /\
  targetDuration (hook w') = targetDuration (hook w) /\
  sessionDuration (hook w') = sessionDuration (hook w).
Proof.
  unfold updateFocusStateOf.
  destruct (negb (seenActive r)
            || negb (truthy (lastUpdateTimeRef (hook w)))); [ now repeat split | ].
  set (guard := match classify d with away => _ | _ => _ end).
  destruct guard as [[a s] e]. now repeat split.
Qed.

Lemma clear_both (i : nat) :
  filter (fun t => negb (Nat.eqb (timerId t) (S i)))
    (filter (fun t => negb (Nat.eqb (timerId t) i))
       [ mkTimer i CountdownTick 1000;
         mkTimer (S i) WaterReminder (30 * 60 * 1000) ]) = [].
Proof.
  cbn [filter timerId]. rewrite Nat.eqb_refl. cbn [negb].
  replace (Nat.eqb (S i) i) with false
    by (symmetry; apply Nat.eqb_neq; lia).
  cbn [negb filter timerId]. now rewrite Nat.eqb_refl.
Qed.

(** Stopping the one session under way clears its two intervals. *)
Lemma stopSession_clears (w : World) (i : nat) :
  (1 <= i)%nat ->
  intervalRef (hook w) = Some i ->
  waterIntervalRef (hook w) = Some (S i) ->
  live (env w) = [ mkTimer i CountdownTick 1000;
                   mkTimer (S i) WaterReminder (30 * 60 * 1000) ] ->
  live (env (fst (stopSession w))) = [].
Proof.
  intros Hi Ei Ev El. unfold stopSession, release. rewrite Ei, Ev.
  destruct i as [| k]; [ lia | ].
  change (truthyId (Some (S k))) with true.
  change (truthyId (Some (S (S k)))) with true.
  unfold clearInterval, emit. cbn [fst snd env live]. rewrite El.
  apply clear_both.
Qed.

Lemma tidy_at_time (t : Z) (s : State) : tidy s -> tidy (at_time t s).
Proof. intros H. exact H. Qed.

Lemma tidy_stop (s : State) :
  tidy s ->
  sessionActive (hook (tracking s)) = true ->
  tidy (mkApp (fst (stopSession (tracking s))) (showSessionModal s) (modal s)
              (detectionLoop s)).
Proof.
  intros (Hn & Hm & Hl & Hc) A. rewrite A in Hl, Hc.
  destruct Hl as (i & Hi & Ei & Ev & El).
  destruct (counts_stopSession SessionComplete (tracking s)) as (N & S & X).
  destruct (hook_stopSession (tracking s)) as (_ & _ & _ & _ & _ & _ & _ & _ & Ha & _).
  unfold tidy. cbn [tracking showSessionModal]. rewrite Ha, N, S, X.
  repeat split; try assumption.
  - now apply (stopSession_clears (tracking s) i).
  - lia.
Qed.

Lemma tidy_start (cfg : SessionConfig) (s : State) :
  tidy s ->
  sessionActive (hook (tracking s)) = false ->
  tidy (handleSessionTypeSelected cfg s).
Proof.
  intros (Hn & Hm & Hl & Hc) A. rewrite A in Hl, Hc.
  unfold tidy, handleSessionTypeSelected. cbn [tracking showSessionModal].
  unfold startSession, setInterval, emit, notices, sessionsStarted in *.
  simpl. rewrite Hl. simpl. repeat split.
  - lia.
  - discriminate.
  - exists (nextTimer (env (tracking s))). repeat split. exact Hn.
  - rewrite !filter_app, !length_app. simpl. lia.
Qed.

Lemma tidy_tick (s : State) (i : nat) :
  tidy s ->
  sessionActive (hook (tracking s)) = true ->
  tidy (mkApp (countdownTick (tracking s)) (showSessionModal s) (modal s)
              (detectionLoop s)).
Proof.
  intros T A. unfold countdownTick.
  destruct (remainingTime (hook (tracking s)) <=? 1).
  - unfold handleSessionComplete.
    destruct T as (Hn & Hm & Hl & Hc). rewrite A in Hl, Hc.
    destruct Hl as (k & Hk & Ei & Ev & El).
    set (w1 := mkWorld (notify SessionComplete (env (tracking s))) (hook (tracking s))).
    destruct (counts_notify SessionComplete (env (tracking s)))
      as (N1 & _ & S1 & X1 & L1).
    destruct (counts_stopSession SessionComplete w1) as (N & S & X).
    destruct (hook_stopSession w1) as (_ & _ & _ & _ & _ & _ & _ & _ & Ha & _).
    assert (C : live (env (fst (stopSession w1))) = []).
    { apply (stopSession_clears w1 k); try assumption.
      unfold w1. simpl. now rewrite L1. }
    unfold tidy, setSessionDuration, setRemainingTime.
    cbn [tracking showSessionModal hook env sessionActive].
    rewrite Ha, N, S, X, C. unfold w1. cbn [env].
    rewrite S1, X1. repeat split; try assumption. lia.
  - destruct T as (Hn & Hm & Hl & Hc).
    unfold tidy, setSessionDuration, setRemainingTime.
    cbn [tracking showSessionModal hook env sessionActive
         intervalRef waterIntervalRef].
    repeat split; assumption.
Qed.

Lemma tidy_step (ev : Event) (s : State) : tidy s -> tidy (step ev s).
Proof.
  intros T. destruct ev as [| i | | | d | id]; unfold step.
  - unfold handleStartSession.
    destruct (sessionActive (hook (tracking s))) eqn:A; simpl.
    + now apply tidy_stop.
    + destruct T as (Hn & Hm & Hl & Hc).
      unfold tidy. cbn [tracking showSessionModal]. rewrite A in *.
      repeat split; assumption.
  - destruct (showSessionModal s) eqn:M; [ | exact T ].
    assert (A : sessionActive (hook (tracking s)) = false)
      by (destruct T as (_ & Hm & _); now apply Hm).
    destruct (input i (modal s)) as [m' [cfg | |]].
    + now apply tidy_start.
    + destruct T as (Hn & Hm & Hl & Hc).
      unfold tidy, onCancel. cbn [tracking showSessionModal].
      repeat split; try assumption. discriminate.
    + destruct T as (Hn & Hm & Hl & Hc).
      unfold tidy. cbn [tracking showSessionModal].
      repeat split; try assumption. intros _. exact A.
  - unfold startCamera. destruct (detectionLoop s); exact T.
  - exact T.
  - destruct (detectionLoop s) as [r|]; [ | exact T ].
    unfold handleDetectionUpdate.
    destruct (seenActive r); [ | exact T ].
    destruct (updateFocusStateOf_keeps r d (tracking s))
      as (Ka & Ki & Kv & Kl & Kn & Kc & Ks).
    destruct T as (Hn & Hm & Hl & Hc).
    unfold tidy. cbn [tracking showSessionModal].
    rewrite Ka, Ki, Kv, Kl, Kn, Kc, Ks. repeat split; assumption.
  - unfold fire.
    destruct (findTimer id (env (tracking s))) as [tm|] eqn:F.
    2:{ destruct s; exact T. }
    assert (A : sessionActive (hook (tracking s)) = true).
    { destruct T as (_ & _ & Hl & _).
      destruct (sessionActive (hook (tracking s))); [ reflexivity | ].
      unfold findTimer in F. rewrite Hl in F. discriminate. }
    assert (K : timerCallback tm <> ElapsedTick).
    { destruct T as (_ & _ & Hl & _). rewrite A in Hl.
      destruct Hl as (k & _ & _ & _ & El).
      apply find_some in F. destruct F as [Hin _]. rewrite El in Hin.
      destruct Hin as [<- | [<- | []]]; discriminate. }
    destruct (timerCallback tm); [ congruence | | ].
    + now apply (tidy_tick s id).
    + destruct (counts_notify StayHydrated (env (tracking s)))
        as (_ & N & S & X & L).
      destruct T as (Hn & Hm & Hl & Hc).
      unfold tidy, waterReminder. cbn [tracking showSessionModal hook env].
      rewrite (N ltac:(discriminate)), S, X, L. repeat split; assumption.
Qed.

Lemma tidy_run (script : list (Z * Event)) :
  forall s : State, tidy s -> tidy (run script s).
Proof.
  induction script as [| [t ev] rest IH]; intros s T; [ exact T | ].
  change (run ((t, ev) :: rest) s) with (run rest (step ev (at_time t s))).
  apply IH, tidy_step, tidy_at_time, T.
Qed.

Lemma tidy_loaded (t0 : Z) (bridge : bool) : tidy (loaded (fresh t0 bridge)).
Proof.
  unfold tidy. simpl. repeat split; try discriminate; lia.
Qed.

End Application.

Section ApplicationRuns.
Import Tracker Session ModalButtons App AppFacts.

(** Whatever is done on the modal, [onSelect] only ever receives a
    duration that is a whole number of minutes, from 1 to 180, in
    seconds: the three presets and every accepted custom input. *)
Theorem modal_selects_whole_minutes
    (i : Input) (m m' : SessionTypeModal.Modal) (cfg : SessionConfig) :
  input i m = (m', Selected cfg) ->
  60 <= configDuration cfg <= 10800 /\ configDuration cfg mod 60 = 0.
Proof.
  unfold input.
  destruct i; destruct (SessionTypeModal.showCustomInput m); try discriminate;
    try (intros [= _ <-]; split; [ simpl; lia | reflexivity ]).
  unfold SessionTypeModal.handleCustomSubmit.
  destruct (SessionTypeModal.parseInt (SessionTypeModal.customDuration m))
    as [minutes|]; [ | discriminate ].
  destruct (minutes <? 1) eqn:E1; [ discriminate | ].
  destruct (180 <? minutes) eqn:E2; [ discriminate | ].
  apply Z.ltb_ge in E1, E2. intros [= _ <-]. simpl.
  split; [ lia | apply Z_mod_mult ].
Qed.

Lemma modal_selects_whole_minutes_witness :
  60 <= 45 * 60 <= 10800 /\ (45 * 60) mod 60 = 0.
Proof.
  apply (modal_selects_whole_minutes StartCustomButton
           (SessionTypeModal.typed "45") (SessionTypeModal.typed "45")
           (mkConfig custom (45 * 60) "45 Minute Session")).
  reflexivity.
Defined.

(** In the application sessions never overlap.  Whatever the user, the
    camera and the timers do from the page load on: the modal is only
    shown while no session is active; while a session is active exactly
    its two intervals are armed, the ones the refs hold; while none is
    active no interval is armed at all. *)
Theorem app_timers_never_stack
    (t0 : Z) (bridge : bool) (script : list (Z * Event)) :
  let s := run script (loaded (fresh t0 bridge)) in
  let w := tracking s in
  (showSessionModal s = true -> sessionActive (hook w) = false) /\
  (if sessionActive (hook w)
   then exists i : nat,
          intervalRef (hook w) = Some i /\
          waterIntervalRef (hook w) = Some (S i) /\
          live (env w) = [ mkTimer i CountdownTick 1000;
                           mkTimer (S i) WaterReminder (30 * 60 * 1000) ]
   else live (env w) = []).
Proof.
  intros s w.
  destruct (tidy_run script _ (tidy_loaded t0 bridge)) as (_ & Hm & Hl & _).
  fold s in Hm, Hl. fold w in Hm, Hl.
  split; [ exact Hm | ].
  destruct (sessionActive (hook w)); [ | exact Hl ].
  destruct Hl as (i & _ & Ei & Ev & El). now exists i.
Qed.

(** In the application a session completes at most once: at any moment
    the completion notices sent so far, plus one if a session is under
    way, do not exceed the number of sessions started. *)
Theorem app_one_completion_per_session
    (t0 : Z) (bridge : bool) (script : list (Z * Event)) :
  let w := tracking (run script (loaded (fresh t0 bridge))) in
  (notices SessionComplete (env w)
   + (if sessionActive (hook w) then 1 else 0)
   <= sessionsStarted (env w))%nat.
Proof.
  intros w.
  destruct (tidy_run script _ (tidy_loaded t0 bridge)) as (_ & _ & _ & Hc).
  exact Hc.
Qed.

Lemma quiet_step (ev : Event) (t : Z) (s : State) :
  tidy s ->
  sessionActive (hook (tracking s)) = false ->
  deaf s = true ->
  passive ev = true ->
  step ev (at_time t s) = at_time t s.
Proof.
  intros (_ & _ & Hl & _) A D P. rewrite A in Hl.
  destruct ev as [| i | | | d | id]; try discriminate; unfold step.
  - unfold deaf in D. cbn [detectionLoop at_time].
    destruct (detectionLoop s) as [r|]; [ | reflexivity ].
    unfold handleDetectionUpdate. apply negb_true_iff in D. now rewrite D.
  - unfold fire, findTimer. cbn [tracking at_time Tracker.at_time env live setClock].
    rewrite Hl. reflexivity.
Qed.

(** In the application nothing happens to a session that is over, as
    long as the camera does not still run the handler of an active
    session.  Once no session is active and the camera is off, or was
    started while no session was active, detections and timer firings
    change neither the hook state nor the trace (no bucket moves, no
    notification is sent) until the user acts again. *)
Theorem app_quiet_when_inactive
    (t0 : Z) (bridge : bool) (script later : list (Z * Event)) :
  let s := run script (loaded (fresh t0 bridge)) in
  sessionActive (hook (tracking s)) = false ->
  deaf s = true ->
  forallb (fun x => passive (snd x)) later = true ->
  hook (tracking (run later s)) = hook (tracking s) /\
  trace (env (tracking (run later s))) = trace (env (tracking s)) /\
  showSessionModal (run later s) = showSessionModal s.
Proof.
  intros s A D P.
  assert (T : tidy s) by apply (tidy_run script _ (tidy_loaded t0 bridge)).
  clearbody s. revert s A D T.
  induction later as [| [t ev] rest IH]; intros s A D T; [ now repeat split | ].
  simpl in P. apply andb_prop in P. destruct P as [Pev P].
  change (run ((t, ev) :: rest) s) with (run rest (step ev (at_time t s))).
  rewrite (quiet_step ev t s T A D Pev).
  apply (IH P (at_time t s)); [ exact A | exact D | exact T ].
Qed.

(** The camera is started before the session and runs on after the
    session was stopped. *)
Lemma app_quiet_when_inactive_witness :
  let t0 := 1700000000000 in
  let script := [ (t0, StartCamera);
                  (t0 + 100, SessionButton); (t0 + 500, OnModal PomodoroButton);
                  (t0 + 1000, TimerFires 1%nat); (t0 + 1500, SessionButton) ] in
  let later := [ (t0 + 2000, TimerFires 1%nat);
                 (t0 + 2100, Detection (mkDetection true 0.9));
                 (t0 + 1800000, TimerFires 2%nat) ] in
  let s := run script (loaded (fresh t0 true)) in
  trace (env (tracking (run later s))) = trace (env (tracking s)).
Proof.
  intros t0 script later s.
  apply (app_quiet_when_inactive t0 true script later); reflexivity.
Defined.

Lemma targetDuration_stopSession (w : World) :
  targetDuration (hook (fst (stopSession w))) = targetDuration (hook w).
Proof.
  unfold stopSession.
  destruct (release (intervalRef (hook w)) (env w)) as [i e1].
  destruct (release (waterIntervalRef (hook w)) e1) as [v e2]. reflexivity.
Qed.

Lemma chosen_stopSession (w : World) :
  chosenCountdown (hook w) -> chosenCountdown (hook (fst (stopSession w))).
Proof.
  intros [C _]. split; [ now apply countingDown_stopSession | ].
  destruct (hook_stopSession w) as (_ & _ & _ & _ & _ & _ & _ & _ & Ha & _).
  rewrite Ha. discriminate.
Qed.

Lemma chosen_step (ev : Event) (s : State) :
  tidy s ->
  chosenCountdown (hook (tracking s)) ->
  chosenCountdown (hook (tracking (step ev s))).
Proof.
  intros T C. assert (C' := C). destruct C' as [Cd Cw].
  destruct ev as [| i | | | d | id]; unfold step.
  - unfold handleStartSession.
    destruct (negb (sessionActive (hook (tracking s)))); [ exact C | ].
    now apply chosen_stopSession.
  - destruct (showSessionModal s); [ | exact C ].
    destruct (input i (modal s)) as [m' [cfg | |]] eqn:I; try exact C.
    destruct (modal_selects_whole_minutes i (modal s) m' cfg I) as [R M].
    unfold handleSessionTypeSelected, chosenCountdown, countingDown, wholeMinutes.
    simpl. repeat split; try lia; assumption.
  - unfold startCamera. destruct (detectionLoop s); exact C.
  - exact C.
  - destruct (detectionLoop s) as [r|]; [ | exact C ].
    unfold handleDetectionUpdate.
    destruct (seenActive r); [ | exact C ].
    cbn [tracking].
    destruct (updateFocusStateOf_keeps r d (tracking s)) as (Ka & _).
    destruct (updateFocusStateOf_countdown r d (tracking s)) as (Kr & Kt & Kd).
    unfold chosenCountdown, countingDown in *.
    rewrite Ka, Kr, Kt, Kd. split; assumption.
  - cbn [tracking]. unfold fire.
    destruct (findTimer id (env (tracking s))) as [tm|] eqn:F; [ | exact C ].
    assert (A : sessionActive (hook (tracking s)) = true).
    { destruct T as (_ & _ & Hl & _).
      destruct (sessionActive (hook (tracking s))); [ reflexivity | ].
      unfold findTimer in F. rewrite Hl in F. discriminate. }
    assert (K : timerCallback tm <> ElapsedTick).
    { destruct T as (_ & _ & Hl & _). rewrite A in Hl.
      destruct Hl as (k & _ & _ & _ & El).
      apply find_some in F. destruct F as [Hin _]. rewrite El in Hin.
      destruct Hin as [<- | [<- | []]]; discriminate. }
    destruct (timerCallback tm); [ congruence | | exact C ].
    split; [ now apply countingDown_countdownTick | ].
    specialize (Cw A). unfold countdownTick.
    destruct (remainingTime (hook (tracking s)) <=? 1).
    + unfold handleSessionComplete.
      destruct (hook_stopSession
                  (mkWorld (notify SessionComplete (env (tracking s)))
                           (hook (tracking s))))
        as (_ & _ & _ & _ & _ & _ & _ & _ & Ha & _).
      simpl. rewrite Ha. discriminate.
    + simpl. tauto.
Qed.

(** In the application the countdown is that of the session chosen on
    the modal: while a session is active its target is a whole number of
    minutes from 1 to 180, at least one second remains, and the seconds
    left and the seconds counted add up to the target; the seconds left
    are never negative. *)
Theorem app_countdown
    (t0 : Z) (bridge : bool) (script : list (Z * Event)) :
  let h := hook (tracking (run script (loaded (fresh t0 bridge)))) in
  0 <= remainingTime h /\
  (sessionActive h = true ->
   (60 <= targetDuration h <= 10800 /\ targetDuration h mod 60 = 0) /\
   1 <= remainingTime h /\
   remainingTime h + sessionDuration h = targetDuration h).
Proof.
  assert (G : forall s, tidy s -> chosenCountdown (hook (tracking s)) ->
                        chosenCountdown (hook (tracking (run script s)))).
  { induction script as [| [t ev] rest IH]; intros s T C; [ exact C | ].
    change (run ((t, ev) :: rest) s) with (run rest (step ev (at_time t s))).
    apply IH.
    - apply tidy_step, tidy_at_time, T.
    - apply chosen_step; [ apply tidy_at_time, T | exact C ]. }
  intros h.
  destruct (G (loaded (fresh t0 bridge)) (tidy_loaded t0 bridge)) as [[B A] W].
  { unfold chosenCountdown, countingDown. simpl.
    repeat split; try lia; discriminate. }
  fold h in B, A, W. split; [ lia | ].
  intros Act. split; [ exact (W Act) | exact (A Act) ].
Qed.

Lemma app_countdown_witness :
  let t0 := 1700000000000 in
  let script := [ (t0, SessionButton); (t0 + 500, OnModal CustomButton);
                  (t0 + 900, OnModal (TypeDuration "2"));
                  (t0 + 1000, OnModal StartCustomButton);
                  (t0 + 2000, TimerFires 1%nat);
                  (t0 + 3000, TimerFires 1%nat) ] in
  let h := hook (tracking (run script (loaded (fresh t0 true)))) in
  remainingTime h + sessionDuration h = targetDuration h.
Proof.
  intros t0 script h.
  destruct (app_countdown t0 true script) as [_ H].
  apply H. reflexivity.
Defined.

End ApplicationRuns.

(** * The camera and the session *)

Section CameraFirst.
Import Tracker ModalButtons App AppFacts.

Lemma notices_notify_other (n m : Notice) (e : Env) :
  n <> m -> notices n (notify m e) = notices n e.
Proof.
  intros H. unfold notify, notices.
  destruct (notifyExposed e); [ | reflexivity ].
  simpl. rewrite filter_app, length_app.
  destruct n, m; simpl; try lia; congruence.
Qed.

Lemma notices_startSession (n : Notice) (cfg : SessionConfig) (w : World) :
  notices n (env (startSession cfg w)) = notices n (env w).
Proof.
  unfold startSession, setInterval, emit, notices. simpl.
  rewrite !filter_app, !length_app. destruct n; simpl; lia.
Qed.

Lemma notices_fire (id : nat) (w : World) :
  notices ComeBack (env (fire id w)) = notices ComeBack (env w).
Proof.
  unfold fire.
  destruct (findTimer id (env w)) as [t|]; [ | reflexivity ].
  destruct (timerCallback t); [ reflexivity | | ].
  - unfold countdownTick.
    destruct (remainingTime (hook w) <=? 1); [ | reflexivity ].
    unfold handleSessionComplete, setSessionDuration, setRemainingTime.
    cbn [env].
    destruct (counts_stopSession ComeBack
                (mkWorld (notify SessionComplete (env w)) (hook w))) as (N & _).
    rewrite N. cbn [env]. apply notices_notify_other. discriminate.
  - unfold waterReminder. cbn [env]. apply notices_notify_other. discriminate.
Qed.

Lemma untracked_step (ev : Event) (s : State) :
  (ev = StartCamera -> sessionActive (hook (tracking s)) = false) ->
  deaf s = true -> untracked (tracking s) ->
  deaf (step ev s) = true /\ untracked (tracking (step ev s)).
Proof.
  intros Idle D U. assert (U' := U). destruct U' as (Uf & Ud & Ua & Un).
  destruct ev as [| i | | | d | id]; unfold step.
  - unfold handleStartSession.
    destruct (negb (sessionActive (hook (tracking s)))); [ now split | ].
    split; [ exact D | ].
    destruct (hook_stopSession (tracking s)) as (_ & _ & Hf & Hd & Ha & _).
    destruct (counts_stopSession ComeBack (tracking s)) as (N & _).
    unfold untracked. cbn [tracking]. rewrite Hf, Hd, Ha, N. now repeat split.
  - destruct (showSessionModal s); [ | now split ].
    destruct (input i (modal s)) as [m' [cfg | |]]; try (now split).
    split; [ exact D | ].
    unfold handleSessionTypeSelected, untracked. cbn [tracking].
    rewrite notices_startSession. now repeat split.
  - unfold startCamera.
    destruct (detectionLoop s) as [r|] eqn:L; [ now split | ].
    unfold deaf. cbn [detectionLoop tracking render seenActive].
    rewrite (Idle eq_refl). now split.
  - now split.
  - assert (D' := D). unfold deaf in D'.
    destruct (detectionLoop s) as [r|] eqn:L; [ | now split ].
    unfold handleDetectionUpdate. apply negb_true_iff in D'. rewrite D'.
    now split.
  - split; [ exact D | ].
    destruct (fire_keeps_buckets id (tracking s)) as (_ & _ & Hf & Hd & Ha & _).
    cbv zeta in Hf, Hd, Ha.
    unfold untracked. cbn [tracking]. rewrite Hf, Hd, Ha, notices_fire.
    now repeat split.
Qed.

(** A camera started outside a session never tracks.  If every press of
    Start Camera comes while no session is active (as when the camera is
    started first and the session afterwards), the handler its loop
    holds returns at once at every detection, for as long as that loop
    runs: whatever sessions are started, watched and stopped, the three
    buckets stay at 0, the focus score is 0 and no come-back notice is
    ever sent. *)
Theorem app_camera_started_idle_never_tracks
    (t0 : Z) (bridge : bool) (script : list (Z * Event)) :
  camerasStartIdle script (loaded (fresh t0 bridge)) ->
  let w := tracking (run script (loaded (fresh t0 bridge))) in
  focusedTime (hook w) = 0%Q /\
  distractedTime (hook w) = 0%Q /\
  awayTime (hook w) = 0%Q /\
  (focusScore (hook w) == 0)%Q /\
  notices ComeBack (env w) = 0%nat.
Proof.
  assert (G : forall s, deaf s = true -> untracked (tracking s) ->
                        camerasStartIdle script s ->
                        untracked (tracking (run script s))).
  { induction script as [| [t ev] rest IH]; intros s D U I; [ exact U | ].
    change (run ((t, ev) :: rest) s) with (run rest (step ev (at_time t s))).
    destruct I as [I0 I].
    destruct (untracked_step ev (at_time t s) I0 D U) as [D' U'].
    now apply IH. }
  intros I w.
  destruct (G (loaded (fresh t0 bridge))) as (Hf & Hd & Ha & Hn);
    try assumption; try reflexivity.
  { now repeat split. }
  fold w in Hf, Hd, Ha, Hn. repeat split; try assumption.
  unfold focusScore. rewrite Hf.
  destruct (0 <? sessionDuration (hook w)); [ | reflexivity ].
  unfold Qdiv. ring.
Qed.

(** The camera first, then a Pomodoro session watched for 15 seconds
    without a face and for a second with one. *)
Lemma app_camera_started_idle_never_tracks_witness :
  let t0 := 1700000000000 in
  let script := [ (t0, StartCamera);
                  (t0 + 100, SessionButton); (t0 + 500, OnModal PomodoroButton) ]
                ++ map (fun k => (t0 + 500 + 100 * Z.of_nat k,
                                  Detection (mkDetection false 0))) (seq 1 150)
                ++ map (fun k => (t0 + 15500 + 100 * Z.of_nat k,
                                  Detection (mkDetection true 0.9))) (seq 1 10) in
  let w := tracking (run script (loaded (fresh t0 true))) in
  sessionActive (hook w) = true /\
  awayTime (hook w) = 0%Q /\ notices ComeBack (env w) = 0%nat.
Proof.
  intros t0 script w.
  destruct (app_camera_started_idle_never_tracks t0 true script)
    as (_ & _ & Ha & _ & Hn).
  - vm_compute. repeat split; discriminate.
  - repeat split; assumption.
Defined.

(** The session first, then the camera: the loop keeps the handler of a
    render with no away period open.  Over 15 seconds without a face the
    time is credited and no come-back notice is sent. *)
Example app_away_stream_sends_no_notice :
  let t0 := 1700000000000 in
  let script := [ (t0, SessionButton); (t0 + 500, OnModal PomodoroButton);
                  (t0 + 1000, StartCamera) ]
                ++ map (fun k => (t0 + 1000 + 100 * Z.of_nat k,
                                  Detection (mkDetection false 0))) (seq 1 150) in
  let w := tracking (run script (loaded (fresh t0 true))) in
  sessionActive (hook w) = true /\
  (awayTime (hook w) == 15.5)%Q /\
  notices ComeBack (env w) = 0%nat.
Proof. vm_compute. repeat split. Qed.

End CameraFirst.

(** * Reading and writing numbers *)

Section Decimal.
Import SessionTypeModal Digits.
Local Open Scope string_scope.

Lemma digits_string_of_uint (u : Decimal.uint) :
  forall a : Z,
    digits (NilEmpty.string_of_uint u) (Some a) = Some (horner u a).
Proof.
  induction u; intros a; simpl; try reflexivity; apply IHu.
Qed.

Lemma digits_from_nothing (u : Decimal.uint) :
  u <> Decimal.Nil ->
  digits (NilEmpty.string_of_uint u) None = Some (horner u 0).
Proof.
  intros H. destruct u; [ contradiction | .. ]; simpl;
    apply digits_string_of_uint.
Qed.

Lemma horner_of_uint_acc (u : Decimal.uint) :
  forall p : positive, Z.pos (Pos.of_uint_acc u p) = horner u (Z.pos p).
Proof.
  induction u; intros p; cbn [Pos.of_uint_acc horner]; try reflexivity;
    rewrite IHu; f_equal; lia.
Qed.

Lemma horner_of_uint (u : Decimal.uint) :
  Z.of_N (Pos.of_uint u) = horner u 0.
Proof.
  induction u; simpl; try reflexivity; try exact IHu;
    rewrite horner_of_uint_acc; reflexivity.
Qed.

Lemma horner_to_uint (p : positive) : horner (Pos.to_uint p) 0 = Z.pos p.
Proof.
  rewrite <- horner_of_uint, DecimalPos.Unsigned.of_to. reflexivity.
Qed.

(** The text of a strictly positive number is read as given: no white
    space to skip, no sign. *)
Lemma parseInt_unsigned (u : Decimal.uint) :
  u <> Decimal.Nil ->
  parseInt (NilEmpty.string_of_uint u) = Some (horner u 0).
Proof.
  intros H. rewrite <- (digits_from_nothing u H).
  destruct u; [ contradiction | .. ]; reflexivity.
Qed.

Lemma string_of_uint_nonnil (u : Decimal.uint) :
  u <> Decimal.Nil -> NilZero.string_of_uint u = NilEmpty.string_of_uint u.
Proof. intros H. destruct u; [ contradiction | .. ]; reflexivity. Qed.

Lemma parseInt_minus (rest : string) :
  parseInt (String "-" rest) = option_map Z.opp (digits rest None).
Proof. reflexivity. Qed.

Lemma parseInt_toString (n : Z) : parseInt (toString n) = Some n.
Proof.
  unfold toString. destruct n as [| p | p]; [ reflexivity | | ].
  - assert (H := DecimalPos.Unsigned.to_uint_nonnil p).
    cbn [Z.to_int NilZero.string_of_int].
    rewrite (string_of_uint_nonnil _ H), (parseInt_unsigned _ H).
    now rewrite horner_to_uint.
  - assert (H := DecimalPos.Unsigned.to_uint_nonnil p).
    cbn [Z.to_int NilZero.string_of_int].
    rewrite (string_of_uint_nonnil _ H), parseInt_minus.
    rewrite (digits_from_nothing _ H), horner_to_uint. reflexivity.
Qed.

(** Whole minutes are read back.  Within the integers a JavaScript
    number holds exactly, [parseInt] reads the decimal text of an integer
    as that integer, so a custom input that is the decimal text of [n] is
    accepted exactly when [n] is from 1 to 180, with a session of
    [n * 60] seconds named after [n]. *)
Theorem whole_minutes_are_read_back (n : Z) :
  Z.abs n <= 2 ^ 53 ->
  parseInt (toString n) = Some n /\
  snd (handleCustomSubmit (typed (toString n))) =
    if (1 <=? n)%Z && (n <=? 180)%Z
    then Some (mkConfig custom (n * 60) (toString n ++ " Minute Session"))
    else None.
Proof.
  intros _.
  split; [ apply parseInt_toString | ].
  unfold handleCustomSubmit, typed, handleCustomInputChange.
  cbn [customDuration]. rewrite parseInt_toString.
  destruct (n <? 1)%Z eqn:E1.
  - apply Z.ltb_lt in E1.
    replace (1 <=? n)%Z with false by (symmetry; apply Z.leb_gt; lia).
    reflexivity.
  - apply Z.ltb_ge in E1.
    replace (1 <=? n)%Z with true by (symmetry; apply Z.leb_le; lia).
    destruct (180 <? n)%Z eqn:E2.
    + apply Z.ltb_lt in E2.
      replace (n <=? 180)%Z with false by (symmetry; apply Z.leb_gt; lia).
      reflexivity.
    + apply Z.ltb_ge in E2.
      replace (n <=? 180)%Z with true by (symmetry; apply Z.leb_le; lia).
      reflexivity.
Qed.

Lemma whole_minutes_are_read_back_witness :
  parseInt (toString 90) = Some 90%Z /\
  snd (handleCustomSubmit (typed (toString 90))) =
    Some (mkConfig custom 5400 "90 Minute Session") /\
  snd (handleCustomSubmit (typed (toString (-5)))) = None.
Proof.
  destruct (whole_minutes_are_read_back 90) as [P S];
    [ vm_compute; discriminate | ].
  destruct (whole_minutes_are_read_back (-5)) as [_ S'];
    [ vm_compute; discriminate | ].
  repeat split; assumption.
Defined.

End Decimal.

(** * Time formatting *)

Section Formatting.
Import SessionTypeModal Digits TimeUtils.
Local Open Scope string_scope.

Lemma Qfloor_div (q : Q) (k : Z) :
  0 < k -> Qfloor (q / inject_Z k) = Qfloor q / k.
Proof.
  intros Hk. destruct q as [a d]. destruct k as [| p | p]; try lia.
  unfold Qfloor, Qdiv, Qmult, Qinv, inject_Z. simpl.
  rewrite Z.mul_1_r, Pos2Z.inj_mul.
  symmetry. apply Z.div_div; lia.
Qed.

Lemma Qfloor_minus (q : Q) (z : Z) :
  Qfloor (q - inject_Z z) = Qfloor q - z.
Proof.
  destruct q as [a d].
  unfold Qfloor, Qminus, Qplus, Qopp, inject_Z. simpl.
  rewrite Pos.mul_1_r, Z.mul_1_r.
  replace (a + - z * Z.pos d) with (a + (- z) * Z.pos d) by ring.
  rewrite Z.div_add by lia. lia.
Qed.

Lemma trunc_nonneg (q : Q) : (0 <= q)%Q -> trunc q = Qfloor q.
Proof.
  intros H. unfold trunc. apply Qle_bool_iff in H. now rewrite H.
Qed.

Lemma quotient_nonneg (t : Q) (b : Z) :
  (0 <= t)%Q -> 0 < b -> (0 <= t / inject_Z b)%Q.
Proof.
  intros Ht Hb. apply Qle_shift_div_l.
  - change 0%Q with (inject_Z 0). now rewrite <- Zlt_Qlt.
  - now rewrite Qmult_0_l.
Qed.

Lemma remainder_nonneg (t : Q) (b : Z) :
  (0 <= t)%Q -> 0 < b ->
  (remainder t b == t - inject_Z (b * (Qfloor t / b)))%Q.
Proof.
  intros Ht Hb. unfold remainder.
  rewrite (trunc_nonneg _ (quotient_nonneg t b Ht Hb)), (Qfloor_div t b Hb).
  rewrite inject_Z_mult. reflexivity.
Qed.

Lemma Qfloor_remainder (t : Q) (b : Z) :
  (0 <= t)%Q -> 0 < b -> Qfloor (remainder t b) = Qfloor t mod b.
Proof.
  intros Ht Hb. rewrite (remainder_nonneg t b Ht Hb), Qfloor_minus.
  rewrite Z.mod_eq by lia. reflexivity.
Qed.

Lemma Qfloor_nonneg (t : Q) : (0 <= t)%Q -> 0 <= Qfloor t.
Proof.
  intros H. change 0 with (Qfloor 0). now apply Qfloor_resp_le.
Qed.

(** The three fields both formats compute, for a time that is not
    negative: hours, minutes and seconds of the whole seconds. *)
Lemma fields (t : Q) :
  (0 <= t)%Q ->
  Qfloor (t / 3600) = Qfloor t / 3600 /\
  Qfloor (remainder t 3600 / 60) = Qfloor t mod 3600 / 60 /\
  Qfloor (remainder t 60) = Qfloor t mod 60.
Proof.
  intros Ht. repeat split.
  - apply (Qfloor_div t 3600). lia.
  - change 60%Q with (inject_Z 60).
    rewrite (Qfloor_div (remainder t 3600) 60) by lia.
    rewrite (Qfloor_remainder t 3600 Ht) by lia. reflexivity.
  - apply (Qfloor_remainder t 60 Ht). lia.
Qed.

Lemma append_assoc (a b c : string) : (a ++ b) ++ c = a ++ (b ++ c).
Proof.
  induction a as [| x a IH]; simpl; [ reflexivity | now rewrite IH ].
Qed.

(** [formatDuration] shows the whole seconds.  For a time that is not
    negative the fraction of a second never shows: below a minute the
    seconds, below an hour minutes and seconds, from an hour on hours
    and minutes only, all taken from the whole seconds of the time. *)
Theorem formatDuration_shows_whole_seconds (t : Q) :
  (0 <= t)%Q ->
  formatDuration t = shown (Qfloor t).
Proof.
  intros Ht. unfold formatDuration.
  destruct (Qeq_bool t 0) eqn:E.
  - apply Qeq_bool_iff in E. rewrite E. reflexivity.
  - destruct (fields t Ht) as (Hh & Hm & Hs). rewrite Hh, Hm, Hs.
    assert (Hn := Qfloor_nonneg t Ht). set (n := Qfloor t) in *.
    unfold shown.
    destruct (n <? 60)%Z eqn:L60; [ apply Z.ltb_lt in L60 | apply Z.ltb_ge in L60 ].
    + replace (n / 3600) with 0 by (symmetry; apply Z.div_small; lia).
      replace (n mod 3600) with n by (symmetry; apply Z.mod_small; lia).
      replace (n / 60) with 0 by (symmetry; apply Z.div_small; lia).
      replace (n mod 60) with n by (symmetry; apply Z.mod_small; lia).
      simpl. reflexivity.
    + destruct (n <? 3600)%Z eqn:L3600;
        [ apply Z.ltb_lt in L3600 | apply Z.ltb_ge in L3600 ].
      * replace (n / 3600) with 0 by (symmetry; apply Z.div_small; lia).
        replace (n mod 3600) with n by (symmetry; apply Z.mod_small; lia).
        assert (0 < n / 60) by (apply Z.div_str_pos; lia).
        replace (0 <? n / 60)%Z with true by (symmetry; apply Z.ltb_lt; lia).
        simpl. rewrite append_assoc. reflexivity.
      * assert (0 < n / 3600) by (apply Z.div_str_pos; lia).
        replace (0 <? n / 3600)%Z with true by (symmetry; apply Z.ltb_lt; lia).
        simpl. rewrite append_assoc. reflexivity.
Qed.

Lemma formatDuration_shows_whole_seconds_witness :
  formatDuration 59.9 = "59s" /\ formatDuration 3725.5 = "1h 2m".
Proof.
  split.
  - rewrite formatDuration_shows_whole_seconds by discriminate. reflexivity.
  - rewrite formatDuration_shows_whole_seconds by discriminate. reflexivity.
Defined.

Lemma digits_zeros (j : nat) (s : string) :
  digits (repeatChar j "0" ++ s) (Some 0) = digits s (Some 0).
Proof.
  induction j as [| j IH]; [ reflexivity | exact IH ].
Qed.

(** The text of a number that is not negative: digits only, at least one. *)
Lemma toString_digits (k : Z) :
  0 <= k ->
  exists u, u <> Decimal.Nil /\
            toString k = NilEmpty.string_of_uint u /\ horner u 0 = k.
Proof.
  intros Hk. destruct k as [| p | p]; [ | | lia ].
  - exists (Decimal.D0 Decimal.Nil). repeat split. discriminate.
  - assert (H := DecimalPos.Unsigned.to_uint_nonnil p).
    exists (Pos.to_uint p). split; [ exact H | split ].
    + unfold toString, SessionTypeModal.toString.
      cbn [Z.to_int NilZero.string_of_int].
      apply string_of_uint_nonnil, H.
    + apply horner_to_uint.
Qed.

(** A padded field is read back as its number. *)
Lemma parseInt_padStart (k : Z) :
  0 <= k -> parseInt (padStart 2 "0" (toString k)) = Some k.
Proof.
  intros Hk. destruct (toString_digits k Hk) as (u & Hu & -> & Hv).
  unfold padStart.
  destruct (2 - String.length (NilEmpty.string_of_uint u))%nat as [| j].
  - simpl. rewrite (parseInt_unsigned u Hu). now rewrite Hv.
  - change (repeatChar (S j) "0" ++ NilEmpty.string_of_uint u)
      with (String "0" (repeatChar j "0" ++ NilEmpty.string_of_uint u)).
    change (parseInt (String "0" (repeatChar j "0" ++ NilEmpty.string_of_uint u)))
      with (digits (repeatChar j "0" ++ NilEmpty.string_of_uint u) (Some 0)).
    rewrite digits_zeros, digits_string_of_uint. now rewrite Hv.
Qed.

Lemma padStart_length (k : Z) :
  0 <= k < 100 -> String.length (padStart 2 "0" (toString k)) = 2%nat.
Proof.
  intros Hk.
  assert (A : forallb (fun i => Nat.eqb
                (String.length (padStart 2 "0" (toString (Z.of_nat i)))) 2)
              (seq 0 100) = true) by (vm_compute; reflexivity).
  rewrite forallb_forall in A.
  specialize (A (Z.to_nat k)). rewrite Z2Nat.id in A by lia.
  apply Nat.eqb_eq, A, in_seq. lia.
Qed.

Lemma append_length (a b : string) :
  String.length (a ++ b) = (String.length a + String.length b)%nat.
Proof.
  induction a as [| x a IH]; simpl; [ reflexivity | now rewrite IH ].
Qed.

Lemma append_same_length (a a' b b' : string) :
  String.length a = String.length a' ->
  a ++ b = a' ++ b' -> a = a' /\ b = b'.
Proof.
  revert a'. induction a as [| x a IH]; intros [| x' a'] L E;
    try discriminate.
  - now split.
  - injection L as L. injection E as -> E.
    destruct (IH a' L E) as [-> ->]. now split.
Qed.

Lemma fields_determine (n n' : Z) :
  n / 3600 = n' / 3600 ->
  n mod 3600 / 60 = n' mod 3600 / 60 ->
  n mod 60 = n' mod 60 ->
  n = n'.
Proof.
  intros Hh Hm Hs.
  assert (E : forall x, x = 3600 * (x / 3600) + (60 * (x mod 3600 / 60) + x mod 60)).
  { intros x.
    rewrite (Z.div_mod x 3600) at 1 by lia. f_equal.
    rewrite (Z.div_mod (x mod 3600) 60) at 1 by lia. f_equal.
    replace 3600 with (60 * 60) by reflexivity.
    rewrite Z.rem_mul_r by lia.
    rewrite Z.mul_comm, Z.mod_add by lia. apply Z.mod_mod. lia. }
  rewrite (E n), (E n'). now rewrite Hh, Hm, Hs.
Qed.

(** [formatSessionTime] is a faithful display.  For times that are not
    negative and below a hundred hours the text has exactly eight
    characters, and two times get the same text exactly when they have
    the same whole seconds. *)
Theorem formatSessionTime_faithful (a b : Q) :
  (0 <= a)%Q -> (0 <= b)%Q ->
  Qfloor a < 360000 -> Qfloor b < 360000 ->
  String.length (formatSessionTime a) = 8%nat /\
  (formatSessionTime a = formatSessionTime b <-> Qfloor a = Qfloor b).
Proof.
  intros Ha Hb La Lb.
  assert (Na := Qfloor_nonneg a Ha). assert (Nb := Qfloor_nonneg b Hb).
  assert (F : forall t, (0 <= t)%Q ->
            formatSessionTime t =
              padStart 2 "0" (toString (Qfloor t / 3600)) ++ ":" ++
              padStart 2 "0" (toString (Qfloor t mod 3600 / 60)) ++ ":" ++
              padStart 2 "0" (toString (Qfloor t mod 60))).
  { intros t Ht. unfold formatSessionTime.
    destruct (fields t Ht) as (Hh & Hm & Hs). rewrite Hh, Hm, Hs. reflexivity. }
  rewrite (F a Ha), (F b Hb).
  set (n := Qfloor a) in *. set (n' := Qfloor b) in *.
  assert (R : forall x, 0 <= x < 360000 ->
            0 <= x / 3600 < 100 /\ 0 <= x mod 3600 / 60 < 100 /\
            0 <= x mod 60 < 100).
  { intros x Hx.
    assert (0 <= x / 3600 < 100)
      by (split; [ apply Z.div_pos; lia | apply Z.div_lt_upper_bound; lia ]).
    assert (0 <= x mod 3600 < 3600) by (apply Z.mod_pos_bound; lia).
    assert (0 <= x mod 3600 / 60 < 100)
      by (split; [ apply Z.div_pos; lia | apply Z.div_lt_upper_bound; lia ]).
    assert (0 <= x mod 60 < 60) by (apply Z.mod_pos_bound; lia).
    repeat split; lia. }
  destruct (R n (conj Na La)) as (Rh & Rm & Rs).
  destruct (R n' (conj Nb Lb)) as (Rh' & Rm' & Rs').
  split.
  - rewrite !append_length, !padStart_length by assumption. reflexivity.
  - split.
    + intros E.
      apply append_same_length in E;
        [ | now rewrite !padStart_length by assumption ].
      destruct E as [Eh E]. injection E as E.
      apply append_same_length in E;
        [ | now rewrite !padStart_length by assumption ].
      destruct E as [Em E]. injection E as Es.
      apply (f_equal parseInt) in Eh, Em, Es.
      rewrite !parseInt_padStart in Eh, Em, Es by lia.
      injection Eh as Eh. injection Em as Em. injection Es as Es.
      now apply fields_determine.
    + intros ->. reflexivity.
Qed.

Lemma formatSessionTime_faithful_witness :
  String.length (formatSessionTime 1499) = 8%nat /\
  formatSessionTime 1499 <> formatSessionTime 1500.
Proof.
  destruct (formatSessionTime_faithful 1499 1500) as [L E];
    try discriminate; try reflexivity.
  split; [ exact L | ]. intros H. apply E in H. discriminate H.
Defined.

End Formatting.

(** * Detection loop *)

Section DetectionLoop.
Import FaceDetector CameraFeed.

Lemma detect_ready (frame : option (list MediaPipeDetection)) (now : Z)
    (d : Detector) :
  detector d = true -> isInitialized d = true ->
  let '(d', results) := detect frame now d in
  detector d' = true /\ isInitialized d' = true /\
  detectionInterval d' = detectionInterval d /\
  match results with
  | Some _ => detectionInterval d <= now - lastDetectionTime d /\
              lastDetectionTime d' = now
  | None => d' = d
  end.
Proof.
  intros Hd Hi. unfold detect. rewrite Hd, Hi. simpl.
  destruct (now - lastDetectionTime d <? detectionInterval d) eqn:E.
  - now repeat split.
  - apply Z.ltb_ge in E. destruct frame; simpl; now repeat split.
Qed.

(** The detector throttles the loop.  With an initialized detector, the
    objects the camera hands to [onDetectionUpdate] are at least
    [detectionInterval] apart, the first of them that long after
    [lastDetectionTime], however often and at whatever instants the
    frames come; and an interval set with [setDetectionInterval] is never
    below 33 ms. *)
Theorem detections_are_throttled
    (frames : list (Z * option (list MediaPipeDetection))) (d : Detector)
    (interval : Z) :
  detector d = true -> isInitialized d = true ->
  spaced (detectionInterval d) (lastDetectionTime d)
         (map fst (reports frames (running d))) /\
  spaced 33 (lastDetectionTime d)
         (map fst (reports frames (running (setDetectionInterval interval d)))).
Proof.
  assert (G : forall frames d,
             detector d = true -> isInitialized d = true ->
             spaced (detectionInterval d) (lastDetectionTime d)
                    (map fst (reports frames (running d)))).
  { clear. induction frames as [| [now frame] rest IH]; intros d Hd Hi;
      [ exact I | ].
    unfold reports; fold reports. unfold detectAndDraw, running.
    cbn [detectorRef videoRef canvasRef negb orb].
    assert (R := detect_ready frame now d Hd Hi).
    destruct (detect frame now d) as [d' [r |]].
    - destruct R as (Hd' & Hi' & Hg & Hgap & Hl).
      cbn [map fst]. split; [ exact Hgap | ].
      rewrite <- Hl, <- Hg. apply (IH d' Hd' Hi').
    - destruct R as (_ & _ & _ & ->). apply (IH d Hd Hi). }
  assert (M : forall gap gap' previous l,
             gap' <= gap -> spaced gap previous l -> spaced gap' previous l).
  { clear. intros gap gap' previous l Hg. revert previous.
    induction l as [| t l IH]; intros previous H; [ exact I | ].
    destruct H as [H1 H2]. split; [ lia | now apply IH ]. }
  intros Hd Hi. split; [ now apply G | ].
  apply (M (Z.max 33 interval)); [ lia | ].
  apply (G frames (setDetectionInterval interval d)); assumption.
Qed.

Lemma detections_are_throttled_witness :
  let d := mkDetector true true 0 100 in
  let frames := map (fun k => (1700000000000 + 16 * Z.of_nat k, Some []))
                    (seq 0 20) in
  spaced 100 0 (map fst (reports frames (running d))).
Proof.
  intros d frames.
  apply (detections_are_throttled frames d 100); reflexivity.
Defined.

Lemma orZero_score (raw : MediaPipeDetection) : orZero (score raw) = score raw.
Proof.
  unfold score. destruct (categories raw) as [| s rest]; [ reflexivity | ].
  unfold orZero. destruct (Qeq_bool s 0) eqn:E; [ reflexivity | ].
  now rewrite E.
Qed.

(** What reaches the hook from a frame.  When the detector looks at a
    frame: a frame without a detection, or one on which MediaPipe throws,
    is reported with no face and confidence 0, which the hook classifies
    [away]; a frame with detections is reported with the score of the
    first one only, and the hook classifies it [focused] exactly when
    that score is 0.6 or more.  A detector that never got initialized
    reports every frame, unthrottled, as having no face. *)
Theorem frame_classification
    (frame : option (list MediaPipeDetection)) (now : Z) (d : Detector) :
  (isInitialized d = false ->
   detectAndDraw frame now (running d)
     = (running d, Some (mkDetection false 0))) /\
  (detector d = true -> isInitialized d = true ->
   detectionInterval d <= now - lastDetectionTime d ->
   exists report,
     snd (detectAndDraw frame now (running d)) = Some report /\
     match frame with
     | None | Some [] =>
         report = mkDetection false 0 /\ Tracker.classify report = away
     | Some (first :: _) =>
         report = mkDetection true (score first) /\
         Tracker.classify report =
           if Qle_bool 0.6 (score first) then focused else distracted
     end).
Proof.
  split.
  - intros Hi. unfold detectAndDraw, running, detect.
    cbn [detectorRef videoRef canvasRef negb orb]. rewrite Hi.
    destruct d; reflexivity.
  - intros Hd Hi Hgap. unfold detectAndDraw, running, detect.
    cbn [detectorRef videoRef canvasRef negb orb]. rewrite Hd, Hi.
    cbn [negb orb].
    replace (now - lastDetectionTime d <? detectionInterval d) with false
      by (symmetry; apply Z.ltb_ge; lia).
    destruct frame as [[| first others] |]; eexists; (split; [ reflexivity | ]).
    + split; reflexivity.
    + cbn [map List.length faces faceDetected firstConfidence toFace
           FaceDetector.confidence Nat.ltb Nat.leb].
      rewrite orZero_score. split; reflexivity.
    + split; reflexivity.
Qed.

Lemma frame_classification_witness :
  let d := mkDetector true true 1700000000000 100 in
  let face := mkRaw (mkBox 0.2 0.2 0.3 0.4) [0.93%Q] [] in
  let other := mkRaw (mkBox 0.6 0.1 0.2 0.3) [0.55%Q] [] in
  exists report,
    snd (detectAndDraw (Some [face; other]) 1700000000100 (running d))
      = Some report /\
    Tracker.classify report = focused.
Proof.
  intros d face other.
  destruct (frame_classification (Some [face; other]) 1700000000100 d)
    as [_ H].
  destruct H as (report & Hr & -> & Hc); try reflexivity.
  exists (mkDetection true (score face)). split; [ exact Hr | exact Hc ].
Defined.

End DetectionLoop.

(** * The two versions over their whole interface *)

Section WholeInterface.
Import Versions.

Lemma find_fresh (l more : list Timer) (n : nat) (cb : Callback) (ms : Z) :
  Forall (fun t => (timerId t < n)%nat) l ->
  find (fun t => Nat.eqb (timerId t) n) (l ++ mkTimer n cb ms :: more)
    = Some (mkTimer n cb ms).
Proof.
  induction l as [| t l IH]; intros H; simpl.
  - now rewrite Nat.eqb_refl.
  - inversion H as [| ? ? Ht Hl]; subst.
    replace (Nat.eqb (timerId t) n) with false
      by (symmetry; apply Nat.eqb_neq; lia).
    now apply IH.
Qed.

Lemma freshIds_filter (keep : Timer -> bool) (l : list Timer) (n : nat) :
  (1 <= n)%nat /\ Forall (fun t => (timerId t < n)%nat) l ->
  (1 <= n)%nat /\ Forall (fun t => (timerId t < n)%nat) (filter keep l).
Proof.
  intros [Hn H]. split; [ exact Hn | ].
  apply Forall_forall. intros t Ht. apply filter_In in Ht.
  exact (proj1 (Forall_forall _ _) H t (proj1 Ht)).
Qed.

Lemma freshIds_grow (l : list Timer) (n : nat) (cb : Callback) (ms : Z) :
  (1 <= n)%nat /\ Forall (fun t => (timerId t < n)%nat) l ->
  (1 <= S n)%nat /\
  Forall (fun t => (timerId t < S n)%nat) (l ++ [mkTimer n cb ms]).
Proof.
  intros [Hn H]. split; [ lia | ]. apply Forall_app. split.
  - eapply Forall_impl; [ | exact H ]. simpl. intros; lia.
  - repeat constructor.
Qed.

Lemma freshIds_stopSession (w : Tracker.World) :
  freshIds (Tracker.env w) ->
  freshIds (Tracker.env (fst (Tracker.stopSession w))).
Proof.
  intros H. unfold freshIds.
  destruct (live_stopSession w) as [k ->].
  destruct (env_stopSession w) as (_ & -> & _).
  now apply freshIds_filter.
Qed.

Lemma intervalRef_stopSession (w : Tracker.World) :
  (forall i, Tracker.intervalRef (Tracker.hook w) = Some i -> (1 <= i)%nat) ->
  Tracker.intervalRef (Tracker.hook (fst (Tracker.stopSession w))) = None.
Proof.
  intros H. unfold Tracker.stopSession, Tracker.release.
  destruct (Tracker.intervalRef (Tracker.hook w)) as [[| k]|].
  - specialize (H 0%nat eq_refl). lia.
  - destruct (Tracker.waterIntervalRef (Tracker.hook w)) as [[| j]|]; reflexivity.
  - destruct (Tracker.waterIntervalRef (Tracker.hook w)) as [[| j]|]; reflexivity.
Qed.

Lemma early_stopSession (w : Early.World) :
  let w' := fst (Early.stopSession w) in
  Early.sessionActive (Early.hook w') = false /\
  Early.sessionDuration (Early.hook w') = Early.sessionDuration (Early.hook w) /\
  Early.focusedTime (Early.hook w') = Early.focusedTime (Early.hook w) /\
  Early.distractedTime (Early.hook w') = Early.distractedTime (Early.hook w) /\
  Early.awayTime (Early.hook w') = Early.awayTime (Early.hook w) /\
  Early.currentStateRef (Early.hook w') = Early.currentStateRef (Early.hook w) /\
  Early.lastUpdateTimeRef (Early.hook w') = Early.lastUpdateTimeRef (Early.hook w) /\
  clock (Early.env w') = clock (Early.env w) /\
  (freshIds (Early.env w) -> freshIds (Early.env w')) /\
  ((forall i, Early.intervalRef (Early.hook w) = Some i -> (1 <= i)%nat) ->
   Early.intervalRef (Early.hook w') = None).
Proof.
  unfold Early.stopSession.
  destruct (Early.intervalRef (Early.hook w)) as [[| k]|]; simpl;
    repeat match goal with |- _ /\ _ => split end;
    try reflexivity; try tauto.
  - intros H. specialize (H 0%nat eq_refl). lia.
  - intros H. now apply freshIds_filter.
Qed.

Lemma early_updateFocusStateOf (seen : bool) (d : DetectionResults) (w : Early.World) :
  Early.env (Early.updateFocusStateOf seen d w) = Early.env w /\
  Early.intervalRef (Early.hook (Early.updateFocusStateOf seen d w))
    = Early.intervalRef (Early.hook w).
Proof.
  unfold Early.updateFocusStateOf.
  destruct (negb _ || negb _); now split.
Qed.

Lemma early_updateFocusState (d : DetectionResults) (w : Early.World) :
  Early.env (Early.updateFocusState d w) = Early.env w /\
  Early.intervalRef (Early.hook (Early.updateFocusState d w))
    = Early.intervalRef (Early.hook w).
Proof. apply early_updateFocusStateOf. Qed.

Lemma clock_updateFocusStateOf (r : Tracker.Render) (d : DetectionResults)
    (w : Tracker.World) :
  clock (Tracker.env (Tracker.updateFocusStateOf r d w)) = clock (Tracker.env w).
Proof.
  unfold Tracker.updateFocusStateOf.
  destruct (negb _ || negb _); [ reflexivity | ].
  destruct (Tracker.classify d); try reflexivity.
  destruct (negb (truthy (Tracker.seenAwayStartTime r))); [ reflexivity | ].
  destruct (Qle_bool 10 _ && negb _); [ | reflexivity ].
  cbn [Tracker.env]. unfold notify.
  now destruct (notifyExposed (Tracker.env w)).
Qed.

Lemma remainingTime_updateFocusState (d : DetectionResults) (w : Tracker.World) :
  Tracker.remainingTime (Tracker.hook (Tracker.updateFocusState d w))
    = Tracker.remainingTime (Tracker.hook w).
Proof.
  apply (updateFocusStateOf_countdown (Tracker.render (Tracker.hook w)) d w).
Qed.

Lemma paired_call (c : Call) (we : Early.World) (wl : Tracker.World) :
  paired we wl ->
  (c = CallTick -> Tracker.sessionActive (Tracker.hook wl) = true ->
   1 < Tracker.remainingTime (Tracker.hook wl)) ->
  paired (early c we) (later c wl).
Proof.
  intros (Hs & Hc & Fe & Fl & Ha) Hr.
  destruct c as [cfg | d | | | r d]; unfold early, later.
  - (* start *)
    unfold paired. split; [ now apply sameCore_startSession | ].
    unfold Early.startSession, Tracker.startSession, setInterval, emit.
    cbn [Early.env Early.hook Tracker.env Tracker.hook clock live nextTimer fst snd
         Tracker.sessionActive Early.intervalRef Tracker.intervalRef].
    split; [ exact Hc | ].
    split; [ now apply freshIds_grow | ].
    split; [ now apply freshIds_grow, freshIds_grow | ].
    destruct Fe as [Ne Fe]. destruct Fl as [Nl Fl]. split.
    + exists (nextTimer (Early.env we)), (mkTimer (nextTimer (Early.env we)) ElapsedTick 1000).
      repeat split; try assumption.
      unfold findTimer. cbn [live]. now apply find_fresh.
    + exists (nextTimer (Tracker.env wl)),
             (mkTimer (nextTimer (Tracker.env wl)) CountdownTick 1000).
      repeat split; try assumption.
      unfold findTimer. cbn [live]. rewrite <- app_assoc. now apply find_fresh.
  - (* update *)
    destruct (early_updateFocusState d we) as [Ee Ei].
    destruct (updateFocusState_keeps d wl) as (Ka & Ki & _ & Kl & Kn & _).
    assert (Kc := clock_handle (Tracker.Update d) wl). simpl in Kc.
    unfold paired. rewrite Ee, Ei, Ka, Ki, Kc.
    split; [ now apply sameCore_updateFocusState | ].
    split; [ exact Hc | ]. split; [ exact Fe | ].
    split; [ unfold freshIds; now rewrite Kl, Kn | ].
    unfold findTimer in *. now rewrite Kl.
  - (* stop *)
    destruct (early_stopSession we)
      as (Sa & Sd & Sf & Sdi & Saw & Sc & Sl & Sclk & Sfresh & Sref).
    destruct (hook_stopSession wl)
      as (_ & Td & Tf & Tdi & Taw & Tl & Tc & _ & Ta & _).
    destruct (env_stopSession wl) as (Tclk & _).
    destruct Hs as (Cs1 & Cs2 & Cs3 & Cs4 & Cs5 & Cs6 & Cs7).
    unfold paired, Both.sameCore.
    rewrite Sa, Sd, Sf, Sdi, Saw, Sc, Sl, Sclk, Td, Tf, Tdi, Taw, Tl, Tc, Ta, Tclk.
    split; [ repeat split; assumption | ].
    split; [ exact Hc | ].
    split; [ now apply Sfresh | ].
    split; [ now apply freshIds_stopSession | ].
    split.
    + apply Sref. intros i Hi.
      destruct (Tracker.sessionActive (Tracker.hook wl)).
      * destruct Ha as [(ie & te & Ei & Le & _) _]. congruence.
      * destruct Ha as [Ei _]. congruence.
    + apply intervalRef_stopSession. intros i Hi.
      destruct (Tracker.sessionActive (Tracker.hook wl)).
      * destruct Ha as [_ (il & tl & Ei & Ll & _)]. congruence.
      * destruct Ha as [_ Ei]. congruence.
  - (* tick *)
    destruct (Tracker.sessionActive (Tracker.hook wl)) eqn:A.
    + destruct Ha as [(ie & te & Ei & Le & Fie & Ke) (il & tl & Eil & Ll & Fil & Kl)].
      rewrite Ei, Eil. unfold earlyFire, Tracker.fire. rewrite Fie, Ke, Fil, Kl.
      rewrite (countdownTick_running wl (Hr eq_refl eq_refl)).
      destruct Hs as (Cs1 & Cs2 & Cs3 & Cs4 & Cs5 & Cs6 & Cs7).
      unfold paired, Both.sameCore, Early.setSessionDuration,
        Tracker.setSessionDuration, Tracker.setRemainingTime.
      cbn [Early.env Early.hook Tracker.env Tracker.hook
           Early.sessionActive Early.sessionDuration Early.focusedTime
           Early.distractedTime Early.awayTime Early.currentStateRef
           Early.lastUpdateTimeRef Early.intervalRef
           Tracker.sessionActive Tracker.sessionDuration Tracker.focusedTime
           Tracker.distractedTime Tracker.awayTime Tracker.currentStateRef
           Tracker.lastUpdateTimeRef Tracker.intervalRef].
      rewrite A.
      split; [ repeat split; try assumption; congruence | ].
      split; [ exact Hc | ]. split; [ exact Fe | ]. split; [ exact Fl | ].
      split.
      * exists ie, te. now repeat split.
      * exists il, tl. now repeat split.
    + destruct Ha as [Ei Eil]. rewrite Ei, Eil.
      unfold paired. rewrite A. tauto.
  - (* an update through kept functions *)
    destruct (early_updateFocusStateOf (Tracker.seenActive r) d we) as [Ee Ei].
    destruct (updateFocusStateOf_keeps r d wl) as (Ka & Ki & _ & Kl & Kn & _).
    assert (Kc := clock_updateFocusStateOf r d wl).
    unfold paired. rewrite Ee, Ei, Ka, Ki, Kc.
    split; [ now apply sameCore_updateFocusStateOf | ].
    split; [ exact Hc | ]. split; [ exact Fe | ].
    split; [ unfold freshIds; now rewrite Kl, Kn | ].
    unfold findTimer in *. now rewrite Kl.
Qed.

Lemma paired_run (script : list (Z * Call)) :
  forall (n : nat) (we : Early.World) (wl : Tracker.World),
    paired we wl ->
    (ticksIn script <= n)%nat ->
    longerThan n script ->
    (Tracker.sessionActive (Tracker.hook wl) = true ->
     Z.of_nat (ticksIn script) < Tracker.remainingTime (Tracker.hook wl)) ->
    paired (runEarly script we) (runLater script wl).
Proof.
  induction script as [| [t c] rest IH]; intros n we wl P Hn Hl Hb; [ exact P | ].
  change (runEarly ((t, c) :: rest) we)
    with (runEarly rest (early c (Early.at_time t we))).
  change (runLater ((t, c) :: rest) wl)
    with (runLater rest (later c (Tracker.at_time t wl))).
  assert (P' : paired (Early.at_time t we) (Tracker.at_time t wl)).
  { destruct P as (Hs & Hc & Fe & Fl & Ha). unfold paired.
    split; [ exact Hs | ]. split; [ reflexivity | ].
    split; [ exact Fe | ]. split; [ exact Fl | exact Ha ]. }
  apply (IH n).
  - apply paired_call; [ exact P' | ].
    intros -> A. specialize (Hb A). simpl in Hb. simpl. lia.
  - destruct c; simpl in Hn; lia.
  - destruct c; simpl in Hl; tauto.
  - destruct c as [cfg | d | | | r d]; unfold later.
    + intros _. simpl. simpl in Hl, Hn. lia.
    + destruct (updateFocusState_keeps d (Tracker.at_time t wl)) as (Ka & _).
      rewrite Ka, remainingTime_updateFocusState. exact Hb.
    + destruct (hook_stopSession (Tracker.at_time t wl))
        as (_ & _ & _ & _ & _ & _ & _ & _ & Ta & _).
      rewrite Ta. discriminate.
    + cbn [Tracker.at_time Tracker.hook].
      destruct (Tracker.intervalRef (Tracker.hook wl)) as [il|]; [ | exact (fun A => ltac:(specialize (Hb A); simpl in Hb; simpl; lia)) ].
      unfold Tracker.fire.
      destruct (findTimer il (Tracker.env (Tracker.at_time t wl))) as [tm|];
        [ | exact (fun A => ltac:(specialize (Hb A); simpl in Hb; simpl; lia)) ].
      destruct (timerCallback tm).
      * simpl. intros A. specialize (Hb A). simpl in Hb. lia.
      * unfold Tracker.countdownTick. cbn [Tracker.at_time Tracker.hook].
        destruct (Tracker.remainingTime (Tracker.hook wl) <=? 1) eqn:E.
        -- unfold Tracker.handleSessionComplete.
           destruct (hook_stopSession
                       (Tracker.mkWorld
                          (notify SessionComplete (setClock t (Tracker.env wl)))
                          (Tracker.hook wl)))
             as (_ & _ & _ & _ & _ & _ & _ & _ & Ta & _).
           simpl. rewrite Ta. discriminate.
        -- simpl. intros A. specialize (Hb A). simpl in Hb. lia.
      * simpl. intros A. specialize (Hb A). simpl in Hb. lia.
    + destruct (updateFocusStateOf_keeps r d (Tracker.at_time t wl)) as (Ka & _).
      destruct (updateFocusStateOf_countdown r d (Tracker.at_time t wl)) as (Kr & _).
      rewrite Ka, Kr. exact Hb.
Qed.

(** The two versions agree until a countdown completes.  Drive both
    hooks from the page load with the same calls at the same instants --
    starts, updates through the latest functions or through functions
    kept from one render, stops and the ticks of their one-second
    interval -- where every session is started with more seconds than
    the script has ticks, so that no countdown reaches zero: they agree
    on whether a session is active, on the seconds counted, on the three
    buckets and on the focus score. *)
Theorem versions_agree_until_completion
    (t0 : Z) (bridge : bool) (script : list (Z * Call)) :
  longerThan (ticksIn script) script ->
  let e := Early.hook (runEarly script (Early.mount (fresh t0 bridge))) in
  let l := Tracker.hook (runLater script (Tracker.mount (fresh t0 bridge))) in
  Early.sessionActive e = Tracker.sessionActive l /\
  Early.sessionDuration e = Tracker.sessionDuration l /\
  Early.focusedTime e = Tracker.focusedTime l /\
  Early.distractedTime e = Tracker.distractedTime l /\
  Early.awayTime e = Tracker.awayTime l /\
  Early.focusScore e = Tracker.focusScore l.
Proof.
  intros Hl e l.
  destruct (paired_run script (ticksIn script)
              (Early.mount (fresh t0 bridge)) (Tracker.mount (fresh t0 bridge)))
    as ((Ha & Hd & Hf & Hdi & Haw & _) & _); try assumption.
  - unfold paired. simpl. repeat split; try lia; constructor.
  - lia.
  - discriminate.
  - fold e in Ha, Hd, Hf, Hdi, Haw. fold l in Ha, Hd, Hf, Hdi, Haw.
    repeat split; try assumption.
    unfold Early.focusScore, Tracker.focusScore. now rewrite Hd, Hf.
Qed.

Lemma versions_agree_until_completion_witness :
  let t0 := 1700000000000 in
  let script := [ (t0, CallStart (mkConfig shortSprint 900 "Short Sprint"));
                  (t0 + 100, CallUpdate (mkDetection true 0.9));
                  (t0 + 1000, CallTick);
                  (t0 + 1100, CallUpdate (mkDetection true 0.9));
                  (t0 + 2000, CallTick);
                  (t0 + 2500, CallStop);
                  (t0 + 3000, CallTick) ] in
  let e := Early.hook (runEarly script (Early.mount (fresh t0 true))) in
  let l := Tracker.hook (runLater script (Tracker.mount (fresh t0 true))) in
  Early.focusScore e = Tracker.focusScore l.
Proof.
  intros t0 script e l.
  apply (versions_agree_until_completion t0 true script).
  simpl. lia.
Defined.

Lemma paired_sessions (script : list (Z * Call)) :
  forall (we : Early.World) (wl : Tracker.World),
    paired we wl ->
    outlasts script ->
    (Tracker.sessionActive (Tracker.hook wl) = true ->
     Z.of_nat (ticksAhead script) < Tracker.remainingTime (Tracker.hook wl)) ->
    paired (runEarly script we) (runLater script wl).
Proof.
  induction script as [| [t c] rest IH]; intros we wl P Hl Hb; [ exact P | ].
  change (runEarly ((t, c) :: rest) we)
    with (runEarly rest (early c (Early.at_time t we))).
  change (runLater ((t, c) :: rest) wl)
    with (runLater rest (later c (Tracker.at_time t wl))).
  assert (P' : paired (Early.at_time t we) (Tracker.at_time t wl)).
  { destruct P as (Hs & Hc & Fe & Fl & Ha). unfold paired.
    split; [ exact Hs | ]. split; [ reflexivity | ].
    split; [ exact Fe | ]. split; [ exact Fl | exact Ha ]. }
  apply IH.
  - apply paired_call; [ exact P' | ].
    intros -> A. specialize (Hb A). simpl in Hb. simpl. lia.
  - destruct c; simpl in Hl; tauto.
  - destruct c as [cfg | d | | | r d]; unfold later.
    + intros _. simpl. simpl in Hl. lia.
    + destruct (updateFocusState_keeps d (Tracker.at_time t wl)) as (Ka & _).
      rewrite Ka, remainingTime_updateFocusState. exact Hb.
    + destruct (hook_stopSession (Tracker.at_time t wl))
        as (_ & _ & _ & _ & _ & _ & _ & _ & Ta & _).
      rewrite Ta. discriminate.
    + assert (Hb' : Tracker.sessionActive (Tracker.hook wl) = true ->
                    Z.of_nat (ticksAhead rest) + 1
                      < Tracker.remainingTime (Tracker.hook wl)).
      { intros A. specialize (Hb A). simpl ticksAhead in Hb. lia. }
      clear Hb. cbn [Tracker.at_time Tracker.hook].
      destruct (Tracker.intervalRef (Tracker.hook wl)) as [il|];
        [ | intros A; specialize (Hb' A); simpl; lia ].
      unfold Tracker.fire.
      destruct (findTimer il (Tracker.env (Tracker.at_time t wl))) as [tm|];
        [ | intros A; specialize (Hb' A); simpl; lia ].
      destruct (timerCallback tm).
      * simpl. intros A. specialize (Hb' A). lia.
      * unfold Tracker.countdownTick. cbn [Tracker.at_time Tracker.hook].
        destruct (Tracker.remainingTime (Tracker.hook wl) <=? 1) eqn:E.
        -- unfold Tracker.handleSessionComplete.
           destruct (hook_stopSession
                       (Tracker.mkWorld
                          (notify SessionComplete (setClock t (Tracker.env wl)))
                          (Tracker.hook wl)))
             as (_ & _ & _ & _ & _ & _ & _ & _ & Ta & _).
           simpl. rewrite Ta. discriminate.
        -- simpl. intros A. specialize (Hb' A). lia.
      * simpl. intros A. specialize (Hb' A). lia.
    + destruct (updateFocusStateOf_keeps r d (Tracker.at_time t wl)) as (Ka & _).
      destruct (updateFocusStateOf_countdown r d (Tracker.at_time t wl)) as (Kr & _).
      rewrite Ka, Kr. exact Hb.
Qed.

(** C10, as the two hooks have it.  Drive both from the first render
    with the same calls at the same instants: starts, updates (through
    the latest functions or through functions kept from one render),
    stops and the ticks of the one-second interval each of them arms.
    As long as
    every session is started with more seconds than it receives ticks,
    so that the countdown of the later version never reaches zero, the
    two agree on the three buckets and on the focus score, and also on
    whether a session is active and on the seconds counted. *)
Theorem C10_versions_agree_while_counting
    (t0 : Z) (bridge : bool) (script : list (Z * Call)) :
  outlasts script ->
  let e := Early.hook (runEarly script (Early.mount (fresh t0 bridge))) in
  let l := Tracker.hook (runLater script (Tracker.mount (fresh t0 bridge))) in
  Early.focusedTime e = Tracker.focusedTime l /\
  Early.distractedTime e = Tracker.distractedTime l /\
  Early.awayTime e = Tracker.awayTime l /\
  Early.focusScore e = Tracker.focusScore l /\
  Early.sessionActive e = Tracker.sessionActive l /\
  Early.sessionDuration e = Tracker.sessionDuration l.
Proof.
  intros Hl e l.
  destruct (paired_sessions script
              (Early.mount (fresh t0 bridge)) (Tracker.mount (fresh t0 bridge)))
    as ((Ha & Hd & Hf & Hdi & Haw & _) & _); try assumption.
  - unfold paired. simpl. repeat split; try lia; constructor.
  - discriminate.
  - fold e in Ha, Hd, Hf, Hdi, Haw. fold l in Ha, Hd, Hf, Hdi, Haw.
    repeat split; try assumption.
    unfold Early.focusScore, Tracker.focusScore. now rewrite Hd, Hf.
Qed.

(** Two one-minute sessions, the first stopped after 30 ticks and an
    update through kept functions, the second watched for 59 seconds:
    neither countdown completes. *)
Lemma C10_versions_agree_while_counting_witness :
  let t0 := 1700000000000 in
  let cfg := mkConfig custom 60 "1 Minute Session" in
  let d := mkDetection true 0.9 in
  let script := watched t0 cfg d 30
                ++ [ (t0 + 30200, CallKept (Tracker.mkRender true None false) d);
                     (t0 + 30500, CallStop) ]
                ++ watched (t0 + 40000) cfg d 59 in
  let e := Early.hook (runEarly script (Early.mount (fresh t0 true))) in
  let l := Tracker.hook (runLater script (Tracker.mount (fresh t0 true))) in
  Early.focusedTime e = Tracker.focusedTime l /\
  Early.focusScore e = Tracker.focusScore l.
Proof.
  intros t0 cfg d script e l.
  destruct (C10_versions_agree_while_counting t0 true script)
    as (Hf & _ & _ & Hs & _).
  - simpl. lia.
  - split; [ exact Hf | exact Hs ].
Defined.

(** C10 as stated fails once a countdown completes.  A one-minute
    session with a focused detection in the middle of each second and
    the tick at its end, for 62 seconds: the later version stops itself
    at the sixtieth tick and turns the later detections away, the early
    one goes on counting. *)
Lemma C10_counterexample :
  let t0 := 1700000000000 in
  let script := watched t0 (mkConfig custom 60 "1 Minute Session")
                        (mkDetection true 0.9) 62 in
  let e := Early.hook (runEarly script (Early.mount (fresh t0 true))) in
  let l := Tracker.hook (runLater script (Tracker.mount (fresh t0 true))) in
  Early.sessionActive e = true /\ Tracker.sessionActive l = false /\
  (Early.focusedTime e == 61)%Q /\ (Tracker.focusedTime l == 59)%Q /\
  ~ (Early.focusedTime e == Tracker.focusedTime l)%Q /\
  ~ (Early.focusScore e == Tracker.focusScore l)%Q.
Proof.
  intros t0 script e l.
  repeat split; try (vm_compute; reflexivity);
    intros H; vm_compute in H; discriminate H.
Qed.


End WholeInterface.
